(** * PC build agent: catalog scoring, compatibility and ingestion core

    A shallow embedding of the decision logic of the [pc-agent] service:

    - [app/utils/benchmark_calculator.py]  (module [BenchmarkCalculator])
    - [app/utils/spec_extractor.py]        (module [SpecExtractor])
    - [app/utils/name_parser.py]           (module [NameParser])
    - [app/db/models.py]                   (module [Models])
    - [app/agent/tools.py]                 (modules [Tools], [ToolsQueries])
    - [app/tasks/scraper_tasks.py]         (modules [ScraperTasks], [ScraperRun])
    - [app/core/config.py]                 (module [Config])
    - [app/engine/normalizer.py], [app/engine/scorer.py]  (module [Engine])
    - [app/scrapers/ouedkniss_scraper.py]  (module [OuedknissScraper])

    Conventions of the embedding.

    - Python [str] is [string]; the text is taken to be ASCII, so
      [str.lower] maps [A-Z] to [a-z] and leaves every other character
      alone, and [\s], [\d] are their ASCII ranges.
    - Python [int] is [Z]; Python [float] is read as an exact rational
      [Q] (no rounding, no NaN, no infinities).
    - A [dict] with string keys is a [gmap string _]; a [dict] literal
      that is iterated in insertion order is an association list.
    - An exception raised inside a function is the [None] of an [option]
      result, or the [Error] constructor where the source turns the
      exception into an error string. *)

From Stdlib Require Import ZArith QArith Lqa Lia Bool Ascii String List.
From stdpp Require Import gmap strings.
Import ListNotations.

Local Open Scope string_scope.

(* ===================================================================== *)
(** ** Python strings *)
(* ===================================================================== *)

Module PyStr.

(** [c.lower()] on an ASCII character. *)
Definition lower_ascii (c : ascii) : ascii :=
  let n := N_of_ascii c in
  if ((65 <=? n) && (n <=? 90))%N then ascii_of_N (n + 32) else c.

(** [s.lower()]. *)
Fixpoint lower (s : string) : string :=
  match s with
  | EmptyString => EmptyString
  | String c s' => String (lower_ascii c) (lower s')
  end.

(** [needle in hay] on two strings: [needle] occurs as a contiguous
    block of [hay]. *)
Fixpoint contains (needle hay : string) : bool :=
  String.prefix needle hay
  || match hay with
     | EmptyString => false
     | String _ hay' => contains needle hay'
     end.

(** [c.isspace()] on ASCII: tab, LF, VT, FF, CR, the four separators
    0x1c..0x1f and the space. This is also the class [\s]. *)
Definition isspace (c : ascii) : bool :=
  let n := N_of_ascii c in
  (((9 <=? n) && (n <=? 13)) || ((28 <=? n) && (n <=? 32)))%N.

(** The class [\d] / [[0-9]]. *)
Definition isdigit (c : ascii) : bool :=
  let n := N_of_ascii c in ((48 <=? n) && (n <=? 57))%N.

(** The class [[A-Z]]. *)
Definition isupper (c : ascii) : bool :=
  let n := N_of_ascii c in ((65 <=? n) && (n <=? 90))%N.

(** The class [[a-z]]. *)
Definition islower (c : ascii) : bool :=
  let n := N_of_ascii c in ((97 <=? n) && (n <=? 122))%N.

(** [s.lstrip()], [s.rstrip()], [s.strip()]. *)
Fixpoint lstrip (s : string) : string :=
  match s with
  | EmptyString => EmptyString
  | String c s' => if isspace c then lstrip s' else s
  end.

Fixpoint rstrip (s : string) : string :=
  match s with
  | EmptyString => EmptyString
  | String c s' =>
      match rstrip s' with
      | EmptyString => if isspace c then EmptyString else String c EmptyString
      | r => String c r
      end
  end.

Definition strip (s : string) : string := rstrip (lstrip s).

(** [s.split()] with no argument: the maximal runs of non-space
    characters. [cur] is the word being read, reversed. *)
Fixpoint split_aux (cur : list ascii) (s : string) : list string :=
  let flush (rest : list string) :=
    match cur with
    | [] => rest
    | _ => string_of_list_ascii (rev cur) :: rest
    end in
  match s with
  | EmptyString => flush []
  | String c s' =>
      if isspace c then flush (split_aux [] s')
      else split_aux (c :: cur) s'
  end.

Definition split (s : string) : list string := split_aux [] s.

(** [sep.join(ws)]. *)
Fixpoint join (sep : string) (ws : list string) : string :=
  match ws with
  | [] => EmptyString
  | [w] => w
  | w :: ws' => w ++ sep ++ join sep ws'
  end.

(** [s[:n]]. *)
Definition take (n : nat) (s : string) : string := String.substring 0 n s.

(** Parse a non-empty run of ASCII digits as [int(...)] does. *)
Fixpoint int_of_digits_aux (acc : Z) (s : string) : Z :=
  match s with
  | EmptyString => acc
  | String c s' =>
      int_of_digits_aux (10 * acc + (Z.of_N (N_of_ascii c) - 48))%Z s'
  end.

Definition int_of_digits (s : string) : Z := int_of_digits_aux 0%Z s.

End PyStr.

(* ===================================================================== *)
(** ** Python numbers as rationals *)
(* ===================================================================== *)

Definition Qltb (x y : Q) : bool := negb (Qle_bool y x).
Definition Qgeb (x y : Q) : bool := Qle_bool y x.

(** Python's [min(a, b)]: the first argument unless the second is
    strictly smaller. *)
Definition py_min (a b : Q) : Q := if Qltb b a then b else a.

(* ===================================================================== *)
(** ** Values of a specification bag (the JSON [specs] column) *)
(* ===================================================================== *)

(** The values the extractors put in a bag: [int], [float], [str] and
    (for the form factors of a case) a list of [str]. *)
Inductive value : Type :=
| VInt (z : Z)
| VFloat (q : Q)
| VStr (s : string)
| VList (l : list string).

(** The attribute map [Dict[str, Any]]. *)
Abbreviation specs_t := (gmap string value).

(** Reading a value where the source does arithmetic or an ordering
    comparison with a number: anything but a number raises [TypeError]. *)
Definition as_num (v : value) : option Q :=
  match v with
  | VInt z => Some (inject_Z z)
  | VFloat q => Some q
  | _ => None
  end.

(** [specs.get(key, 0)] followed by a numeric use. *)
Definition get_num (specs : specs_t) (key : string) : option Q :=
  match specs !! key with
  | None => Some 0%Q
  | Some v => as_num v
  end.

(** [needle in v] where [v] came from [specs.get(key, "")]: substring
    test on a string, membership on a list, [TypeError] on a number. *)
Definition py_in (needle : string) (v : value) : option bool :=
  match v with
  | VStr s => Some (PyStr.contains needle s)
  | VList l => Some (existsb (String.eqb needle) l)
  | _ => None
  end.

Definition get_in (needle : string) (specs : specs_t) (key : string) : option bool :=
  match specs !! key with
  | None => Some (PyStr.contains needle "")
  | Some v => py_in needle v
  end.

(** [specs.get(key) == s] for a string literal [s]: never raises. *)
Definition get_is_str (specs : specs_t) (key : string) (s : string) : bool :=
  match specs !! key with
  | Some (VStr s') => String.eqb s' s
  | _ => false
  end.

(** Python truthiness of [specs.get(key)]. *)
Definition truthy (v : value) : bool :=
  match v with
  | VInt z => negb (Z.eqb z 0)
  | VFloat q => negb (Qeq_bool q 0)
  | VStr s => negb (String.eqb s "")
  | VList l => match l with [] => false | _ => true end
  end.

(* ===================================================================== *)
(** ** app/utils/benchmark_calculator.py *)
(* ===================================================================== *)

Module BenchmarkCalculator.

Local Open Scope Q_scope.

(** One row of a score table: base, gaming, productivity, ai. *)
Record tier := Tier { t_base : Q; t_gaming : Q; t_productivity : Q; t_ai : Q }.

Definition CPU_SCORES : list (string * tier) :=
  [ ("i9",      Tier 90 85 95 80);
    ("i7",      Tier 75 80 85 70);
    ("i5",      Tier 60 70 70 55);
    ("i3",      Tier 40 50 50 35);
    ("ryzen 9", Tier 92 88 98 85);
    ("ryzen 7", Tier 78 82 88 75);
    ("ryzen 5", Tier 65 72 75 60);
    ("ryzen 3", Tier 45 55 55 40) ].

Definition GPU_SCORES : list (string * tier) :=
  [ ("rtx 4090", Tier 100 100 95 100);
    ("rtx 4080", Tier 90 95 90 95);
    ("rtx 4070", Tier 75 85 75 80);
    ("rtx 4060", Tier 60 70 60 65);
    ("rtx 3090", Tier 95 95 90 98);
    ("rtx 3080", Tier 85 90 85 90);
    ("rtx 3070", Tier 70 80 70 75);
    ("rtx 3060", Tier 55 65 55 60);
    ("gtx 1660", Tier 40 50 35 30);
    ("gtx 1650", Tier 30 40 25 20);
    ("rx 7900",  Tier 88 92 85 75);
    ("rx 7800",  Tier 75 82 70 60);
    ("rx 7700",  Tier 65 72 60 50);
    ("rx 6600",  Tier 50 60 45 35);
    ("rx 6500",  Tier 35 45 30 25) ].

(** The [for key, scores in TABLE.items(): if key in name_lower: ...; break]
    loop: the first row whose key occurs in the lowered name, else the
    defaults set before the loop. *)
Definition lookup_tier (table : list (string * tier)) (dflt : tier)
           (name_lower : string) : tier :=
  match List.find (fun row => PyStr.contains (fst row) name_lower) table with
  | Some row => snd row
  | None => dflt
  end.

(** The returned dictionary. *)
Record scores := Scores {
  benchmark_score : Q;
  gaming_score : Q;
  productivity_score : Q;
  ai_score : Q
}.

Definition calculate_cpu_scores (name : string) (specs : specs_t) : option scores :=
  let name_lower := PyStr.lower name in
  let t := lookup_tier CPU_SCORES (Tier 50 50 50 45) name_lower in
  let base_score := t_base t in
  let gaming_score := t_gaming t in
  let productivity_score := t_productivity t in
  let ai_score := t_ai t in
  cores ← get_num specs "cores";
  let productivity_score :=
    if Qltb 0 cores then productivity_score + py_min (cores * 2) 20
    else productivity_score in
  let ai_score :=
    if Qltb 0 cores then ai_score + py_min (cores * (15 # 10)) 15
    else ai_score in
  clock ← get_num specs "base_clock_ghz";
  let gaming_score :=
    if Qltb 0 clock then gaming_score + py_min ((clock - 3) * 10) 15
    else gaming_score in
  Some (Scores (py_min base_score 100) (py_min gaming_score 100)
               (py_min productivity_score 100) (py_min ai_score 100)).

(** The VRAM ladder of [calculate_gpu_scores]. *)
Definition vram_bonus (vram : Q) : Q :=
  if Qgeb vram 24 then 20
  else if Qgeb vram 16 then 15
  else if Qgeb vram 12 then 10
  else if Qgeb vram 8 then 5
  else 0.

(** The guard [specs.get("memory_type") == "GDDR6X"]. *)
Definition is_gddr6x (specs : specs_t) : bool :=
  get_is_str specs "memory_type" "GDDR6X".

Definition calculate_gpu_scores (name : string) (specs : specs_t) : option scores :=
  let name_lower := PyStr.lower name in
  let t := lookup_tier GPU_SCORES (Tier 40 45 40 35) name_lower in
  let base_score := t_base t in
  let gaming_score := t_gaming t in
  let productivity_score := t_productivity t in
  let ai_score := t_ai t in
  vram ← get_num specs "vram_gb";
  let ai_score := ai_score + vram_bonus vram in
  let gaming_score := if is_gddr6x specs then gaming_score + 5 else gaming_score in
  let ai_score := if is_gddr6x specs then ai_score + 5 else ai_score in
  Some (Scores (py_min base_score 100) (py_min gaming_score 100)
               (py_min productivity_score 100) (py_min ai_score 100)).

Definition calculate_ram_scores (name : string) (specs : specs_t) : option scores :=
  capacity ← get_num specs "capacity_gb";
  let base_score := py_min (capacity / 32 * 100) 100 in
  base_score ←
    (if get_is_str specs "ram_type" "DDR5" then Some (base_score + 10)
     else if get_is_str specs "ram_type" "DDR4" then
            speed ← get_num specs "ram_speed";
            Some (if Qgeb speed 3600 then base_score + 5 else base_score)
     else Some base_score);
  let productivity_score := py_min (capacity / 16 * 100) 100 in
  let ai_score := py_min (capacity / 32 * 100) 100 in
  Some (Scores (py_min base_score 100) (py_min (base_score * (3 # 10)) 100)
               (py_min productivity_score 100) (py_min ai_score 100)).

(** The interface ladder of [calculate_storage_scores]. *)
Definition storage_base (specs : specs_t) : option Q :=
  nvme ← get_in "NVMe" specs "type";
  if nvme : bool then Some 80
  else ssd ← get_in "SSD" specs "type";
       Some (if ssd : bool then 60 else 40).

Definition calculate_storage_scores (name : string) (specs : specs_t) : option scores :=
  base_score ← storage_base specs;
  capacity ← get_num specs "capacity_gb";
  let base_score :=
    if Qgeb capacity 2000 then base_score + 10
    else if Qgeb capacity 1000 then base_score + 5
    else base_score in
  Some (Scores (py_min base_score 100) (py_min (base_score * (8 # 10)) 100)
               (py_min base_score 100) (py_min (base_score * (7 # 10)) 100)).

(** The efficiency ladder of [calculate_psu_scores]. *)
Definition efficiency_bonus (specs : specs_t) : option Q :=
  ti ← get_in "Titanium" specs "efficiency";
  if ti : bool then Some 10
  else pl ← get_in "Platinum" specs "efficiency";
       if pl : bool then Some 8
       else go ← get_in "Gold" specs "efficiency";
            if go : bool then Some 5
            else br ← get_in "Bronze" specs "efficiency";
                 Some (if br : bool then 2 else 0).

Definition calculate_psu_scores (name : string) (specs : specs_t) : option scores :=
  wattage ← get_num specs "wattage";
  let base_score :=
    if Qgeb wattage 1000 then 90
    else if Qgeb wattage 750 then 80
    else if Qgeb wattage 650 then 70
    else if Qgeb wattage 550 then 60
    else 50 in
  bonus ← efficiency_bonus specs;
  let base_score := base_score + bonus in
  Some (Scores (py_min base_score 100) (py_min base_score 100)
               (py_min base_score 100) (py_min base_score 100)).

(** The dispatch on [component_type.lower()]; an unknown type gets the
    neutral tuple. *)
Definition calculate_benchmark_scores (component_type name : string)
           (specs : specs_t) : option scores :=
  let ct := PyStr.lower component_type in
  if String.eqb ct "cpu" then calculate_cpu_scores name specs
  else if String.eqb ct "gpu" then calculate_gpu_scores name specs
  else if String.eqb ct "ram" then calculate_ram_scores name specs
  else if String.eqb ct "storage" then calculate_storage_scores name specs
  else if String.eqb ct "psu" then calculate_psu_scores name specs
  else Some (Scores 50 50 50 50).

End BenchmarkCalculator.

(* ===================================================================== *)
(** ** The fragment of Python's [re] the sources use *)
(* ===================================================================== *)

(** A backtracking matcher with Python's search order: alternatives left
    to right, every repetition greedy, the leftmost start position wins.
    Every repetition in the sources is over a single character class, so
    [Star] and [Plus] take a class. Only group 1 is ever read. *)
Module Re.

Inductive re : Type :=
| Cls (p : ascii -> bool)       (* one character of a class *)
| Lit (s : string)              (* a literal word *)
| Seq (a b : re)
| Alt (a b : re)
| Star (p : ascii -> bool)      (* p* *)
| Plus (p : ascii -> bool)      (* p+ *)
| Opt (a : re)                  (* a? *)
| Grp (a : re).                 (* ( a ), group 1 *)

(** [c.upper()] on an ASCII character. *)
Definition upper_ascii (c : ascii) : ascii :=
  let n := N_of_ascii c in
  if ((97 <=? n) && (n <=? 122))%N then ascii_of_N (n - 32) else c.

(** Membership of [c] in a class, under [re.IGNORECASE] when [ic]. *)
Definition test (ic : bool) (p : ascii -> bool) (c : ascii) : bool :=
  if ic then p c || p (PyStr.lower_ascii c) || p (upper_ascii c) else p c.

Definition same_char (ic : bool) (a c : ascii) : bool :=
  if ic then Ascii.eqb (PyStr.lower_ascii a) (PyStr.lower_ascii c)
  else Ascii.eqb a c.

(** Match the literal [l] at the head of [s]; the rest of [s] on success. *)
Fixpoint lit (ic : bool) (l s : string) : option string :=
  match l with
  | EmptyString => Some s
  | String a l' =>
      match s with
      | EmptyString => None
      | String c s' => if same_char ic a c then lit ic l' s' else None
      end
  end.

Section Matcher.
Context {R : Type}.

(** Greedy [p*] followed by the continuation [k]: take as many as
    possible, give back one at a time while [k] fails. *)
Fixpoint star (p : ascii -> bool) (s : string) (k : string -> option R)
  : option R :=
  match s with
  | EmptyString => k EmptyString
  | String c s' =>
      if p c then
        match star p s' k with
        | Some r => Some r
        | None => k s
        end
      else k s
  end.

(** [m ic r s cap k]: match [r] at the head of [s], then run [k] on
    what is left and on the current capture of group 1. *)
Fixpoint m (ic : bool) (r : re) (s : string) (cap : option string)
         (k : string -> option string -> option R) : option R :=
  match r with
  | Cls p =>
      match s with
      | EmptyString => None
      | String c s' => if test ic p c then k s' cap else None
      end
  | Lit l =>
      match lit ic l s with
      | Some s' => k s' cap
      | None => None
      end
  | Seq a b => m ic a s cap (fun s' cap' => m ic b s' cap' k)
  | Alt a b =>
      match m ic a s cap k with
      | Some x => Some x
      | None => m ic b s cap k
      end
  | Star p => star (test ic p) s (fun s' => k s' cap)
  | Plus p =>
      match s with
      | EmptyString => None
      | String c s' =>
          if test ic p c then star (test ic p) s' (fun s'' => k s'' cap)
          else None
      end
  | Opt a =>
      match m ic a s cap k with
      | Some x => Some x
      | None => k s cap
      end
  | Grp a =>
      m ic a s cap
        (fun s' _ =>
           k s' (Some (PyStr.take (String.length s - String.length s') s)))
  end.
End Matcher.

(** [re.search(r, s)]: the match at the leftmost position that has one.
    The result is [Some g] on a match, [g] being [match.group(1)]. *)
Fixpoint search (ic : bool) (r : re) (s : string) : option (option string) :=
  match m ic r s None (fun _ cap => Some cap) with
  | Some cap => Some cap
  | None =>
      match s with
      | EmptyString => None
      | String _ s' => search ic r s'
      end
  end.

(** [re.search(r, s)] followed by [match.group(1)] for a pattern whose
    group 1 takes part in every match. *)
Definition search1 (ic : bool) (r : re) (s : string) : option string :=
  match search ic r s with
  | Some (Some g) => Some g
  | _ => None
  end.

(** A few shared pieces. *)
Definition ws : ascii -> bool := PyStr.isspace.
Definition digit : ascii -> bool := PyStr.isdigit.
Definition is_char (a : ascii) : ascii -> bool := Ascii.eqb a.
Definition alts (ls : list string) : re :=
  match ls with
  | [] => Lit ""
  | l :: ls' => fold_left (fun acc x => Alt acc (Lit x)) ls' (Lit l)
  end.

End Re.

(* ===================================================================== *)
(** ** app/utils/spec_extractor.py *)
(* ===================================================================== *)

Module SpecExtractor.
Import Re.

(** [f"{name} {description}".lower()]. *)
Definition text_of (name description : string) : string :=
  PyStr.lower (name ++ " " ++ description).

(** The [for key, value in table.items(): if key in text: ...; break] loop. *)
Definition first_key (table : list (string * string)) (text : string)
  : option string :=
  snd <$> List.find (fun row => PyStr.contains (fst row) text) table.

(** [specs[key] = v] when the probe found something. *)
Definition set_opt (key : string) (v : option value) (specs : specs_t) : specs_t :=
  match v with
  | Some x => <[key := x]> specs
  | None => specs
  end.

(** [(\d+)] followed by [\s*] and a tail. *)
Definition num_then (tail : re) : re :=
  Seq (Grp (Plus digit)) (Seq (Star ws) tail).

(** [int(match.group(1))] for a probe of the shape [(\d+)...]. *)
Definition probe_int (r : re) (text : string) : option value :=
  (fun g => VInt (PyStr.int_of_digits g)) <$> search1 false r text.

(** [(\d+)\s*w(?:atts?)?] *)
Definition re_watts : re :=
  num_then (Seq (Lit "w") (Opt (Seq (Lit "att") (Opt (Lit "s"))))).

(** [(\d+)\s*mhz] *)
Definition re_mhz : re := num_then (Lit "mhz").

(** [float(g)] for [g] matched by [\d+\.?\d*]. *)
Fixpoint float_of_decimal_aux (ip : Z) (fp : Z) (scale : positive)
         (seen_dot : bool) (s : string) : Q :=
  match s with
  | EmptyString => (inject_Z ip + (fp # scale))%Q
  | String c s' =>
      if Ascii.eqb c "."%char then float_of_decimal_aux ip fp scale true s'
      else
        let d := (Z.of_N (N_of_ascii c) - 48)%Z in
        if seen_dot
        then float_of_decimal_aux ip (10 * fp + d)%Z (10 * scale)%positive true s'
        else float_of_decimal_aux (10 * ip + d)%Z fp scale false s'
  end.

Definition float_of_decimal (s : string) : Q :=
  float_of_decimal_aux 0 0 1 false s.

Definition cpu_sockets : list (string * string) :=
  [ ("lga1700", "LGA1700"); ("lga1200", "LGA1200"); ("lga1151", "LGA1151");
    ("am5", "AM5"); ("am4", "AM4"); ("am3", "AM3+") ].

Definition extract_cpu_specs (name description : string) : specs_t :=
  let text := text_of name description in
  let specs : specs_t := ∅ in
  let specs := set_opt "socket_type" (VStr <$> first_key cpu_sockets text) specs in
  let specs :=
    set_opt "cores"
      (probe_int (num_then (Alt (Lit "core") (Lit "cores"))) text) specs in
  let specs :=
    set_opt "threads"
      (probe_int (num_then (Alt (Lit "thread") (Lit "threads"))) text) specs in
  let specs :=
    set_opt "base_clock_ghz"
      ((fun g => VFloat (float_of_decimal g))
         <$> search1 false
               (Seq (Grp (Seq (Plus digit)
                              (Seq (Opt (Cls (is_char "."%char))) (Star digit))))
                    (Seq (Star ws) (Lit "ghz"))) text) specs in
  let specs := set_opt "tdp_watts" (probe_int re_watts text) specs in
  specs.

(** The three VRAM probes, tried in order. *)
Definition vram_patterns : list re :=
  [ num_then (Seq (Lit "gb") (Seq (Star ws) (Lit "vram")));
    num_then (Seq (Lit "gb") (Seq (Star ws) (Lit "gddr")));
    num_then (Lit "go") ].

Fixpoint first_probe (ps : list re) (text : string) : option value :=
  match ps with
  | [] => None
  | p :: ps' =>
      match probe_int p text with
      | Some v => Some v
      | None => first_probe ps' text
      end
  end.

(** The memory-type ladder of [extract_gpu_specs]. *)
Definition gpu_memory_type (text : string) : option string :=
  if PyStr.contains "gddr6" text || PyStr.contains "gd6" text then Some "GDDR6"
  else if PyStr.contains "gddr6x" text then Some "GDDR6X"
  else if PyStr.contains "gddr5" text then Some "GDDR5"
  else None.

Definition extract_gpu_specs (name description : string) : specs_t :=
  let text := text_of name description in
  let specs : specs_t := ∅ in
  let specs := set_opt "vram_gb" (first_probe vram_patterns text) specs in
  let specs := set_opt "memory_type" (VStr <$> gpu_memory_type text) specs in
  let specs := set_opt "tdp_watts" (probe_int re_watts text) specs in
  specs.

Definition mobo_sockets : list (string * string) :=
  [ ("lga1700", "LGA1700"); ("lga1200", "LGA1200"); ("lga1151", "LGA1151");
    ("am5", "AM5"); ("am4", "AM4") ].

Definition chipsets : list (string * string) :=
  [ ("b550", "B550"); ("x570", "X570"); ("b650", "B650"); ("x670", "X670");
    ("z690", "Z690"); ("z790", "Z790"); ("b660", "B660"); ("h610", "H610") ].

(** The DDR ladder shared by the motherboard and RAM extractors. *)
Definition ddr_type (text : string) : option string :=
  if PyStr.contains "ddr5" text then Some "DDR5"
  else if PyStr.contains "ddr4" text then Some "DDR4"
  else if PyStr.contains "ddr3" text then Some "DDR3"
  else None.

Definition mobo_form_factors : list (string * string) :=
  [ ("atx", "ATX"); ("matx", "mATX"); ("micro atx", "mATX");
    ("itx", "ITX"); ("mini itx", "ITX") ].

Definition extract_motherboard_specs (name description : string) : specs_t :=
  let text := text_of name description in
  let specs : specs_t := ∅ in
  let specs := set_opt "socket_type" (VStr <$> first_key mobo_sockets text) specs in
  let specs := set_opt "chipset" (VStr <$> first_key chipsets text) specs in
  let specs := set_opt "ram_type" (VStr <$> ddr_type text) specs in
  let specs := set_opt "ram_speed" (probe_int re_mhz text) specs in
  let specs := set_opt "form_factor" (VStr <$> first_key mobo_form_factors text) specs in
  specs.

(** [ddr[45][\-\s]*(\d+)] *)
Definition re_ddr_speed : re :=
  Seq (Lit "ddr")
      (Seq (Cls (fun c => is_char "4"%char c || is_char "5"%char c))
           (Seq (Star (fun c => is_char "-"%char c || ws c))
                (Grp (Plus digit)))).

Definition extract_ram_specs (name description : string) : specs_t :=
  let text := text_of name description in
  let specs : specs_t := ∅ in
  let specs := set_opt "capacity_gb" (probe_int (num_then (Lit "gb")) text) specs in
  let specs := set_opt "ram_type" (VStr <$> ddr_type text) specs in
  let specs :=
    match probe_int re_mhz text with
    | Some v => <["ram_speed" := v]> specs
    | None => set_opt "ram_speed" (probe_int re_ddr_speed text) specs
    end in
  specs.

Definition extract_storage_specs (name description : string) : specs_t :=
  let text := text_of name description in
  let specs : specs_t := ∅ in
  let specs :=
    set_opt "capacity_gb"
      ((fun g =>
          let capacity := PyStr.int_of_digits g in
          VInt (if PyStr.contains "tb" text then capacity * 1000 else capacity)%Z)
         <$> search1 false (num_then (Alt (Lit "gb") (Lit "tb"))) text) specs in
  let specs :=
    set_opt "type"
      (if PyStr.contains "nvme" text || PyStr.contains "m.2" text
          || PyStr.contains "pcie" text then Some (VStr "NVMe SSD")
       else if PyStr.contains "ssd" text then Some (VStr "SSD")
       else if PyStr.contains "hdd" text || PyStr.contains "hard drive" text
            then Some (VStr "HDD")
       else None) specs in
  let specs :=
    set_opt "interface"
      (if PyStr.contains "sata" text then Some (VStr "SATA")
       else if PyStr.contains "nvme" text || PyStr.contains "m.2" text
            then Some (VStr "NVMe")
       else None) specs in
  specs.

Definition extract_psu_specs (name description : string) : specs_t :=
  let text := text_of name description in
  let specs : specs_t := ∅ in
  let specs := set_opt "wattage" (probe_int re_watts text) specs in
  let specs :=
    set_opt "efficiency"
      (if PyStr.contains "80+ titanium" text then Some (VStr "80+ Titanium")
       else if PyStr.contains "80+ platinum" text then Some (VStr "80+ Platinum")
       else if PyStr.contains "80+ gold" text then Some (VStr "80+ Gold")
       else if PyStr.contains "80+ bronze" text then Some (VStr "80+ Bronze")
       else if PyStr.contains "80+ silver" text then Some (VStr "80+ Silver")
       else if PyStr.contains "80+" text then Some (VStr "80+")
       else None) specs in
  specs.

Definition extract_case_specs (name description : string) : specs_t :=
  let text := text_of name description in
  let specs : specs_t := ∅ in
  let form_factors : list string :=
    ((if PyStr.contains "atx" text then ["ATX"] else [])
     ++ (if PyStr.contains "matx" text || PyStr.contains "micro atx" text
         then ["mATX"] else [])
     ++ (if PyStr.contains "itx" text || PyStr.contains "mini itx" text
         then ["ITX"] else []))%list in
  match form_factors with
  | [] => specs
  | _ => <["form_factor" := VList form_factors]> specs
  end.

Definition extract_specs (component_type name description : string) : specs_t :=
  let ct := PyStr.lower component_type in
  if String.eqb ct "cpu" then extract_cpu_specs name description
  else if String.eqb ct "gpu" then extract_gpu_specs name description
  else if String.eqb ct "motherboard" then extract_motherboard_specs name description
  else if String.eqb ct "ram" then extract_ram_specs name description
  else if String.eqb ct "storage" then extract_storage_specs name description
  else if String.eqb ct "psu" then extract_psu_specs name description
  else if String.eqb ct "case" then extract_case_specs name description
  else ∅.

End SpecExtractor.

(* ===================================================================== *)
(** ** app/utils/name_parser.py *)
(* ===================================================================== *)

Module NameParser.
Import Re.

(** [MANUFACTURERS.items()] in iteration order. The literal repeats some
    keys (always with the same value); a repeated key keeps the place
    of its first occurrence. *)
Definition MANUFACTURERS : list (string * string) :=
  [ ("intel", "Intel"); ("amd", "AMD"); ("ryzen", "AMD"); ("core", "Intel");
    ("pentium", "Intel"); ("celeron", "Intel"); ("threadripper", "AMD");
    ("epyc", "AMD");
    ("nvidia", "NVIDIA"); ("geforce", "NVIDIA"); ("rtx", "NVIDIA");
    ("gtx", "NVIDIA"); ("gt", "NVIDIA"); ("radeon", "AMD"); ("rx", "AMD");
    ("asus", "ASUS"); ("msi", "MSI"); ("gigabyte", "Gigabyte");
    ("asrock", "ASRock"); ("evga", "EVGA"); ("biostar", "Biostar");
    ("corsair", "Corsair"); ("g.skill", "G.Skill"); ("kingston", "Kingston");
    ("crucial", "Crucial"); ("samsung", "Samsung"); ("hyperx", "HyperX");
    ("team", "Team Group"); ("patriot", "Patriot");
    ("western digital", "Western Digital"); ("wd", "Western Digital");
    ("seagate", "Seagate"); ("sandisk", "SanDisk"); ("adata", "ADATA");
    ("seasonic", "Seasonic"); ("be quiet", "be quiet!");
    ("cooler master", "Cooler Master"); ("thermaltake", "Thermaltake");
    ("antec", "Antec");
    ("nzxt", "NZXT"); ("fractal design", "Fractal Design");
    ("lian li", "Lian Li"); ("phanteks", "Phanteks") ].

Definition alnum (c : ascii) : bool :=
  PyStr.isupper c || PyStr.islower c || PyStr.isdigit c.

Definition upper_or_digit (c : ascii) : bool :=
  PyStr.isupper c || PyStr.isdigit c.

(** [(?:Intel|AMD|Ryzen|Core|Pentium|Celeron|Threadripper|EPYC)\s+([A-Za-z0-9\-\s]+)] *)
Definition cpu_pattern : re :=
  Seq (alts ["Intel"; "AMD"; "Ryzen"; "Core"; "Pentium"; "Celeron";
             "Threadripper"; "EPYC"])
      (Seq (Plus ws)
           (Grp (Plus (fun c => alnum c || is_char "-"%char c || ws c)))).

(** [(?:RTX|GTX|GT|RX|Radeon|GeForce)\s*([0-9]+(?:\s*[A-Z]+)?)] *)
Definition gpu_pattern : re :=
  Seq (alts ["RTX"; "GTX"; "GT"; "RX"; "Radeon"; "GeForce"])
      (Seq (Star ws)
           (Grp (Seq (Plus digit)
                     (Opt (Seq (Star ws) (Plus PyStr.isupper)))))).

(** One capital, digits, an optional capital, optional digits, all
    inside group 1: the chipset-code template ( [A-Z][0-9]+[A-Z]?[0-9]* ). *)
Definition mobo_pattern : re :=
  Grp (Seq (Cls PyStr.isupper)
           (Seq (Plus digit) (Seq (Opt (Cls PyStr.isupper)) (Star digit)))).

(** [DDR[45][\-\s]*([0-9]+)] *)
Definition ram_pattern : re :=
  Seq (Lit "DDR")
      (Seq (Cls (fun c => is_char "4"%char c || is_char "5"%char c))
           (Seq (Star (fun c => is_char "-"%char c || ws c))
                (Grp (Plus digit)))).

(** [([A-Z0-9]+\s*[A-Z0-9]+)] *)
Definition storage_pattern : re :=
  Grp (Seq (Plus upper_or_digit) (Seq (Star ws) (Plus upper_or_digit))).

Definition stop_words : list string :=
  ["new"; "used"; "occasion"; "dzd"; "da"; "algeria"].

(** The returned dictionary. *)
Record name_data := NameData {
  manufacturer : option string;
  model : option string
}.

(** Python's [x or y] on an optional string: [x] unless it is [None]
    or empty. *)
Definition str_or (x : option string) (y : option string) : option string :=
  match x with
  | Some s => if String.eqb s "" then y else x
  | None => y
  end.

(** The category-specific template. *)
Definition model_by_pattern (name component_type : string) : option string :=
  let name_lower := PyStr.lower name in
  if String.eqb component_type "cpu" then
    PyStr.strip <$> search1 true cpu_pattern name
  else if String.eqb component_type "gpu" then
    PyStr.strip <$> search1 true gpu_pattern name
  else if String.eqb component_type "motherboard" then
    search1 false mobo_pattern name
  else if String.eqb component_type "ram" then
    (fun g =>
       "DDR" ++ (if PyStr.contains "ddr5" name_lower then "5" else "4")
             ++ "-" ++ g)
      <$> search1 true ram_pattern name
  else if String.eqb component_type "storage" then
    PyStr.strip <$> search1 false storage_pattern name
  else None.

(** The fallback on the second and third remaining words. *)
Definition model_by_words (name : string) : option string :=
  let words := PyStr.split name in
  let filtered :=
    List.filter
      (fun w => negb (existsb (String.eqb (PyStr.lower w)) stop_words)) words in
  if (1 <? List.length filtered)%nat
  then Some (PyStr.join " " (firstn 2 (skipn 1 filtered)))
  else None.

Definition parse_component_name (name component_type : string) : name_data :=
  if String.eqb name "" then NameData None None
  else
    let name_lower := PyStr.lower name in
    let manufacturer :=
      snd <$> List.find (fun row => PyStr.contains (fst row) name_lower)
                        MANUFACTURERS in
    let model := model_by_pattern name component_type in
    let model := str_or model (model_by_words name) in
    NameData manufacturer (str_or model (Some (PyStr.take 100 name))).

End NameParser.

(* ===================================================================== *)
(** ** app/db/models.py *)
(* ===================================================================== *)

Module Models.

Inductive ComponentType : Type :=
| CPU | GPU | MOTHERBOARD | RAM | STORAGE | PSU | CASE | COOLING.

(** [ComponentType.X.value]. *)
Definition type_value (t : ComponentType) : string :=
  match t with
  | CPU => "cpu" | GPU => "gpu" | MOTHERBOARD => "motherboard" | RAM => "ram"
  | STORAGE => "storage" | PSU => "psu" | CASE => "case" | COOLING => "cooling"
  end.

Definition all_types : list ComponentType :=
  [CPU; GPU; MOTHERBOARD; RAM; STORAGE; PSU; CASE; COOLING].

(** [ComponentType(s)]: the member whose value is [s]; [None] is the
    [ValueError]. *)
Definition type_of_value (s : string) : option ComponentType :=
  List.find (fun t => String.eqb (type_value t) s) all_types.

Definition type_eqb (a b : ComponentType) : bool :=
  String.eqb (type_value a) (type_value b).

Inductive Condition : Type := NEW | USED | REFURBISHED.

Definition condition_of_value (s : string) : option Condition :=
  if String.eqb s "new" then Some NEW
  else if String.eqb s "used" then Some USED
  else if String.eqb s "refurbished" then Some REFURBISHED
  else None.

(** A row of [components]. Nullable columns are options. Timestamps are
    instants in microseconds. The columns no modelled function reads or
    writes ([stock_quantity], [seller_name], [pcie_slots], [created_at],
    [updated_at]) are left out. *)
Record Component : Type := mkComponent {
  id : Z;
  component_type : ComponentType;
  name : string;
  manufacturer : option string;
  model : option string;
  price_dzd : Q;
  original_price : option string;
  condition : option Condition;
  in_stock : option bool;
  source_url : option string;
  source_platform : option string;
  seller_location : option string;
  specs : option specs_t;
  benchmark_score : option Q;
  gaming_score : option Q;
  productivity_score : option Q;
  ai_score : option Q;
  socket_type : option string;
  chipset : option string;
  ram_type : option string;
  ram_speed : option Z;
  tdp_watts : option Z;
  form_factor : option string;
  last_scraped_at : option Z
}.

(** The table: its rows, with pairwise distinct primary keys. *)
Definition table := list Component.

Definition primary_key (db : table) : Prop := List.NoDup (List.map id db).

End Models.

(** Python's [x or 0] on a nullable number. *)
Definition Z_or_0 (x : option Z) : Z := match x with Some z => z | None => 0%Z end.
Definition Q_or_0 (x : option Q) : Q := match x with Some q => q | None => 0%Q end.

(** A nullable string that is truthy: neither [None] nor empty. *)
Definition truthy_str (x : option string) : option string :=
  match x with
  | Some s => if String.eqb s "" then None else Some s
  | None => None
  end.

(* ===================================================================== *)
(** ** app/agent/tools.py *)
(* ===================================================================== *)

Module Tools.
Import Models.

Local Open Scope Q_scope.

(** What a tool returns instead of a result: the explicit
    ["Error: Some component IDs not found"], or the [f"Error: {e}"] of
    the [except Exception] handler. *)
Inductive tool_error : Type := IdsNotFound | Raised.

Inductive tool_result (A : Type) : Type :=
| Ok (a : A)
| Error (e : tool_error).
Arguments Ok {A} a.
Arguments Error {A} e.

(** [db.query(Component).filter(Component.id.in_(component_ids)).all()] *)
Definition query_by_ids (db : table) (component_ids : list Z) : list Component :=
  List.filter (fun c => existsb (Z.eqb (id c)) component_ids) db.

(** [{comp.component_type.value: comp for comp in components}]: a later
    component of a type replaces an earlier one. *)
Definition build_comp_map (components : list Component) : gmap string Component :=
  fold_left (fun m c => <[type_value (component_type c) := c]> m) components ∅.

Inductive severity_t : Type := critical | warning.

Inductive issue_type_t : Type :=
| socket_mismatch | ram_type_mismatch | insufficient_psu | form_factor_mismatch.

(** The arguments of the f-string of each description. *)
Inductive description_t : Type :=
| SocketDescription (cpu_socket mobo_socket : string)
| RamDescription (ram_ram_type mobo_ram_type : string)
| PsuDescription (psu_wattage recommended_wattage : Q)
| FormFactorDescription (mobo_form_factor case_form_factor : string).

Record issue : Type := Issue {
  severity : severity_t;
  issue_type : issue_type_t;
  description : description_t
}.

Definition is_critical (i : issue) : bool :=
  match severity i with critical => true | warning => false end.

(** The two locals [issues] and [compatible] threaded through the rules. *)
Definition verdict : Type := list issue * bool.

Definition socket_rule (comp_map : gmap string Component) (v : verdict) : verdict :=
  let '(issues, compatible) := v in
  match comp_map !! "cpu", comp_map !! "motherboard" with
  | Some cpu, Some mobo =>
      match truthy_str (socket_type cpu), truthy_str (socket_type mobo) with
      | Some c, Some b =>
          if negb (String.eqb c b)
          then ((issues ++ [Issue critical socket_mismatch (SocketDescription c b)])%list,
                false)
          else v
      | _, _ => v
      end
  | _, _ => v
  end.

Definition ram_rule (comp_map : gmap string Component) (v : verdict) : verdict :=
  let '(issues, compatible) := v in
  match comp_map !! "ram", comp_map !! "motherboard" with
  | Some ram, Some mobo =>
      match truthy_str (ram_type ram), truthy_str (ram_type mobo) with
      | Some r, Some b =>
          if negb (String.eqb r b)
          then ((issues ++ [Issue critical ram_type_mismatch (RamDescription r b)])%list,
                false)
          else v
      | _, _ => v
      end
  | _, _ => v
  end.

(** [sum(comp.tdp_watts or 0 for comp in components
         if comp.component_type != ComponentType.PSU)] *)
Definition non_psu_tdp (components : list Component) : Z :=
  fold_left Z.add
    (List.map (fun c => Z_or_0 (tdp_watts c))
       (List.filter (fun c => negb (type_eqb (component_type c) PSU)) components))
    0%Z.

(** [psu.specs.get("wattage", 0) if psu.specs else 0], read as a
    number by the comparison that follows. *)
Definition psu_wattage_of (psu : Component) : option Q :=
  match specs psu with
  | Some sp => get_num sp "wattage"
  | None => Some 0
  end.

(** The PSU rule; [None] when the comparison raises. *)
Definition psu_rule (components : list Component)
           (comp_map : gmap string Component) (v : verdict) : option verdict :=
  let '(issues, compatible) := v in
  match comp_map !! "psu" with
  | Some psu =>
      let total_tdp := non_psu_tdp components in
      psu_wattage ← psu_wattage_of psu;
      let recommended_wattage := inject_Z total_tdp * (13 # 10) in
      if Qltb psu_wattage recommended_wattage
      then Some ((issues ++ [Issue warning insufficient_psu
                              (PsuDescription psu_wattage recommended_wattage)])%list,
                 compatible)
      else Some v
  | None => Some v
  end.

Definition form_factor_rule (comp_map : gmap string Component) (v : verdict) : verdict :=
  let '(issues, compatible) := v in
  match comp_map !! "motherboard", comp_map !! "case" with
  | Some mobo, Some case =>
      match truthy_str (form_factor mobo), truthy_str (form_factor case) with
      | Some b, Some c =>
          if negb (PyStr.contains b c)
          then ((issues ++ [Issue critical form_factor_mismatch
                             (FormFactorDescription b c)])%list,
                false)
          else v
      | _, _ => v
      end
  | _, _ => v
  end.

(** The dictionary [result]. *)
Record compat_result : Type := CompatResult {
  compatible : bool;
  compatibility_score : Z;
  issues : list issue;
  total_tdp_watts : Z
}.

Definition check_compatibility (db : table) (component_ids : list Z)
  : tool_result compat_result :=
  let components := query_by_ids db component_ids in
  if negb (Nat.eqb (List.length components) (List.length component_ids))
  then Error IdsNotFound
  else
    let comp_map := build_comp_map components in
    let v : verdict := ([], true) in
    let v := socket_rule comp_map v in
    let v := ram_rule comp_map v in
    match psu_rule components comp_map v with
    | None => Error Raised
    | Some v =>
        let '(issues, compatible) := form_factor_rule comp_map v in
        Ok (CompatResult
              compatible
              (if compatible then 100
               else match issues with [] => 100 | _ => 50 end)%Z
              issues
              (fold_left Z.add (List.map (fun c => Z_or_0 (tdp_watts c)) components) 0%Z))
    end.

(** The dictionary [scores] of [rate_performance]. *)
Record use_case_scores : Type := UseCaseScores {
  s_gaming : Q;
  s_productivity : Q;
  s_ai_ml : Q;
  s_overall : Q
}.

Inductive rating_t : Type := excellent | good | fair.

Record performance : Type := Performance {
  use_case : string;
  use_case_score : Q;
  all_scores : use_case_scores;
  rating : rating_t
}.

(** [ram.specs.get("capacity_gb", 0) if ram.specs else 0], read as a
    number by the division that follows. *)
Definition ram_capacity_of (ram : Component) : option Q :=
  match specs ram with
  | Some sp => get_num sp "capacity_gb"
  | None => Some 0
  end.

(** [scores.get(use_case, scores["overall"])] *)
Definition scores_get (s : use_case_scores) (use_case : string) : Q :=
  if String.eqb use_case "gaming" then s_gaming s
  else if String.eqb use_case "productivity" then s_productivity s
  else if String.eqb use_case "ai_ml" then s_ai_ml s
  else s_overall s.

Definition rate_performance (db : table) (component_ids : list Z)
           (use_case : string) : tool_result performance :=
  let components := query_by_ids db component_ids in
  let comp_map := build_comp_map components in
  let gaming := 0 in
  let productivity := 0 in
  let ai_ml := 0 in
  let '(gaming, ai_ml, productivity) :=
    match comp_map !! "gpu" with
    | Some gpu =>
        (gaming + Q_or_0 (gaming_score gpu) * (6 # 10),
         ai_ml + Q_or_0 (ai_score gpu) * (7 # 10),
         productivity + Q_or_0 (productivity_score gpu) * (3 # 10))
    | None => (gaming, ai_ml, productivity)
    end in
  let '(gaming, ai_ml, productivity) :=
    match comp_map !! "cpu" with
    | Some cpu =>
        (gaming + Q_or_0 (gaming_score cpu) * (3 # 10),
         ai_ml + Q_or_0 (ai_score cpu) * (2 # 10),
         productivity + Q_or_0 (productivity_score cpu) * (5 # 10))
    | None => (gaming, ai_ml, productivity)
    end in
  let ram_part : option (Q * Q) :=
    match comp_map !! "ram" with
    | Some ram =>
        ram_capacity ← ram_capacity_of ram;
        let ram_score := py_min (ram_capacity / 32 * 100) 100 in
        Some (productivity + ram_score * (2 # 10), ai_ml + ram_score * (1 # 10))
    | None => Some (productivity, ai_ml)
    end in
  match ram_part with
  | None => Error Raised
  | Some (productivity, ai_ml) =>
      let overall :=
        gaming * (33 # 100) + productivity * (33 # 100) + ai_ml * (34 # 100) in
      let scores := UseCaseScores gaming productivity ai_ml overall in
      let use_case_score := scores_get scores use_case in
      Ok (Performance use_case use_case_score scores
            (if Qgeb use_case_score 80 then excellent
             else if Qgeb use_case_score 60 then good
             else fair))
  end.

End Tools.

(* ===================================================================== *)
(** ** app/tasks/scraper_tasks.py *)
(* ===================================================================== *)

Module ScraperTasks.
Import Models.

(** One scraped listing, the dictionary [comp_data]. *)
Record listing : Type := Listing {
  l_name : string;
  l_price_dzd : Q;
  l_original_price : option string;
  l_condition : option string;
  l_seller_location : option string;
  l_source_url : option string;
  l_source_platform : option string;
  l_component_type : string;
  l_description : option string
}.

(** Writing a bag value to a [String] or an [Integer] column. A value
    whose type is not the column's is taken to fail the commit ([None]):
    what a database does with it depends on the driver. This is the only
    failure of a commit in this model; the length limits of the
    [String(n)] columns are not modelled. *)
Definition bind_str (v : value) : option string :=
  match v with VStr s => Some s | _ => None end.

Definition bind_int (v : value) : option Z :=
  match v with VInt z => Some z | _ => None end.

(** [if v: existing.col = v] for [v = specs.get(key)]. *)
Definition promote {A : Type} (bind : value -> option A) (v : option value)
           (old : option A) : option (option A) :=
  match v with
  | None => Some old
  | Some x => if truthy x then Some <$> bind x else Some old
  end.

(** [col = v] in the constructor call, for [v = specs.get(key)]. *)
Definition store {A : Type} (bind : value -> option A) (v : option value)
  : option (option A) :=
  match v with
  | None => Some None
  | Some x => Some <$> bind x
  end.

(** [scores.get(k) or old]: a score of zero is falsy. *)
Definition score_or (q : Q) (old : option Q) : option Q :=
  if Qeq_bool q 0 then old else Some q.

(** [specs or existing.specs]: an empty dictionary is falsy. *)
Definition specs_or (new_specs : specs_t) (old : option specs_t) : option specs_t :=
  if Nat.eqb (size new_specs) 0 then old else Some new_specs.

(** The [if existing:] branch followed by [db.commit()]: the row as it
    is stored afterwards, [None] when the commit fails (the [except]
    branch rolls back and the stored row stays as it was). *)
Definition update_existing (now : Z) (existing : Component) (price : Q)
           (name_data : NameParser.name_data) (new_specs : specs_t)
           (scores : BenchmarkCalculator.scores) : option Component :=
  new_socket_type ← promote bind_str (new_specs !! "socket_type") (socket_type existing);
  new_ram_type ← promote bind_str (new_specs !! "ram_type") (ram_type existing);
  new_ram_speed ← promote bind_int (new_specs !! "ram_speed") (ram_speed existing);
  new_tdp_watts ← promote bind_int (new_specs !! "tdp_watts") (tdp_watts existing);
  new_form_factor ← promote bind_str (new_specs !! "form_factor") (form_factor existing);
  Some {|
    id := id existing;
    component_type := component_type existing;
    name := name existing;
    manufacturer :=
      NameParser.str_or (NameParser.manufacturer name_data) (manufacturer existing);
    model := NameParser.str_or (NameParser.model name_data) (model existing);
    price_dzd := price;
    original_price := original_price existing;
    condition := condition existing;
    in_stock := Some true;
    source_url := source_url existing;
    source_platform := source_platform existing;
    seller_location := seller_location existing;
    specs := specs_or new_specs (specs existing);
    benchmark_score :=
      score_or (BenchmarkCalculator.benchmark_score scores) (benchmark_score existing);
    gaming_score :=
      score_or (BenchmarkCalculator.gaming_score scores) (gaming_score existing);
    productivity_score :=
      score_or (BenchmarkCalculator.productivity_score scores)
               (productivity_score existing);
    ai_score := score_or (BenchmarkCalculator.ai_score scores) (ai_score existing);
    socket_type := new_socket_type;
    chipset := chipset existing;
    ram_type := new_ram_type;
    ram_speed := new_ram_speed;
    tdp_watts := new_tdp_watts;
    form_factor := new_form_factor;
    last_scraped_at := Some now
  |}.

(** The [else:] branch: the new row, with the key the database gives it. *)
Definition new_component (now : Z) (new_id : Z) (d : listing)
           (name_data : NameParser.name_data) (new_specs : specs_t)
           (scores : BenchmarkCalculator.scores) : option Component :=
  ty ← type_of_value (l_component_type d);
  cond ← condition_of_value (default "new" (l_condition d));
  new_socket_type ← store bind_str (new_specs !! "socket_type");
  new_ram_type ← store bind_str (new_specs !! "ram_type");
  new_ram_speed ← store bind_int (new_specs !! "ram_speed");
  new_tdp_watts ← store bind_int (new_specs !! "tdp_watts");
  new_form_factor ← store bind_str (new_specs !! "form_factor");
  Some {|
    id := new_id;
    component_type := ty;
    name := l_name d;
    manufacturer := NameParser.manufacturer name_data;
    model := NameParser.model name_data;
    price_dzd := l_price_dzd d;
    original_price := l_original_price d;
    condition := Some cond;
    in_stock := Some true;
    source_url := l_source_url d;
    source_platform := Some (default "ouedkniss" (l_source_platform d));
    seller_location := l_seller_location d;
    specs := Some new_specs;
    benchmark_score := Some (BenchmarkCalculator.benchmark_score scores);
    gaming_score := Some (BenchmarkCalculator.gaming_score scores);
    productivity_score := Some (BenchmarkCalculator.productivity_score scores);
    ai_score := Some (BenchmarkCalculator.ai_score scores);
    socket_type := new_socket_type;
    chipset := None;
    ram_type := new_ram_type;
    ram_speed := new_ram_speed;
    tdp_watts := new_tdp_watts;
    form_factor := new_form_factor;
    last_scraped_at := Some now
  |}.

(** The match key of the lookup: same name, same price. *)
Definition same_listing (d : listing) (c : Component) : bool :=
  String.eqb (name c) (l_name d) && Qeq_bool (price_dzd c) (l_price_dzd d).

(** Replace the first row that satisfies [p]. *)
Fixpoint replace_first (p : Component -> bool) (c' : Component) (db : table)
  : table :=
  match db with
  | [] => []
  | c :: db' => if p c then c' :: db' else c :: replace_first p c' db'
  end.

(** A key no row has yet. *)
Definition fresh_id (db : table) : Z :=
  (1 + fold_left Z.max (List.map id db) 0)%Z.

(** The body of the [for comp_data in components_data:] loop at the
    instant [now]: the table afterwards and the increment of
    [saved_count]. Any exception leaves the table as it was. In the
    [else:] branch the two enum conversions are evaluated by the
    constructor call, before [saved_count += 1]; the commit comes after
    it, so an insert whose commit fails is rolled back and still
    counted. *)
Definition save_listing (now : Z) (db : table) (d : listing) : table * nat :=
  let existing := List.find (same_listing d) db in
  let name_data := NameParser.parse_component_name (l_name d) (l_component_type d) in
  let description := default "" (l_description d) in
  let new_specs :=
    SpecExtractor.extract_specs (l_component_type d) (l_name d) description in
  match BenchmarkCalculator.calculate_benchmark_scores
          (l_component_type d) (l_name d) new_specs with
  | None => (db, 0%nat)
  | Some scores =>
      match existing with
      | Some e =>
          match update_existing now e (l_price_dzd d) name_data new_specs scores with
          | Some e' => (replace_first (same_listing d) e' db, 0%nat)
          | None => (db, 0%nat)
          end
      | None =>
          match type_of_value (l_component_type d),
                condition_of_value (default "new" (l_condition d)) with
          | Some _, Some _ =>
              match new_component now (fresh_id db) d name_data new_specs scores with
              | Some c => ((db ++ [c])%list, 1%nat)
              | None => (db, 1%nat)
              end
          | _, _ => (db, 0%nat)
          end
      end
  end.

(** [timedelta(hours=h)] in microseconds. *)
Definition hours (h : Z) : Z := (h * 3600 * 1000000)%Z.

(** The filter of the sweep:
    [Component.last_scraped_at < cutoff, Component.in_stock == True].
    A NULL column satisfies neither comparison. *)
Definition stale (cutoff : Z) (c : Component) : bool :=
  match last_scraped_at c, in_stock c with
  | Some t, Some true => (t <? cutoff)%Z
  | _, _ => false
  end.

(** [.update({"in_stock": False})] on one row. *)
Definition set_out_of_stock (c : Component) : Component :=
  {|
    id := id c;
    component_type := component_type c;
    name := name c;
    manufacturer := manufacturer c;
    model := model c;
    price_dzd := price_dzd c;
    original_price := original_price c;
    condition := condition c;
    in_stock := Some false;
    source_url := source_url c;
    source_platform := source_platform c;
    seller_location := seller_location c;
    specs := specs c;
    benchmark_score := benchmark_score c;
    gaming_score := gaming_score c;
    productivity_score := productivity_score c;
    ai_score := ai_score c;
    socket_type := socket_type c;
    chipset := chipset c;
    ram_type := ram_type c;
    ram_speed := ram_speed c;
    tdp_watts := tdp_watts c;
    form_factor := form_factor c;
    last_scraped_at := last_scraped_at c
  |}.

(** [mark_out_of_stock] run at the instant [now]: the table afterwards
    and the number of rows updated. *)
Definition mark_out_of_stock (now : Z) (db : table) : table * nat :=
  let cutoff := (now - hours 48)%Z in
  (List.map (fun c => if stale cutoff c then set_out_of_stock c else c) db,
   List.length (List.filter (stale cutoff) db)).

End ScraperTasks.

(* ===================================================================== *)
(** ** More of Python's [str] *)
(* ===================================================================== *)

Module PyText.

(** [s.replace(c, "")] for a one-character [c]. *)
Fixpoint remove_char (a : ascii) (s : string) : string :=
  match s with
  | EmptyString => EmptyString
  | String c s' =>
      if Ascii.eqb c a then remove_char a s' else String c (remove_char a s')
  end.

(** [s.replace(old, "")] for a non-empty [old]: the occurrences are
    found left to right and do not overlap. [skip] counts the characters
    of the current occurrence still to be dropped. *)
Fixpoint remove_sub_aux (old : string) (skip : nat) (s : string) : string :=
  match s with
  | EmptyString => EmptyString
  | String c s' =>
      match skip with
      | S n => remove_sub_aux old n s'
      | O =>
          if String.prefix old s
          then remove_sub_aux old (String.length old - 1) s'
          else String c (remove_sub_aux old 0 s')
      end
  end.

Definition remove_sub (old s : string) : string := remove_sub_aux old 0 s.

(** Some character of the string is an ASCII digit. *)
Fixpoint has_digit (s : string) : bool :=
  match s with
  | EmptyString => false
  | String c s' => PyStr.isdigit c || has_digit s'
  end.

End PyText.

(* ===================================================================== *)
(** ** app/core/config.py *)
(* ===================================================================== *)

Module Config.

(** The two settings the price conversion reads. They come from the
    environment; [default_settings] holds the defaults of the class. *)
Record Settings : Type := mkSettings {
  USD_TO_DZD_RATE : Q;
  EUR_TO_DZD_RATE : Q
}.

Definition default_settings : Settings := mkSettings 135 145.

End Config.

(* ===================================================================== *)
(** ** app/agent/tools.py: [normalize_price] and [get_parts] *)
(* ===================================================================== *)

Module ToolsQueries.
Import Models Re.

Local Open Scope Q_scope.

(** The price pattern: digits, then optionally a dot and digits, all in
    group 1. *)
Definition price_pattern : re :=
  Grp (Seq (Plus digit)
           (Opt (Seq (Lit ".") (Plus digit)))).

Inductive price_result : Type :=
| Price (price_dzd : Q)          (* [str(price_dzd)] *)
| CouldNotExtractPrice.          (* ["Error: Could not extract price"] *)

(** [normalize_price(price_str, source_currency)]; the returned string
    is read as the number it prints. *)
Definition normalize_price (settings : Config.Settings)
           (price_str source_currency : string) : price_result :=
  let price_str :=
    PyText.remove_char " "%char (PyText.remove_char ","%char price_str) in
  match search1 false price_pattern price_str with
  | None => CouldNotExtractPrice
  | Some g =>
      let price := SpecExtractor.float_of_decimal g in
      if String.eqb source_currency "USD"
      then Price (price * Config.USD_TO_DZD_RATE settings)
      else if String.eqb source_currency "EUR"
      then Price (price * Config.EUR_TO_DZD_RATE settings)
      else Price price
  end.

(** One dictionary of the list [get_parts] prints. *)
Record part_row : Type := PartRow {
  r_id : Z;
  r_name : string;
  r_price_dzd : Q;
  r_condition : Condition;
  r_benchmark_score : option Q;
  r_specs : option specs_t;
  r_location : option string
}.

Inductive parts_result : Type :=
| Parts (results : list part_row)
| InvalidComponentType           (* ["Error: Invalid component type: ..."] *)
| PartsRaised.                   (* the [except Exception] handler *)

(** Python truthiness of an optional number: [None] and zero are falsy. *)
Definition truthy_num (x : option Q) : option Q :=
  match x with
  | Some q => if Qeq_bool q 0 then None else Some q
  | None => None
  end.

Definition condition_eqb (a b : Condition) : bool :=
  match a, b with
  | NEW, NEW | USED, USED | REFURBISHED, REFURBISHED => true
  | _, _ => false
  end.

(** [Component.benchmark_score / Component.price_dzd], the sort key. *)
Definition value_for_money (c : Component) : Q :=
  Q_or_0 (benchmark_score c) / price_dzd c.

(** [ORDER BY ... DESC]: the rows by decreasing key; rows with equal
    keys stay in table order. *)
Fixpoint insert_desc (c : Component) (l : list Component) : list Component :=
  match l with
  | [] => [c]
  | x :: l' =>
      if Qle_bool (value_for_money x) (value_for_money c)
      then c :: x :: l'
      else x :: insert_desc c l'
  end.

Definition order_by_value_desc (l : list Component) : list Component :=
  fold_right insert_desc [] l.

(** The WHERE clause that [get_parts] builds up, filter by filter. *)
Definition parts_filter (ty : ComponentType) (max_price_dzd : option Q)
           (min_benchmark_score : option Q) (cond : option Condition)
           (c : Component) : bool :=
  type_eqb (component_type c) ty
  && match in_stock c with Some true => true | _ => false end
  && match truthy_num max_price_dzd with
     | Some m => Qle_bool (price_dzd c) m
     | None => true
     end
  && match truthy_num min_benchmark_score, benchmark_score c with
     | Some m, Some s => Qle_bool m s
     | Some _, None => false
     | None, _ => true
     end
  && match cond, condition c with
     | Some k, Some k' => condition_eqb k' k
     | Some _, None => false
     | None, _ => true
     end
  && match benchmark_score c with Some _ => true | None => false end
  && Qltb 0 (price_dzd c).

(** One [results.append({...})]; [comp.condition.value] raises on a row
    whose condition is NULL. *)
Definition row_of (c : Component) : option part_row :=
  k ← condition c;
  Some (PartRow (id c) (name c) (price_dzd c) k (benchmark_score c)
                (specs c) (seller_location c)).

(** [get_parts(component_type, max_price_dzd, min_benchmark_score,
    condition, limit)] on the table [db]. An unknown [condition] string
    is logged and adds no filter. A negative [limit] is refused by the
    database. *)
Definition get_parts (db : table) (component_type : string)
           (max_price_dzd min_benchmark_score : option Q)
           (condition : option string) (limit : Z) : parts_result :=
  match type_of_value (PyStr.lower component_type) with
  | None => InvalidComponentType
  | Some ty =>
      let cond :=
        match truthy_str condition with
        | Some s => condition_of_value (PyStr.lower s)
        | None => None
        end in
      let rows :=
        order_by_value_desc
          (List.filter (parts_filter ty max_price_dzd min_benchmark_score cond) db) in
      if (limit <? 0)%Z then PartsRaised
      else
        match mapM row_of (firstn (Z.to_nat limit) rows) with
        | Some results => Parts results
        | None => PartsRaised
        end
  end.

End ToolsQueries.

(* ===================================================================== *)
(** ** app/engine/normalizer.py and app/engine/scorer.py *)
(* ===================================================================== *)

Module Engine.
Import Re.

(** The pattern of [normalize_price]: digits, an optional dot or comma,
    optional digits; [findall] returns the whole match, here group 1. *)
Definition number_pattern : re :=
  Grp (Seq (Plus digit)
           (Seq (Opt (Cls (fun c => is_char "."%char c || is_char ","%char c)))
                (Star digit))).

(** [normalize_price(price_str)]: the first match with its comma
    removed, as a number; [None] when nothing matches. *)
Definition normalize_price (price_str : string) : option Q :=
  (fun g => SpecExtractor.float_of_decimal (PyText.remove_char ","%char g))
    <$> search1 false number_pattern price_str.

(** The dictionary [gpu] of [score_gpu]. *)
Record gpu_t : Type := Gpu { g_name : string; g_condition : string }.

(** [score_gpu(gpu, usage)]. *)
Definition score_gpu (gpu : gpu_t) (usage : string) : Z :=
  let name := PyStr.lower (g_name gpu) in
  let score := 0%Z in
  let score := if PyStr.contains "rtx" name then (score + 5)%Z else score in
  let score := if PyStr.contains "rx" name then (score + 4)%Z else score in
  let score :=
    if PyStr.contains "12gb" name || PyStr.contains "16gb" name
    then (score + 3)%Z else score in
  let score :=
    if PyStr.contains "used" (PyStr.lower (g_condition gpu))
    then (score + 1)%Z else score in
  let score :=
    if String.eqb usage "ai" && PyStr.contains "rtx" name
    then (score + 2)%Z else score in
  score.

End Engine.

(* ===================================================================== *)
(** ** app/scrapers/ouedkniss_scraper.py: [_extract_price_dzd] *)
(* ===================================================================== *)

Module OuedknissScraper.
Import Re.

(** [_extract_price_dzd(price_text)]. The third currency mark the source
    removes is written in Arabic letters and cannot occur in ASCII text. *)
Definition _extract_price_dzd (price_text : string) : option Q :=
  let price_text := PyText.remove_sub "DZD" (PyText.remove_sub "DA" price_text) in
  let price_text :=
    PyText.remove_char " "%char (PyText.remove_char ","%char price_text) in
  SpecExtractor.float_of_decimal
    <$> search1 false ToolsQueries.price_pattern price_text.

(** The test [if not price_dzd or price_dzd <= 0: return None] of
    [_parse_listing_item]: the price a listing is kept with. *)
Definition accepted_price (price_text : string) : option Q :=
  match _extract_price_dzd price_text with
  | Some p => if Qeq_bool p 0 || Qle_bool p 0 then None else Some p
  | None => None
  end.

End OuedknissScraper.


(* ===================================================================== *)
(** ** app/tasks/scraper_tasks.py: the loop of [scrape_component_type] *)
(* ===================================================================== *)

Module ScraperRun.
Import Models ScraperTasks.

(** [scrape_component_type] once the scraper has returned
    [components_data]: the listings are saved one after the other, each
    at the instant its iteration reads the clock; the result is the table
    afterwards and [saved_count]. *)
Fixpoint scrape_component_type (db : table)
         (components_data : list (Z * listing)) : table * nat :=
  match components_data with
  | [] => (db, 0%nat)
  | (now, comp_data) :: rest =>
      let '(db1, saved) := save_listing now db comp_data in
      let '(db2, saved_count) := scrape_component_type db1 rest in
      (db2, (saved + saved_count)%nat)
  end.

End ScraperRun.
(* ===================================================================== *)
(** * Properties *)
(* ===================================================================== *)

(** ** Strings *)

Lemma prefix_app_l (a b t : string) :
  String.prefix (a ++ b) t = true -> String.prefix a t = true.
Proof.
  revert t. induction a as [|c a IH]; intros t H.
  - destruct t; reflexivity.
  - destruct t as [|d t]; simpl in *; [discriminate|].
    destruct (ascii_dec c d); [auto|discriminate].
Qed.

Lemma contains_nil (n : string) :
  PyStr.contains n "" = String.prefix n "" || false.
Proof. reflexivity. Qed.

Lemma contains_cons (n : string) (d : ascii) (t : string) :
  PyStr.contains n (String d t)
  = String.prefix n (String d t) || PyStr.contains n t.
Proof. reflexivity. Qed.

(** A text that contains a word contains every prefix of that word. *)
Lemma contains_app_l (a b t : string) :
  PyStr.contains (a ++ b) t = true -> PyStr.contains a t = true.
Proof.
  induction t as [|d t IH]; intros H.
  - rewrite contains_nil in *.
    apply orb_true_iff in H as [H|H]; [|discriminate].
    apply prefix_app_l in H. rewrite H. reflexivity.
  - rewrite contains_cons in *.
    apply orb_true_iff in H as [H|H].
    + apply prefix_app_l in H. rewrite H. reflexivity.
    + rewrite (IH H). apply orb_true_r.
Qed.

(** ** Numbers *)

Lemma Qltb_lt (x y : Q) : Qltb x y = true <-> (x < y)%Q.
Proof.
  unfold Qltb. rewrite negb_true_iff, <- not_true_iff_false, Qle_bool_iff.
  split; [apply Qnot_le_lt | apply Qlt_not_le].
Qed.

Lemma Qltb_ge (x y : Q) : Qltb x y = false <-> (y <= x)%Q.
Proof.
  unfold Qltb. rewrite negb_false_iff. apply Qle_bool_iff.
Qed.

Lemma Qgeb_ge (x y : Q) : Qgeb x y = true <-> (y <= x)%Q.
Proof. apply Qle_bool_iff. Qed.

Lemma Qgeb_lt (x y : Q) : Qgeb x y = false <-> (x < y)%Q.
Proof.
  unfold Qgeb. rewrite <- not_true_iff_false, Qle_bool_iff.
  split; [apply Qnot_le_lt | apply Qlt_not_le].
Qed.

Lemma py_min_spec (a b : Q) :
  ((b < a)%Q /\ py_min a b = b) \/ ((a <= b)%Q /\ py_min a b = a).
Proof.
  unfold py_min. destruct (Qltb b a) eqn:E.
  - left. split; [now apply Qltb_lt | reflexivity].
  - right. split; [now apply Qltb_ge | reflexivity].
Qed.

(** Case analysis on every [py_min] and every comparison of a goal. *)
Ltac split_min :=
  repeat match goal with
    | |- context [py_min ?a ?b] =>
        let H := fresh "Hmin" in
        let E := fresh "Emin" in
        destruct (py_min_spec a b) as [[H E] | [H E]];
        rewrite E in *; clear E
    | |- context [Qltb ?a ?b] =>
        let H := fresh "Hlt" in
        destruct (Qltb a b) eqn:H;
        [apply Qltb_lt in H | apply Qltb_ge in H]
    | |- context [Qgeb ?a ?b] =>
        let H := fresh "Hge" in
        destruct (Qgeb a b) eqn:H;
        [apply Qgeb_ge in H | apply Qgeb_lt in H]
    end.

(** ** The benchmark scorer *)

Section BenchmarkBounds.
Import BenchmarkCalculator.
Local Open Scope Q_scope.

Definition in_range (q : Q) : Prop := 0 <= q /\ q <= 100.

Definition at_most_100 (sc : scores) : Prop :=
  benchmark_score sc <= 100 /\ gaming_score sc <= 100
  /\ productivity_score sc <= 100 /\ ai_score sc <= 100.

Definition at_least_0 (sc : scores) : Prop :=
  0 <= benchmark_score sc /\ 0 <= gaming_score sc
  /\ 0 <= productivity_score sc /\ 0 <= ai_score sc.

Definition scores_in_range (sc : scores) : Prop :=
  in_range (benchmark_score sc) /\ in_range (gaming_score sc)
  /\ in_range (productivity_score sc) /\ in_range (ai_score sc).

(** The [capacity_gb] entry of a bag, when it is a number, is not negative. *)
Definition capacity_not_negative (specs : specs_t) : Prop :=
  forall q, get_num specs "capacity_gb" = Some q -> 0 <= q.

(** A table row whose gaming entry is at least [g] and whose other
    entries are not negative. *)
Definition tier_okb (g : Q) (t : tier) : bool :=
  Qle_bool 0 (t_base t) && Qle_bool g (t_gaming t)
  && Qle_bool 0 (t_productivity t) && Qle_bool 0 (t_ai t).

Lemma tier_okb_spec g t :
  tier_okb g t = true ->
  0 <= t_base t /\ g <= t_gaming t /\ 0 <= t_productivity t /\ 0 <= t_ai t.
Proof.
  unfold tier_okb. rewrite !andb_true_iff, !Qle_bool_iff. tauto.
Qed.

Lemma lookup_tier_ok g table dflt n :
  forallb (fun row => tier_okb g (snd row)) table = true ->
  tier_okb g dflt = true ->
  tier_okb g (lookup_tier table dflt n) = true.
Proof.
  intros Htab Hd. unfold lookup_tier.
  destruct (List.find _ table) as [row|] eqn:E; [|exact Hd].
  apply List.find_some in E. destruct E as [Hin _].
  rewrite forallb_forall in Htab. exact (Htab row Hin).
Qed.

Lemma cpu_tier_ok n :
  tier_okb 50 (lookup_tier CPU_SCORES (Tier 50 50 50 45) n) = true.
Proof. apply lookup_tier_ok; reflexivity. Qed.

Lemma gpu_tier_ok n :
  tier_okb 40 (lookup_tier GPU_SCORES (Tier 40 45 40 35) n) = true.
Proof. apply lookup_tier_ok; reflexivity. Qed.

Lemma vram_bonus_nonneg v : 0 <= vram_bonus v.
Proof. unfold vram_bonus. split_min; lra. Qed.

Lemma cpu_scores_in_range name specs sc :
  calculate_cpu_scores name specs = Some sc -> scores_in_range sc.
Proof.
  unfold calculate_cpu_scores. intros H.
  destruct (get_num specs "cores") as [cores|]; [|discriminate].
  destruct (get_num specs "base_clock_ghz") as [clock|]; [|discriminate].
  simpl in H. injection H as <-.
  pose proof (tier_okb_spec _ _ (cpu_tier_ok (PyStr.lower name))) as (Hb & Hg & Hp & Ha).
  unfold scores_in_range, in_range; simpl.
  repeat split; split_min; lra.
Qed.

Lemma gpu_scores_in_range name specs sc :
  calculate_gpu_scores name specs = Some sc -> scores_in_range sc.
Proof.
  unfold calculate_gpu_scores. intros H.
  destruct (get_num specs "vram_gb") as [vram|]; [|discriminate].
  simpl in H. injection H as <-.
  pose proof (tier_okb_spec _ _ (gpu_tier_ok (PyStr.lower name))) as (Hb & Hg & Hp & Ha).
  pose proof (vram_bonus_nonneg vram) as Hv.
  unfold scores_in_range, in_range; simpl.
  destruct (is_gddr6x specs); repeat split; split_min; lra.
Qed.

Lemma storage_base_range specs b : storage_base specs = Some b -> 40 <= b <= 80.
Proof.
  unfold storage_base. intros H.
  destruct (get_in "NVMe" specs "type") as [[|]|]; simpl in H; try discriminate.
  - injection H as <-. lra.
  - destruct (get_in "SSD" specs "type") as [[|]|]; simpl in H;
      try discriminate; injection H as <-; lra.
Qed.

Lemma storage_scores_in_range name specs sc :
  calculate_storage_scores name specs = Some sc -> scores_in_range sc.
Proof.
  unfold calculate_storage_scores. intros H.
  destruct (storage_base specs) as [b|] eqn:Eb; [|discriminate].
  destruct (get_num specs "capacity_gb") as [capacity|]; [|discriminate].
  simpl in H. injection H as <-.
  apply storage_base_range in Eb.
  unfold scores_in_range, in_range; simpl.
  repeat split; split_min; lra.
Qed.

Lemma efficiency_bonus_range specs b : efficiency_bonus specs = Some b -> 0 <= b <= 10.
Proof.
  unfold efficiency_bonus. intros H.
  destruct (get_in "Titanium" specs "efficiency") as [[|]|]; simpl in H;
    try discriminate; [injection H as <-; lra|].
  destruct (get_in "Platinum" specs "efficiency") as [[|]|]; simpl in H;
    try discriminate; [injection H as <-; lra|].
  destruct (get_in "Gold" specs "efficiency") as [[|]|]; simpl in H;
    try discriminate; [injection H as <-; lra|].
  destruct (get_in "Bronze" specs "efficiency") as [[|]|]; simpl in H;
    try discriminate; injection H as <-; lra.
Qed.

Lemma psu_scores_in_range name specs sc :
  calculate_psu_scores name specs = Some sc -> scores_in_range sc.
Proof.
  unfold calculate_psu_scores. intros H.
  destruct (get_num specs "wattage") as [wattage|]; [|discriminate].
  destruct (efficiency_bonus specs) as [b|] eqn:Eb; [|discriminate].
  simpl in H. injection H as <-.
  apply efficiency_bonus_range in Eb.
  unfold scores_in_range, in_range; simpl.
  repeat split; split_min; lra.
Qed.

(** The RAM scores never exceed 100; they are not negative when the
    capacity is not. *)
Lemma ram_scores_bounds name specs sc :
  calculate_ram_scores name specs = Some sc ->
  at_most_100 sc /\ (capacity_not_negative specs -> at_least_0 sc).
Proof.
  unfold calculate_ram_scores, capacity_not_negative. intros H.
  destruct (get_num specs "capacity_gb") as [capacity|]; [|discriminate].
  simpl in H.
  assert (Hdiv32 : capacity / 32 * 100 == capacity * (100 # 32)) by (field).
  assert (Hdiv16 : capacity / 16 * 100 == capacity * (100 # 16)) by (field).
  destruct (get_is_str specs "ram_type" "DDR5").
  - simpl in H. injection H as <-. unfold at_most_100, at_least_0; simpl.
    split; [|intros Hc; specialize (Hc _ eq_refl)];
      repeat split; split_min; lra.
  - destruct (get_is_str specs "ram_type" "DDR4").
    + destruct (get_num specs "ram_speed") as [speed|]; [|discriminate].
      simpl in H. injection H as <-. unfold at_most_100, at_least_0; simpl.
      split; [|intros Hc; specialize (Hc _ eq_refl)];
        repeat split; split_min; lra.
    + simpl in H. injection H as <-. unfold at_most_100, at_least_0; simpl.
      split; [|intros Hc; specialize (Hc _ eq_refl)];
        repeat split; split_min; lra.
Qed.

Lemma in_range_split sc : scores_in_range sc <-> at_least_0 sc /\ at_most_100 sc.
Proof. unfold scores_in_range, in_range, at_least_0, at_most_100. tauto. Qed.

End BenchmarkBounds.

Section BenchmarkResults.
Import BenchmarkCalculator.
Local Open Scope Q_scope.

(** A bag with a negative RAM capacity. *)
Definition negative_capacity_bag : specs_t := {[ "capacity_gb" := VInt (-32) ]}.

(** The scorer itself caps at 100 only: on a RAM bag whose
    [capacity_gb] is -32 it returns a benchmark score of -100. The floor
    of the range comes from the attribute maps, not from a clamp. *)
Lemma ram_negative_capacity_leaves_range :
  ~ (forall ct name specs sc,
        calculate_benchmark_scores ct name specs = Some sc ->
        scores_in_range sc).
Proof.
  intros H.
  destruct (calculate_benchmark_scores "ram" "Kingston Fury" negative_capacity_bag)
    as [sc|] eqn:E; [|vm_compute in E; discriminate].
  specialize (H _ _ _ _ E).
  vm_compute in E. injection E as <-.
  destruct H as [[H _] _]. revert H. vm_compute. intros H. apply H. reflexivity.
Qed.

(** For every category, name and attribute map on which the scorer
    returns, each of the four scores is at most 100, and each is at
    least 0 provided that, when the category is RAM, the capacity_gb
    attribute is not negative. *)
Lemma benchmark_scores_bounds ct name specs sc :
  calculate_benchmark_scores ct name specs = Some sc ->
  at_most_100 sc
  /\ ((PyStr.lower ct = "ram" -> capacity_not_negative specs) -> at_least_0 sc).
Proof.
  unfold calculate_benchmark_scores. intros H.
  destruct (String.eqb (PyStr.lower ct) "cpu") eqn:Ecpu.
  { apply cpu_scores_in_range, in_range_split in H. tauto. }
  destruct (String.eqb (PyStr.lower ct) "gpu") eqn:Egpu.
  { apply gpu_scores_in_range, in_range_split in H. tauto. }
  destruct (String.eqb (PyStr.lower ct) "ram") eqn:Eram.
  { apply String.eqb_eq in Eram. apply ram_scores_bounds in H.
    destruct H as [Hle Hge]. split; [exact Hle|]. intros Hc. auto. }
  destruct (String.eqb (PyStr.lower ct) "storage") eqn:Esto.
  { apply storage_scores_in_range, in_range_split in H. tauto. }
  destruct (String.eqb (PyStr.lower ct) "psu") eqn:Epsu.
  { apply psu_scores_in_range, in_range_split in H. tauto. }
  injection H as <-.
  unfold at_most_100, at_least_0; simpl. repeat split; lra.
Qed.

End BenchmarkResults.

(** ** Lookups in an extracted bag *)

Lemma lookup_set_opt_ne (k k' : string) (v : option value)
      (specs : specs_t) :
  k <> k' -> SpecExtractor.set_opt k v specs !! k' = specs !! k'.
Proof.
  intros Hne. unfold SpecExtractor.set_opt. destruct v; [|reflexivity].
  apply lookup_insert_ne. exact Hne.
Qed.

Lemma lookup_set_opt_eq (k : string) (v : option value) (specs : specs_t) :
  SpecExtractor.set_opt k v specs !! k
  = match v with Some x => Some x | None => specs !! k end.
Proof.
  unfold SpecExtractor.set_opt. destruct v; [|reflexivity].
  apply lookup_insert_eq.
Qed.

(** Rewrite a lookup through the chain of [set_opt] of an extractor. *)
Ltac lookup_bag :=
  repeat first [ rewrite lookup_set_opt_ne by discriminate
               | rewrite lookup_insert_ne by discriminate
               | rewrite lookup_set_opt_eq
               | rewrite lookup_insert_eq
               | rewrite lookup_empty ].

Lemma probe_int_is_int r text v :
  SpecExtractor.probe_int r text = Some v -> exists z, v = VInt z.
Proof.
  unfold SpecExtractor.probe_int.
  destruct (Re.search1 false r text); simpl; [|discriminate].
  intros [= <-]. eauto.
Qed.

Lemma first_probe_is_int ps text v :
  SpecExtractor.first_probe ps text = Some v -> exists z, v = VInt z.
Proof.
  induction ps as [|p ps IH]; simpl; [discriminate|].
  destruct (SpecExtractor.probe_int p text) as [w|] eqn:E; [|exact IH].
  intros [= <-]. exact (probe_int_is_int _ _ _ E).
Qed.

(** Case analysis on the probes and tests left in a goal about a bag. *)
Ltac split_probes :=
  repeat match goal with
    | |- context [SpecExtractor.probe_int ?r ?t] =>
        let E := fresh "E" in
        destruct (SpecExtractor.probe_int r t) as [?|] eqn:E;
        [apply probe_int_is_int in E as (? & ->)|]
    | |- context [SpecExtractor.first_probe ?ps ?t] =>
        let E := fresh "E" in
        destruct (SpecExtractor.first_probe ps t) as [?|] eqn:E;
        [apply first_probe_is_int in E as (? & ->)|]
    | |- context [Re.search1 ?ic ?r ?t] => destruct (Re.search1 ic r t)
    | |- context [SpecExtractor.gpu_memory_type ?t] =>
        destruct (SpecExtractor.gpu_memory_type t)
    | |- context [SpecExtractor.ddr_type ?t] =>
        destruct (SpecExtractor.ddr_type t)
    | |- context [PyStr.contains ?a ?t] => destruct (PyStr.contains a t)
    end;
  simpl; eauto.

(** ** What the matcher captures *)

Section Captures.
Import Re.

(** Every character of the string is in the class. *)
Fixpoint all_in (p : ascii -> bool) (s : string) : bool :=
  match s with
  | EmptyString => true
  | String c s' => p c && all_in p s'
  end.

(** A pattern without a capture group. *)
Fixpoint groupless (r : re) : bool :=
  match r with
  | Cls _ | Lit _ | Star _ | Plus _ => true
  | Seq a b | Alt a b => groupless a && groupless b
  | Opt a => groupless a
  | Grp _ => false
  end.

Lemma take_app_length (a b : string) :
  PyStr.take (String.length a) (a ++ b) = a.
Proof.
  unfold PyStr.take. induction a as [|c a IH]; simpl.
  - destruct b; reflexivity.
  - rewrite IH. reflexivity.
Qed.

Lemma length_app (a b : string) :
  String.length (a ++ b) = (String.length a + String.length b)%nat.
Proof. induction a as [|c a IH]; simpl; [reflexivity|]. rewrite IH. reflexivity. Qed.

(** A greedy repetition hands its continuation a suffix of the input,
    and what it consumed before that suffix is in the class. *)
Lemma star_inv {R : Type} (p : ascii -> bool) (s : string)
      (k : string -> option R) (x : R) :
  star p s k = Some x ->
  exists pre rest, s = pre ++ rest /\ all_in p pre = true /\ k rest = Some x.
Proof.
  induction s as [|c s IH]; simpl; intros H.
  - exists "", "". auto.
  - destruct (p c) eqn:Ec; [|exists "", (String c s); auto].
    destruct (star p s k) as [y|] eqn:Es; [|exists "", (String c s); auto].
    injection H as ->. destruct (IH eq_refl) as (pre & rest & -> & Hd & Hk).
    exists (String c pre), rest. simpl. rewrite Ec, Hd. auto.
Qed.

(** A pattern without a group leaves the capture as it found it. *)
Lemma m_groupless {R : Type} (ic : bool) (r : re) :
  groupless r = true ->
  forall (s : string) (cap : option string)
         (k : string -> option string -> option R) (x : R),
    m ic r s cap k = Some x -> exists s', k s' cap = Some x.
Proof.
  induction r as [p|l|a IHa b IHb|a IHa b IHb|p|p|a IHa|a IHa];
    simpl; intros Hg s cap k x H.
  - destruct s as [|c s]; [discriminate|].
    destruct (test ic p c); [eauto|discriminate].
  - destruct (lit ic l s); [eauto|discriminate].
  - apply andb_true_iff in Hg as [Ha Hb].
    apply (IHa Ha) in H as (s' & H). apply (IHb Hb) in H. exact H.
  - apply andb_true_iff in Hg as [Ha Hb].
    destruct (m ic a s cap k) as [y|] eqn:E.
    + injection H as ->. exact (IHa Ha _ _ _ _ E).
    + exact (IHb Hb _ _ _ _ H).
  - apply star_inv in H as (_ & rest & _ & _ & H). eauto.
  - destruct s as [|c s]; [discriminate|].
    destruct (test ic p c); [|discriminate].
    apply star_inv in H as (_ & rest & _ & _ & H). eauto.
  - destruct (m ic a s cap k) as [y|] eqn:E.
    + injection H as ->. exact (IHa Hg _ _ _ _ E).
    + eauto.
  - discriminate.
Qed.

(** A probe of the shape [(\d+)\s*tail] captures a run of digits. *)
Lemma num_then_captures_digits tail s x :
  groupless tail = true ->
  m false (SpecExtractor.num_then tail) s None (fun _ cap => Some cap) = Some x ->
  exists g, x = Some g /\ all_in PyStr.isdigit g = true.
Proof.
  intros Hg. unfold SpecExtractor.num_then.
  cbn [m]. destruct s as [|c s]; [discriminate|].
  change (test false digit c) with (PyStr.isdigit c).
  destruct (PyStr.isdigit c) eqn:Ec; [|discriminate].
  intros H. apply star_inv in H as (pre & rest & -> & Hd & H).
  apply star_inv in H as (_ & rest' & _ & _ & H).
  apply (m_groupless false tail Hg) in H as (s' & H).
  injection H as <-.
  eexists. split; [reflexivity|].
  change (String c (pre ++ rest)) with (String c pre ++ rest).
  assert (Hlen : (S (String.length (pre ++ rest)) - String.length rest)%nat
                 = String.length (String c pre))
    by (rewrite length_app; simpl; lia).
  rewrite Hlen, take_app_length. simpl. rewrite Ec. exact Hd.
Qed.

Lemma search_nil ic r :
  search ic r "" = m ic r "" None (fun _ cap => Some cap).
Proof. simpl. destruct (m ic r "" None _); reflexivity. Qed.

Lemma search_cons ic r c s :
  search ic r (String c s)
  = match m ic r (String c s) None (fun _ cap => Some cap) with
    | Some cap => Some cap
    | None => search ic r s
    end.
Proof. reflexivity. Qed.

Lemma search_num_then_digits tail s x :
  groupless tail = true ->
  search false (SpecExtractor.num_then tail) s = Some x ->
  exists g, x = Some g /\ all_in PyStr.isdigit g = true.
Proof.
  intros Hg. induction s as [|c s IH]; intros H.
  - rewrite search_nil in H. exact (num_then_captures_digits _ _ _ Hg H).
  - rewrite search_cons in H.
    destruct (m false _ (String c s) None _) as [cap|] eqn:E.
    + injection H as <-. exact (num_then_captures_digits _ _ _ Hg E).
    + exact (IH H).
Qed.

Lemma int_of_digits_aux_nonneg (s : string) :
  all_in PyStr.isdigit s = true ->
  forall acc, (0 <= acc)%Z -> (0 <= PyStr.int_of_digits_aux acc s)%Z.
Proof.
  induction s as [|c s IH]; simpl; intros Hd acc Hacc; [exact Hacc|].
  apply andb_true_iff in Hd as [Hc Hd]. apply (IH Hd).
  unfold PyStr.isdigit in Hc. apply andb_true_iff in Hc as [Hlo _].
  apply N.leb_le in Hlo. lia.
Qed.

(** What a probe of that shape stores is an integer that is not negative. *)
Lemma probe_int_num_then tail text v :
  groupless tail = true ->
  SpecExtractor.probe_int (SpecExtractor.num_then tail) text = Some v ->
  exists z, v = VInt z /\ (0 <= z)%Z.
Proof.
  intros Hg. unfold SpecExtractor.probe_int, search1.
  destruct (search false _ text) as [x|] eqn:E; [|discriminate].
  apply (search_num_then_digits _ _ _ Hg) in E as (g & -> & Hd).
  simpl. intros [= <-]. eexists. split; [reflexivity|].
  apply int_of_digits_aux_nonneg; [exact Hd|lia].
Qed.

End Captures.

(** ** The scorer on extracted bags *)

Section Ingested.
Import SpecExtractor BenchmarkCalculator.
Local Open Scope Q_scope.

Lemma cpu_bag_numbers n d :
  (exists q, get_num (extract_cpu_specs n d) "cores" = Some q)
  /\ (exists q, get_num (extract_cpu_specs n d) "base_clock_ghz" = Some q).
Proof.
  unfold get_num, extract_cpu_specs. split; lookup_bag; split_probes.
Qed.

Lemma gpu_bag_numbers n d :
  exists q, get_num (extract_gpu_specs n d) "vram_gb" = Some q.
Proof.
  unfold get_num, extract_gpu_specs. lookup_bag. split_probes.
Qed.

Lemma ram_bag_capacity n d :
  extract_ram_specs n d !! "capacity_gb"
  = probe_int (num_then (Re.Lit "gb")) (text_of n d).
Proof.
  unfold extract_ram_specs.
  destruct (probe_int re_mhz _); lookup_bag;
    destruct (probe_int (num_then (Re.Lit "gb")) _); reflexivity.
Qed.

Lemma ram_bag_numbers n d :
  (exists q, get_num (extract_ram_specs n d) "capacity_gb" = Some q /\ 0 <= q)
  /\ (exists q, get_num (extract_ram_specs n d) "ram_speed" = Some q).
Proof.
  unfold get_num. split.
  - rewrite ram_bag_capacity.
    destruct (probe_int _ _) as [v|] eqn:E; [|exists 0; split; [reflexivity|lra]].
    apply probe_int_num_then in E as (z & -> & Hz); [|reflexivity].
    exists (inject_Z z). split; [reflexivity|].
    unfold Qle. simpl. lia.
  - unfold extract_ram_specs.
    destruct (probe_int re_mhz _) as [v|] eqn:E; lookup_bag.
    + apply probe_int_is_int in E as (z & ->). simpl. eauto.
    + split_probes.
Qed.

Lemma storage_bag_values n d :
  (exists q, get_num (extract_storage_specs n d) "capacity_gb" = Some q)
  /\ (forall needle, exists b,
         get_in needle (extract_storage_specs n d) "type" = Some b).
Proof.
  unfold get_num, get_in, extract_storage_specs.
  split; [|intros needle]; lookup_bag; split_probes.
Qed.

Lemma psu_bag_values n d :
  (exists q, get_num (extract_psu_specs n d) "wattage" = Some q)
  /\ (forall needle, exists b,
         get_in needle (extract_psu_specs n d) "efficiency" = Some b).
Proof.
  unfold get_num, get_in, extract_psu_specs.
  split; [|intros needle]; lookup_bag; split_probes.
Qed.

(** On the ingestion path the clamp invariant holds outright: for every
    listing, the scorer returns on the bag extracted from that listing
    and each of the four scores is in [0,100]. *)
Theorem ingested_scores_in_range ct name description :
  exists sc,
    calculate_benchmark_scores ct name (extract_specs ct name description)
    = Some sc
    /\ scores_in_range sc.
Proof.
  unfold calculate_benchmark_scores, extract_specs.
  destruct (String.eqb (PyStr.lower ct) "cpu") eqn:Ecpu.
  { destruct (cpu_bag_numbers name description) as [(q1 & H1) (q2 & H2)].
    assert (exists sc, calculate_cpu_scores name
                         (extract_cpu_specs name description) = Some sc)
      as (sc & H)
        by (unfold calculate_cpu_scores; rewrite H1, H2; simpl; eauto).
    exists sc. split; [exact H | exact (cpu_scores_in_range _ _ _ H)]. }
  destruct (String.eqb (PyStr.lower ct) "gpu") eqn:Egpu.
  { destruct (gpu_bag_numbers name description) as (q & Hq).
    assert (exists sc, calculate_gpu_scores name
                         (extract_gpu_specs name description) = Some sc)
      as (sc & H)
        by (unfold calculate_gpu_scores; rewrite Hq; simpl; eauto).
    exists sc. split; [exact H | exact (gpu_scores_in_range _ _ _ H)]. }
  destruct (String.eqb (PyStr.lower ct) "motherboard") eqn:Emb.
  { apply String.eqb_eq in Emb. rewrite Emb. simpl.
    eexists. split; [reflexivity|].
    unfold scores_in_range, in_range; simpl. repeat split; lra. }
  destruct (String.eqb (PyStr.lower ct) "ram") eqn:Eram.
  { destruct (ram_bag_numbers name description) as [(q1 & H1 & Hq1) (q2 & H2)].
    assert (exists sc, calculate_ram_scores name
                         (extract_ram_specs name description) = Some sc)
      as (sc & H).
    { unfold calculate_ram_scores. rewrite H1. simpl.
      destruct (get_is_str _ "ram_type" "DDR5"); [simpl; eauto|].
      destruct (get_is_str _ "ram_type" "DDR4"); [|simpl; eauto].
      rewrite H2. simpl. eauto. }
    exists sc. split; [exact H|].
    destruct (ram_scores_bounds _ _ _ H) as [Hle Hge].
    apply in_range_split. split; [|exact Hle].
    apply Hge. intros q Hq. rewrite H1 in Hq. injection Hq as <-. exact Hq1. }
  destruct (String.eqb (PyStr.lower ct) "storage") eqn:Esto.
  { destruct (storage_bag_values name description) as [(q & Hq) Hin].
    assert (exists sc, calculate_storage_scores name
                         (extract_storage_specs name description) = Some sc)
      as (sc & H).
    { unfold calculate_storage_scores, storage_base.
      destruct (Hin "NVMe") as (b1 & ->). destruct (Hin "SSD") as (b2 & ->).
      rewrite Hq. destruct b1, b2; simpl; eauto. }
    exists sc. split; [exact H | exact (storage_scores_in_range _ _ _ H)]. }
  destruct (String.eqb (PyStr.lower ct) "psu") eqn:Epsu.
  { destruct (psu_bag_values name description) as [(q & Hq) Hin].
    assert (exists sc, calculate_psu_scores name
                         (extract_psu_specs name description) = Some sc)
      as (sc & H).
    { unfold calculate_psu_scores, efficiency_bonus. rewrite Hq.
      destruct (Hin "Titanium") as (b1 & ->).
      destruct (Hin "Platinum") as (b2 & ->).
      destruct (Hin "Gold") as (b3 & ->). destruct (Hin "Bronze") as (b4 & ->).
      destruct b1, b2, b3, b4; simpl; eauto. }
    exists sc. split; [exact H | exact (psu_scores_in_range _ _ _ H)]. }
  eexists. split; [reflexivity|].
  unfold scores_in_range, in_range; simpl. repeat split; lra.
Qed.

(** A valid attribute map: none of its numeric attributes (counts,
    sizes, clock speeds, wattages) is negative. *)
Definition valid_attribute_map (specs : specs_t) : Prop :=
  forall key v q, specs !! key = Some v -> as_num v = Some q -> 0 <= q.

(** C1: for every category and name, each of the four scores that the
    Benchmark Scorer returns on a valid attribute map lies in [0,100],
    whatever bonuses were added; and on the attribute map that the
    Specification Extractor produces for any listing, which is the only
    map the ingestion gives it, the scorer does return and the four
    scores are in [0,100]. *)
Theorem benchmark_scores_in_range ct name :
  (forall specs sc,
      valid_attribute_map specs ->
      calculate_benchmark_scores ct name specs = Some sc ->
      scores_in_range sc)
  /\ (forall description,
        exists sc,
          calculate_benchmark_scores ct name (extract_specs ct name description)
          = Some sc
          /\ scores_in_range sc).
Proof.
  split.
  - intros specs sc Hv H.
    destruct (benchmark_scores_bounds _ _ _ _ H) as [Hle Hge].
    apply in_range_split. split; [|exact Hle].
    apply Hge. intros _ q Hq. unfold get_num in Hq.
    destruct (specs !! "capacity_gb") as [v|] eqn:E.
    + exact (Hv _ _ _ E Hq).
    + injection Hq as <-. lra.
  - intros description. apply ingested_scores_in_range.
Qed.

(** The statement at a RAM listing with 16 GB of DDR4-3600. *)
Lemma benchmark_scores_in_range_witness :
  let specs : specs_t :=
    <["capacity_gb" := VInt 16]>
      (<["ram_type" := VStr "DDR4"]> (<["ram_speed" := VInt 3600]> ∅)) in
  exists sc,
    calculate_benchmark_scores "RAM" "Corsair Vengeance 16GB DDR4 3600MHz" specs
    = Some sc
    /\ scores_in_range sc.
Proof.
  intros specs.
  destruct (calculate_benchmark_scores "RAM" "Corsair Vengeance 16GB DDR4 3600MHz" specs)
    as [sc|] eqn:E; [|vm_compute in E; discriminate].
  exists sc. split; [reflexivity|].
  apply (proj1 (benchmark_scores_in_range "RAM" "Corsair Vengeance 16GB DDR4 3600MHz")
           specs sc); [|exact E].
  intros key v q Hl Hq. unfold specs in Hl.
  apply lookup_insert_Some in Hl as [[_ <-]|[_ Hl]];
    [injection Hq as <-; vm_compute; discriminate|].
  apply lookup_insert_Some in Hl as [[_ <-]|[_ Hl]]; [discriminate|].
  apply lookup_insert_Some in Hl as [[_ <-]|[_ Hl]];
    [injection Hq as <-; vm_compute; discriminate|].
  rewrite lookup_empty in Hl. discriminate.
Defined.

End Ingested.

(** ** The GPU extractor and the GDDR6X bonus *)

Section Gddr6x.
Import SpecExtractor BenchmarkCalculator.

(** The second rung of the memory-type ladder is dead. *)
Lemma gpu_memory_type_not_gddr6x text : gpu_memory_type text <> Some "GDDR6X".
Proof.
  unfold gpu_memory_type.
  destruct (PyStr.contains "gddr6" text) eqn:E6; simpl; [discriminate|].
  destruct (PyStr.contains "gd6" text); [discriminate|].
  destruct (PyStr.contains "gddr6x" text) eqn:E6x.
  - apply (contains_app_l "gddr6" "x") in E6x. congruence.
  - destruct (PyStr.contains "gddr5" text); discriminate.
Qed.

Lemma extract_gpu_memory_type name description :
  extract_gpu_specs name description !! "memory_type"
  = VStr <$> gpu_memory_type (text_of name description).
Proof.
  unfold extract_gpu_specs.
  rewrite lookup_set_opt_ne by discriminate.
  rewrite lookup_set_opt_eq.
  destruct (gpu_memory_type _); [reflexivity|].
  rewrite lookup_set_opt_ne by discriminate. apply lookup_empty.
Qed.

Lemma gpu_bag_not_gddr6x name description :
  is_gddr6x (extract_gpu_specs name description) = false.
Proof.
  unfold is_gddr6x, get_is_str. rewrite extract_gpu_memory_type.
  pose proof (gpu_memory_type_not_gddr6x (text_of name description)) as Hn.
  destruct (gpu_memory_type _) as [s|]; simpl; [|reflexivity].
  destruct (String.eqb s "GDDR6X") eqn:Es; [|reflexivity].
  apply String.eqb_eq in Es. subst s. contradiction.
Qed.

(** No other extractor writes a memory_type at all. *)
Lemma other_bags_have_no_memory_type ct name description :
  String.eqb (PyStr.lower ct) "gpu" = false ->
  extract_specs ct name description !! "memory_type" = None.
Proof.
  intros Hct. unfold extract_specs. rewrite Hct.
  destruct (String.eqb (PyStr.lower ct) "cpu").
  { unfold extract_cpu_specs. lookup_bag. split_probes. }
  destruct (String.eqb (PyStr.lower ct) "motherboard").
  { unfold extract_motherboard_specs, first_key. lookup_bag.
    repeat match goal with
           | |- context [List.find ?f ?l] => destruct (List.find f l)
           end; split_probes. }
  destruct (String.eqb (PyStr.lower ct) "ram").
  { unfold extract_ram_specs.
    destruct (probe_int re_mhz _); lookup_bag; split_probes. }
  destruct (String.eqb (PyStr.lower ct) "storage").
  { unfold extract_storage_specs. lookup_bag. split_probes. }
  destruct (String.eqb (PyStr.lower ct) "psu").
  { unfold extract_psu_specs. lookup_bag. split_probes. }
  destruct (String.eqb (PyStr.lower ct) "case"); [|apply lookup_empty].
  unfold extract_case_specs.
  destruct (_ ++ _)%list; [apply lookup_empty|]. lookup_bag. reflexivity.
Qed.

(** C10: whatever the title and the description, the GPU extractor
    never stores memory_type = "GDDR6X" (the "gddr6" test comes first
    and every text with "gddr6x" has "gddr6"); so on the map extracted
    from a listing of any category the scorer's GDDR6X guard is false,
    and the GPU scores of the ingestion path are the ones computed
    without the bonus. *)
Theorem gpu_extractor_never_gddr6x name description :
  extract_gpu_specs name description !! "memory_type" <> Some (VStr "GDDR6X")
  /\ (forall ct, is_gddr6x (extract_specs ct name description) = false)
  /\ forall n,
      calculate_benchmark_scores "gpu" n (extract_specs "gpu" name description)
      = (vram ← get_num (extract_gpu_specs name description) "vram_gb";
         let t := lookup_tier GPU_SCORES (Tier 40 45 40 35) (PyStr.lower n) in
         Some (Scores (py_min (t_base t) 100)
                      (py_min (t_gaming t) 100)
                      (py_min (t_productivity t) 100)
                      (py_min (t_ai t + vram_bonus vram) 100))).
Proof.
  split; [|split].
  - rewrite extract_gpu_memory_type.
    pose proof (gpu_memory_type_not_gddr6x (text_of name description)) as Hn.
    destruct (gpu_memory_type _) as [s|]; simpl; [|discriminate].
    intros [= ->]. apply Hn. reflexivity.
  - intros ct. destruct (String.eqb (PyStr.lower ct) "gpu") eqn:Ect.
    + unfold extract_specs. rewrite Ect.
      destruct (String.eqb (PyStr.lower ct) "cpu") eqn:Ecpu.
      * apply String.eqb_eq in Ect, Ecpu. congruence.
      * apply gpu_bag_not_gddr6x.
    + unfold is_gddr6x, get_is_str.
      rewrite (other_bags_have_no_memory_type _ _ _ Ect). reflexivity.
  - intros n. change (extract_specs "gpu" name description)
      with (extract_gpu_specs name description).
    change (calculate_benchmark_scores "gpu" n (extract_gpu_specs name description))
      with (calculate_gpu_scores n (extract_gpu_specs name description)).
    unfold calculate_gpu_scores. rewrite gpu_bag_not_gddr6x. reflexivity.
Qed.

End Gddr6x.

(** ** The compatibility checker *)

Section Compatibility.
Import Models Tools.
Local Open Scope Q_scope.

(** The flag and the list agree: the flag is down exactly when the list
    holds a critical issue. *)
Definition consistent (v : verdict) : Prop :=
  snd v = negb (existsb is_critical (fst v)).

Lemma consistent_critical (issues : list issue) (i : issue) :
  is_critical i = true ->
  consistent ((issues ++ [i])%list, false).
Proof.
  intros Hi. unfold consistent. simpl.
  rewrite existsb_app. simpl. rewrite Hi, orb_true_r. reflexivity.
Qed.

Lemma consistent_warning (issues : list issue) (compatible : bool) (i : issue) :
  is_critical i = false ->
  consistent (issues, compatible) ->
  consistent ((issues ++ [i])%list, compatible).
Proof.
  unfold consistent. simpl. intros Hi ->.
  rewrite existsb_app. simpl. rewrite Hi, !orb_false_r. reflexivity.
Qed.

Lemma socket_rule_consistent m v : consistent v -> consistent (socket_rule m v).
Proof.
  destruct v as [issues compatible]. intros Hv. unfold socket_rule.
  destruct (m !! "cpu"); [|exact Hv].
  destruct (m !! "motherboard"); [|exact Hv].
  destruct (truthy_str _); [|exact Hv].
  destruct (truthy_str _); [|exact Hv].
  destruct (negb _); [|exact Hv].
  apply (consistent_critical issues). reflexivity.
Qed.

Lemma ram_rule_consistent m v : consistent v -> consistent (ram_rule m v).
Proof.
  destruct v as [issues compatible]. intros Hv. unfold ram_rule.
  destruct (m !! "ram"); [|exact Hv].
  destruct (m !! "motherboard"); [|exact Hv].
  destruct (truthy_str _); [|exact Hv].
  destruct (truthy_str _); [|exact Hv].
  destruct (negb _); [|exact Hv].
  apply (consistent_critical issues). reflexivity.
Qed.

Lemma psu_rule_consistent cs m v v' :
  psu_rule cs m v = Some v' -> consistent v -> consistent v'.
Proof.
  destruct v as [issues compatible]. unfold psu_rule. intros H Hv.
  destruct (m !! "psu") as [psu|]; [|injection H as <-; exact Hv].
  destruct (psu_wattage_of psu) as [w|]; [|discriminate]. simpl in H.
  destruct (Qltb w _); injection H as <-; [|exact Hv].
  apply consistent_warning; [reflexivity | exact Hv].
Qed.

Lemma form_factor_rule_consistent m v :
  consistent v -> consistent (form_factor_rule m v).
Proof.
  destruct v as [issues compatible]. intros Hv. unfold form_factor_rule.
  destruct (m !! "motherboard"); [|exact Hv].
  destruct (m !! "case"); [|exact Hv].
  destruct (truthy_str _); [|exact Hv].
  destruct (truthy_str _); [|exact Hv].
  destruct (negb _); [|exact Hv].
  apply (consistent_critical issues). reflexivity.
Qed.

(** The form-factor rule only ever appends. *)
Lemma form_factor_rule_keeps m v i :
  In i (fst v) -> In i (fst (form_factor_rule m v)).
Proof.
  destruct v as [issues compatible]. intros Hi. unfold form_factor_rule.
  destruct (m !! "motherboard"); [|exact Hi].
  destruct (m !! "case"); [|exact Hi].
  destruct (truthy_str _); [|exact Hi].
  destruct (truthy_str _); [|exact Hi].
  destruct (negb _); [|exact Hi].
  simpl. apply in_or_app. left. exact Hi.
Qed.

(** An underpowered PSU leaves its warning in the list. *)
Lemma psu_rule_warns cs m v v' psu w :
  psu_rule cs m v = Some v' ->
  m !! "psu" = Some psu ->
  psu_wattage_of psu = Some w ->
  w < inject_Z (non_psu_tdp cs) * (13 # 10) ->
  In (Issue warning insufficient_psu
        (PsuDescription w (inject_Z (non_psu_tdp cs) * (13 # 10)))) (fst v').
Proof.
  destruct v as [issues compatible]. unfold psu_rule. intros H Hm Hw Hlt.
  rewrite Hm, Hw in H. simpl in H.
  apply Qltb_lt in Hlt. rewrite Hlt in H. injection H as <-.
  simpl. apply in_or_app. right. left. reflexivity.
Qed.

Lemma no_critical_existsb (l : list issue) :
  existsb is_critical l = false <->
  (forall i, In i l -> severity i <> critical).
Proof.
  split.
  - intros H i Hi Hc.
    assert (existsb is_critical l = true) as Ht.
    { apply existsb_exists. exists i. split; [exact Hi|].
      unfold is_critical. rewrite Hc. reflexivity. }
    congruence.
  - intros H. apply not_true_iff_false. intros Ht.
    apply existsb_exists in Ht as (i & Hi & Hc).
    apply (H i Hi). unfold is_critical in Hc.
    destruct (severity i); [reflexivity|discriminate].
Qed.

(** The shape of a successful check. *)
Lemma check_compatibility_ok db ids r :
  check_compatibility db ids = Ok r ->
  exists v,
    psu_rule (query_by_ids db ids) (build_comp_map (query_by_ids db ids))
      (ram_rule (build_comp_map (query_by_ids db ids))
         (socket_rule (build_comp_map (query_by_ids db ids)) ([], true)))
    = Some v
    /\ issues r = fst (form_factor_rule (build_comp_map (query_by_ids db ids)) v)
    /\ compatible r = snd (form_factor_rule (build_comp_map (query_by_ids db ids)) v)
    /\ total_tdp_watts r
       = fold_left Z.add
           (List.map (fun c => Z_or_0 (tdp_watts c)) (query_by_ids db ids)) 0%Z.
Proof.
  unfold check_compatibility. intros H.
  destruct (negb _); [discriminate|].
  destruct (psu_rule _ _ _) as [v|]; [|discriminate].
  exists v. split; [reflexivity|].
  destruct (form_factor_rule _ v) as [issues compatible].
  injection H as <-. simpl. auto.
Qed.

(** C4: on every accepted component set, [compatible] is true exactly
    when the issue list holds no critical issue. In particular a PSU
    whose wattage is below 1.3 times the summed non-PSU TDP puts a
    warning of type insufficient_psu in the list, and [compatible] is
    still true when the list holds no critical issue. *)
Theorem compatible_iff_no_critical db ids r :
  check_compatibility db ids = Ok r ->
  (compatible r = true <->
     (forall i, In i (issues r) -> severity i <> critical))
  /\ (forall psu w,
        build_comp_map (query_by_ids db ids) !! "psu" = Some psu ->
        psu_wattage_of psu = Some w ->
        w < inject_Z (non_psu_tdp (query_by_ids db ids)) * (13 # 10) ->
        (exists i, In i (issues r)
                   /\ severity i = warning /\ issue_type i = insufficient_psu)
        /\ ((forall i, In i (issues r) -> severity i <> critical) ->
            compatible r = true)).
Proof.
  intros H. apply check_compatibility_ok in H.
  destruct H as (v & Hpsu & Hi & Hc & _).
  set (cs := query_by_ids db ids) in *.
  set (m := build_comp_map cs) in *.
  assert (Hcons : consistent (form_factor_rule m v)).
  { apply form_factor_rule_consistent.
    apply (psu_rule_consistent _ _ _ _ Hpsu).
    apply ram_rule_consistent, socket_rule_consistent. reflexivity. }
  unfold consistent in Hcons. rewrite <- Hi, <- Hc in Hcons.
  assert (Hiff : compatible r = true <->
                 (forall i, In i (issues r) -> severity i <> critical)).
  { rewrite <- no_critical_existsb, Hcons. apply negb_true_iff. }
  split; [exact Hiff|].
  intros psu w Hm Hw Hlt. split; [|apply Hiff].
  eexists. split; [|split].
  - rewrite Hi. apply form_factor_rule_keeps.
    exact (psu_rule_warns _ _ _ _ _ _ Hpsu Hm Hw Hlt).
  - reflexivity.
  - reflexivity.
Qed.

End Compatibility.

(** ** Sample catalog rows *)

Section Samples.
Import Models.

(** A row with the given key, type, name, bag, gaming / productivity /
    ai scores, socket, RAM type, TDP and form factor; every other
    nullable column is NULL, the row is in stock and was never scraped. *)
Definition part (i : Z) (ty : ComponentType) (n : string)
           (sp : option specs_t) (g p a : option Q)
           (socket ramt : option string) (tdp : option Z)
           (ff : option string) : Component :=
  {|
    id := i; component_type := ty; name := n;
    manufacturer := None; model := None; price_dzd := 0%Q;
    original_price := None; condition := Some NEW; in_stock := Some true;
    source_url := None; source_platform := None; seller_location := None;
    specs := sp;
    benchmark_score := None; gaming_score := g;
    productivity_score := p; ai_score := a;
    socket_type := socket; chipset := None; ram_type := ramt;
    ram_speed := None; tdp_watts := tdp; form_factor := ff;
    last_scraped_at := None
  |}.

(** A CPU and a GPU drawing 65 W and 230 W, and a 300 W PSU whose own
    TDP column holds 10. *)
Definition underpowered_build : table :=
  [ part 1 CPU "AMD Ryzen 5 5600X" None None None None (Some "AM4") None (Some 65%Z) None;
    part 2 GPU "AMD RX 6700 XT 12GB" None None None None None None (Some 230%Z) None;
    part 3 PSU "Corsair CV 300W" (Some {[ "wattage" := VInt 300 ]})
         None None None None None (Some 10%Z) None ].

(** A micro-ATX board, a mini-ITX board and an ATX case. *)
Definition small_boards : table :=
  [ part 1 MOTHERBOARD "MSI B550M PRO" None None None None (Some "AM4")
         (Some "DDR4") None (Some "mATX");
    part 2 MOTHERBOARD "ASUS ROG STRIX B550-I" None None None None (Some "AM4")
         (Some "DDR4") None (Some "ITX");
    part 3 CASE "NZXT H510" None None None None None None None (Some "ATX") ].

(** A catalog that holds one GPU. *)
Definition one_gpu : table :=
  [ part 1 GPU "NVIDIA RTX 4080 16GB" None (Some 90%Q) (Some 0%Q) (Some 100%Q)
         None None (Some 320%Z) None ].

End Samples.

Section ToolsResults.
Import Models Tools.
Local Open Scope Q_scope.

(** The statement of C4 on a build whose PSU is too small: the warning
    is there and the build is still compatible. *)
Lemma compatible_iff_no_critical_witness :
  exists r,
    check_compatibility underpowered_build [1; 2; 3]%Z = Ok r
    /\ compatible r = true
    /\ exists i, In i (issues r)
                 /\ severity i = warning /\ issue_type i = insufficient_psu.
Proof.
  destruct (check_compatibility underpowered_build [1; 2; 3]%Z) as [r|e] eqn:E;
    [|vm_compute in E; discriminate].
  exists r. split; [reflexivity|].
  destruct (compatible_iff_no_critical _ _ _ E) as [Hiff Hpsu].
  destruct (Hpsu (part 3 PSU "Corsair CV 300W" (Some {[ "wattage" := VInt 300 ]})
                    None None None None None (Some 10%Z) None) 300)
    as [Hwarn Hcompat].
  - vm_compute. reflexivity.
  - reflexivity.
  - vm_compute. reflexivity.
  - split; [|exact Hwarn].
    apply Hcompat. intros i Hi.
    vm_compute in E. injection E as <-. simpl in Hi.
    destruct Hi as [<-|[]]. discriminate.
Defined.

(** C3 (the code departs from it): on a CPU, a GPU and a PSU whose TDP
    columns hold 65, 230 and 10, the result reports 305 watts, the PSU
    included, while the sum over the components other than the PSU,
    which the PSU rule itself uses, is 295. *)
Lemma total_tdp_counts_the_psu :
  exists r,
    check_compatibility underpowered_build [1; 2; 3]%Z = Ok r
    /\ total_tdp_watts r = 305%Z
    /\ non_psu_tdp (query_by_ids underpowered_build [1; 2; 3]%Z) = 295%Z.
Proof.
  eexists. split; [vm_compute; reflexivity|]. split; reflexivity.
Qed.

(** The reported total is always the sum over every selected row. *)
Lemma total_tdp_is_sum_over_all db ids r :
  check_compatibility db ids = Ok r ->
  total_tdp_watts r
  = fold_left Z.add
      (List.map (fun c => Z_or_0 (tdp_watts c)) (query_by_ids db ids)) 0%Z.
Proof.
  intros H. apply check_compatibility_ok in H.
  destruct H as (v & _ & _ & _ & Ht). exact Ht.
Qed.

Lemma fold_add_shift (l : list Z) (a : Z) :
  fold_left Z.add l a = (a + fold_left Z.add l 0)%Z.
Proof.
  revert a. induction l as [|z l IH]; intros a; simpl; [lia|].
  rewrite (IH (a + z)%Z), (IH (0 + z)%Z). lia.
Qed.

(** The two sums differ by the PSU's own column only: when no selected
    PSU row carries a TDP (a row inserted from a PSU listing does not,
    the PSU extractor has no tdp_watts), the reported total is the sum
    over the other components. *)
Lemma total_tdp_when_psu_has_none db ids r :
  check_compatibility db ids = Ok r ->
  (forall c, In c (query_by_ids db ids) ->
             component_type c = PSU -> Z_or_0 (tdp_watts c) = 0%Z) ->
  total_tdp_watts r = non_psu_tdp (query_by_ids db ids).
Proof.
  intros H Hpsu. rewrite (total_tdp_is_sum_over_all _ _ _ H).
  unfold non_psu_tdp. induction (query_by_ids db ids) as [|c cs IH];
    [reflexivity|].
  simpl. destruct (type_eqb (component_type c) PSU) eqn:E; simpl.
  - assert (component_type c = PSU) as Hc
        by (destruct (component_type c); try discriminate; reflexivity).
    rewrite (Hpsu c (or_introl eq_refl) Hc). simpl.
    apply IH. intros c' Hc'. apply Hpsu. right. exact Hc'.
  - rewrite fold_add_shift.
    rewrite (fold_add_shift (List.map _ (List.filter _ cs))).
    f_equal. apply IH. intros c' Hc'. apply Hpsu. right. exact Hc'.
Qed.

(** C5 (the code departs from it): with an ATX case, a board whose
    form factor is "mATX", and likewise one whose form factor is "ITX",
    gets a critical form_factor_mismatch and the build is reported
    incompatible, because the rule tests whether the board's string
    occurs inside the case's string. *)
Lemma atx_case_rejects_small_boards :
  check_compatibility small_boards [1; 3]%Z
  = Ok (CompatResult false 50
          [Issue critical form_factor_mismatch (FormFactorDescription "mATX" "ATX")]
          0)
  /\ check_compatibility small_boards [2; 3]%Z
     = Ok (CompatResult false 50
             [Issue critical form_factor_mismatch (FormFactorDescription "ITX" "ATX")]
             0).
Proof. split; vm_compute; reflexivity. Qed.

End ToolsResults.

(** ** Missing component IDs *)

Section MissingIds.
Import Models Tools.
Local Open Scope Q_scope.

Lemma query_by_ids_In db ids c :
  In c (query_by_ids db ids) <-> In c db /\ In (id c) ids.
Proof.
  unfold query_by_ids. rewrite filter_In, existsb_exists.
  split.
  - intros [Hc (z & Hz & Heq)]. apply Z.eqb_eq in Heq. subst z. auto.
  - intros [Hc Hi]. split; [exact Hc|]. exists (id c). split; [exact Hi|].
    apply Z.eqb_refl.
Qed.

Lemma query_by_ids_NoDup db ids :
  primary_key db -> List.NoDup (List.map id (query_by_ids db ids)).
Proof.
  unfold primary_key, query_by_ids.
  induction db as [|c db IH]; simpl; intros H; [constructor|].
  inversion H as [|? ? Hnin Hnd]; subst.
  destruct (existsb _ ids); simpl; [constructor|]; auto.
  intros Hin. apply Hnin.
  apply in_map_iff in Hin as (c' & Heq & Hc').
  apply filter_In in Hc' as [Hc' _].
  apply in_map_iff. exists c'. auto.
Qed.

(** The rows found for a list of keys of which one is not in the
    catalog are fewer than the keys. *)
Lemma query_by_ids_short db ids x :
  primary_key db -> In x ids -> ~ In x (List.map id db) ->
  (List.length (query_by_ids db ids) < List.length ids)%nat.
Proof.
  intros Hpk Hx Hnx.
  assert (Hnd : List.NoDup (x :: List.map id (query_by_ids db ids))).
  { constructor; [|apply query_by_ids_NoDup; exact Hpk].
    intros Hin. apply Hnx.
    apply in_map_iff in Hin as (c & Heq & Hc).
    apply query_by_ids_In in Hc as [Hc _].
    apply in_map_iff. exists c. auto. }
  assert (Hincl : incl (x :: List.map id (query_by_ids db ids)) ids).
  { intros y [<-|Hy]; [exact Hx|].
    apply in_map_iff in Hy as (c & <- & Hc).
    apply query_by_ids_In in Hc as [_ Hc]. exact Hc. }
  pose proof (NoDup_incl_length Hnd Hincl) as Hlen.
  simpl in Hlen. rewrite List.length_map in Hlen. lia.
Qed.

(** The half of C6 the code keeps: the compatibility check of a list
    with a key that is not in the catalog fails as a whole, with the
    not-found error. *)
Lemma check_compatibility_missing_id db ids x :
  primary_key db -> In x ids -> ~ In x (List.map id db) ->
  check_compatibility db ids = Error IdsNotFound.
Proof.
  intros Hpk Hx Hnx. unfold check_compatibility.
  pose proof (query_by_ids_short db ids x Hpk Hx Hnx) as Hlt.
  destruct (Nat.eqb _ _) eqn:E; [|reflexivity].
  apply Nat.eqb_eq in E. lia.
Qed.

(** [rate_performance] has no such check: whatever the keys, it never
    answers with the not-found error. *)
Lemma rate_performance_never_not_found db ids uc :
  rate_performance db ids uc <> Error IdsNotFound.
Proof.
  unfold rate_performance.
  destruct (build_comp_map _ !! "gpu");
    destruct (build_comp_map _ !! "cpu");
    destruct (build_comp_map _ !! "ram") as [ram|];
    try (destruct (ram_capacity_of ram)); simpl; discriminate.
Qed.

(** C6 (the code departs from it): asked to rate the keys 1 and 999
    against a catalog that holds only the GPU 1, the compatibility
    check fails with the not-found error, but [rate_performance]
    returns a rating computed from the GPU alone (gaming 54, rated
    fair). *)
Lemma rate_performance_scores_a_partial_set :
  primary_key one_gpu
  /\ ~ In 999%Z (List.map id one_gpu)
  /\ check_compatibility one_gpu [1; 999]%Z = Error IdsNotFound
  /\ exists p,
      rate_performance one_gpu [1; 999]%Z "gaming" = Ok p
      /\ use_case_score p == 54
      /\ rating p = fair.
Proof.
  assert (Hpk : primary_key one_gpu).
  { unfold primary_key. simpl. constructor; [intros []|constructor]. }
  assert (Hn : ~ In 999%Z (List.map id one_gpu)).
  { simpl. intros [H|[]]. discriminate. }
  split; [exact Hpk|]. split; [exact Hn|].
  split; [apply (check_compatibility_missing_id _ _ 999%Z); simpl; auto|].
  eexists. split; [vm_compute; reflexivity|]. split; reflexivity.
Qed.

End MissingIds.

(** ** The build scorer *)

Section BuildScore.
Import Models Tools.
Local Open Scope Q_scope.

(** C7, as stated, fails: for the single GPU of [one_gpu] rated for
    "ai_ml" the aggregates are gaming 54, productivity 0 and ai 70,
    whose mean is 124/3, while [overall] is 41.62. *)
Lemma overall_is_not_the_mean :
  ~ (forall db ids uc p,
        rate_performance db ids uc = Ok p ->
        s_overall (all_scores p)
        == (s_gaming (all_scores p) + s_productivity (all_scores p)
            + s_ai_ml (all_scores p)) / 3).
Proof.
  intros H.
  destruct (rate_performance one_gpu [1%Z] "ai_ml") as [p|e] eqn:E;
    [|vm_compute in E; discriminate].
  specialize (H _ _ _ _ E).
  vm_compute in E. injection E as <-.
  revert H. vm_compute. discriminate.
Qed.

(** C7 (amended): for every component set and use case on which the
    Build Scorer returns, [overall] is the weighted sum
    0.33 * gaming + 0.33 * productivity + 0.34 * ai of the three
    aggregates. *)
Theorem overall_is_weighted_sum db ids uc p :
  rate_performance db ids uc = Ok p ->
  s_overall (all_scores p)
  == (33 # 100) * s_gaming (all_scores p)
     + (33 # 100) * s_productivity (all_scores p)
     + (34 # 100) * s_ai_ml (all_scores p).
Proof.
  unfold rate_performance. intros H.
  destruct (build_comp_map _ !! "gpu") as [gpu|];
    destruct (build_comp_map _ !! "cpu") as [cpu|];
    destruct (build_comp_map _ !! "ram") as [ram|];
    simpl in H;
    try (destruct (ram_capacity_of ram) as [cap|]; simpl in H; [|discriminate]);
    injection H as <-; simpl; ring.
Qed.

(** The amended statement on the single GPU of [one_gpu]. *)
Lemma overall_is_weighted_sum_witness :
  exists p,
    rate_performance one_gpu [1%Z] "ai_ml" = Ok p
    /\ s_overall (all_scores p) == 4162 # 100.
Proof.
  destruct (rate_performance one_gpu [1%Z] "ai_ml") as [p|e] eqn:E;
    [|vm_compute in E; discriminate].
  exists p. split; [reflexivity|].
  pose proof (overall_is_weighted_sum _ _ _ _ E) as H.
  vm_compute in E. injection E as <-.
  apply (Qeq_trans _ _ _ H). reflexivity.
Defined.

End BuildScore.

(** ** The name normalizer *)

Section NameNormalizer.
Import NameParser.

(** C9: the title "AMD Ryzen 5 5600X 6-Core Processor" with category
    CPU gives manufacturer "AMD" and a model that contains "5600X". *)
Theorem ryzen_5600x_is_parsed :
  exists m,
    parse_component_name "AMD Ryzen 5 5600X 6-Core Processor" "cpu"
    = NameData (Some "AMD") (Some m)
    /\ PyStr.contains "5600X" m = true.
Proof.
  exists "Ryzen 5 5600X 6-Core Processor". split; vm_compute; reflexivity.
Qed.

End NameNormalizer.

(** ** The staleness sweep *)

Section Staleness.
Import Models ScraperTasks.
Local Open Scope Z_scope.

(** The row was last ingested more than 48 hours before [now]. *)
Definition older_than_48h (now : Z) (c : Component) : Prop :=
  exists t, last_scraped_at c = Some t /\ t < now - hours 48.

Lemma stale_spec now c :
  stale (now - hours 48) c = true <->
  older_than_48h now c /\ in_stock c = Some true.
Proof.
  unfold stale, older_than_48h. split.
  - destruct (last_scraped_at c) as [t|]; [|discriminate].
    destruct (in_stock c) as [[|]|]; try discriminate.
    intros H. apply Z.ltb_lt in H. split; [exists t|]; auto.
  - intros [(t & -> & Ht) ->]. apply Z.ltb_lt. exact Ht.
Qed.

(** The sweep on one row. *)
Definition sweep_row (now : Z) (c : Component) : Component :=
  if stale (now - hours 48) c then set_out_of_stock c else c.

Lemma sweep_row_id now c : id (sweep_row now c) = id c.
Proof. unfold sweep_row. destruct (stale _ c); reflexivity. Qed.

(** C8: the sweep deletes no row (the keys afterwards are the keys
    before, in order), and row by row it does this: a row last ingested
    more than 48 hours ago whose in_stock is true becomes the same row
    with in_stock false, every other row is left as it is. So a row
    ingested 49 hours ago and in stock is flipped, and one ingested 47
    hours ago is untouched. *)
Theorem staleness_sweep now db :
  List.map id (fst (mark_out_of_stock now db)) = List.map id db
  /\ List.length (fst (mark_out_of_stock now db)) = List.length db
  /\ Forall2
       (fun c c' =>
          (older_than_48h now c /\ in_stock c = Some true ->
           c' = set_out_of_stock c /\ in_stock c' = Some false)
          /\ (~ (older_than_48h now c /\ in_stock c = Some true) -> c' = c))
       db (fst (mark_out_of_stock now db))
  /\ (forall c,
        last_scraped_at c = Some (now - hours 49) -> in_stock c = Some true ->
        fst (mark_out_of_stock now [c]) = [set_out_of_stock c])
  /\ (forall c,
        last_scraped_at c = Some (now - hours 47) ->
        fst (mark_out_of_stock now [c]) = [c]).
Proof.
  unfold mark_out_of_stock. simpl.
  split; [|split; [|split; [|split]]].
  - rewrite List.map_map. apply List.map_ext. intros c.
    apply (sweep_row_id now c).
  - apply List.length_map.
  - induction db as [|c db IH]; simpl; constructor; [|exact IH].
    split.
    + intros H. apply stale_spec in H. rewrite H. auto.
    + intros H. destruct (stale (now - hours 48) c) eqn:E; [|reflexivity].
      apply stale_spec in E. contradiction.
  - intros c Ht Hs. unfold stale. rewrite Ht, Hs.
    assert ((now - hours 49 <? now - hours 48) = true) as ->
        by (apply Z.ltb_lt; unfold hours; lia).
    reflexivity.
  - intros c Ht. unfold stale. rewrite Ht.
    assert ((now - hours 47 <? now - hours 48) = false) as ->
        by (apply Z.ltb_ge; unfold hours; lia).
    destruct (in_stock c) as [[|]|]; reflexivity.
Qed.

(** Two rows seen at noon: one was ingested 49 hours before, the other
    47 hours before. *)
Definition noon : Z := hours 1000.

Definition seen (i : Z) (t : Z) : Component :=
  {|
    id := i; component_type := GPU; name := "NVIDIA RTX 4060 Ti 8GB";
    manufacturer := Some "NVIDIA"; model := Some "4060 Ti";
    price_dzd := 85000%Q;
    original_price := None; condition := Some NEW; in_stock := Some true;
    source_url := None; source_platform := Some "ouedkniss";
    seller_location := Some "Alger";
    specs := None;
    benchmark_score := Some 60%Q; gaming_score := Some 70%Q;
    productivity_score := Some 60%Q; ai_score := Some 65%Q;
    socket_type := None; chipset := None; ram_type := None;
    ram_speed := None; tdp_watts := Some 160; form_factor := None;
    last_scraped_at := Some t
  |}.

(** The statement of C8 on these two rows. *)
Lemma staleness_sweep_witness :
  fst (mark_out_of_stock noon [seen 1 (noon - hours 49)])
  = [set_out_of_stock (seen 1 (noon - hours 49))]
  /\ fst (mark_out_of_stock noon [seen 2 (noon - hours 47)])
     = [seen 2 (noon - hours 47)].
Proof.
  destruct (staleness_sweep noon []) as (_ & _ & _ & H49 & H47).
  split.
  - apply H49; reflexivity.
  - apply H47; reflexivity.
Defined.

End Staleness.

(** ** The merge of an incoming listing into a stored row *)

Section Upsert.
Import Models ScraperTasks.







(** A CPU listing seen twice at the same price: the first time the
    description names the socket, the second time it is empty. *)
Definition ryzen_listing (description : string) : listing :=
  {|
    l_name := "AMD Ryzen 5 5600X 3.7GHz";
    l_price_dzd := 35000%Q;
    l_original_price := Some "35000 DA";
    l_condition := Some "new";
    l_seller_location := Some "Alger";
    l_source_url := None;
    l_source_platform := Some "ouedkniss";
    l_component_type := "cpu";
    l_description := Some description
  |}.




(** The two ingestions of [ryzen_listing] end to end: after the first
    the bag and the column both hold the socket, after the second only
    the column does. *)
Lemma ryzen_listing_seen_twice :
  let db1 := fst (save_listing 0 [] (ryzen_listing "Socket AM4")) in
  let db2 := fst (save_listing 1 db1 (ryzen_listing "")) in
  List.map (fun c => (specs c ≫= (.!! "socket_type"), socket_type c)) db1
  = [(Some (VStr "AM4"), Some "AM4")]
  /\ List.map (fun c => (specs c ≫= (.!! "socket_type"), socket_type c)) db2
     = [(None, Some "AM4")].
Proof. split; vm_compute; reflexivity. Qed.


End Upsert.

(* ===================================================================== *)
(** * Further properties *)
(* ===================================================================== *)

(** ** Letter case *)

Section LetterCase.
Import BenchmarkCalculator SpecExtractor.

Lemma lower_ascii_idem (c : ascii) :
  PyStr.lower_ascii (PyStr.lower_ascii c) = PyStr.lower_ascii c.
Proof. destruct c as [[] [] [] [] [] [] [] []]; reflexivity. Qed.

Lemma lower_idem (s : string) : PyStr.lower (PyStr.lower s) = PyStr.lower s.
Proof.
  induction s as [|c s IH]; simpl; [reflexivity|].
  rewrite lower_ascii_idem, IH. reflexivity.
Qed.

Lemma lower_app (a b : string) :
  PyStr.lower (a ++ b) = PyStr.lower a ++ PyStr.lower b.
Proof.
  induction a as [|c a IH]; simpl; [reflexivity|]. rewrite IH. reflexivity.
Qed.

Lemma text_of_lower n n' d d' :
  PyStr.lower n = PyStr.lower n' -> PyStr.lower d = PyStr.lower d' ->
  text_of n d = text_of n' d'.
Proof.
  intros Hn Hd. unfold text_of. rewrite !lower_app, Hn, Hd. reflexivity.
Qed.

(** X1: the Specification Extractor reads the category, the title and
    the description through their lower-case forms only: two listings
    that differ in letter case alone get the same attribute map. *)
Theorem extraction_ignores_letter_case ct ct' n n' d d' :
  PyStr.lower ct = PyStr.lower ct' ->
  PyStr.lower n = PyStr.lower n' ->
  PyStr.lower d = PyStr.lower d' ->
  extract_specs ct n d = extract_specs ct' n' d'.
Proof.
  intros Hct Hn Hd. unfold extract_specs. rewrite <- Hct.
  unfold extract_cpu_specs, extract_gpu_specs, extract_motherboard_specs,
    extract_ram_specs, extract_storage_specs, extract_psu_specs,
    extract_case_specs.
  rewrite (text_of_lower n n' d d' Hn Hd). reflexivity.
Qed.

Lemma extraction_ignores_letter_case_witness :
  extract_specs "GPU" "MSI RTX 3060 12GB GDDR6" "170W"
  = extract_specs "gpu" "msi rtx 3060 12gb gddr6" "170w".
Proof. apply extraction_ignores_letter_case; reflexivity. Defined.

(** X2: the Benchmark Scorer reads the category and the name through
    their lower-case forms only: the scores of a component do not depend
    on the letter case of its category or of its name. *)
Theorem scoring_ignores_letter_case ct ct' name name' (specs : specs_t) :
  PyStr.lower ct = PyStr.lower ct' ->
  PyStr.lower name = PyStr.lower name' ->
  calculate_benchmark_scores ct name specs
  = calculate_benchmark_scores ct' name' specs.
Proof.
  intros Hct Hn. unfold calculate_benchmark_scores. rewrite <- Hct.
  unfold calculate_cpu_scores, calculate_gpu_scores, calculate_ram_scores,
    calculate_storage_scores, calculate_psu_scores.
  rewrite <- Hn. reflexivity.
Qed.

Lemma scoring_ignores_letter_case_witness :
  calculate_benchmark_scores "CPU" "AMD RYZEN 7 5800X" ∅
  = calculate_benchmark_scores "cpu" "amd ryzen 7 5800x" ∅.
Proof. apply scoring_ignores_letter_case; reflexivity. Defined.

End LetterCase.

(** ** How the scores move with the attributes *)

Section ScoreMonotone.
Import BenchmarkCalculator.
Local Open Scope Q_scope.

(** [split_min], then the same case analysis on what is left of
    [py_min] in the hypotheses. *)
Ltac split_min_all :=
  split_min;
  repeat match goal with
    | H : context [py_min ?a ?b] |- _ =>
        let H' := fresh "Hmin" in
        let E := fresh "Emin" in
        destruct (py_min_spec a b) as [[H' E] | [H' E]];
        rewrite E in *; clear E
    end.

Lemma py_min_mono_l a a' b : a <= a' -> py_min a b <= py_min a' b.
Proof. intros H. split_min; lra. Qed.

Lemma vram_bonus_mono v v' : v <= v' -> vram_bonus v <= vram_bonus v'.
Proof. intros H. unfold vram_bonus. split_min; lra. Qed.

(** X3: on a GPU, more VRAM never lowers a score: of two bags that
    differ in vram_gb only, the one with the larger VRAM gets an AI score
    at least as high, and the three other scores are the same. *)
Theorem gpu_scores_grow_with_vram name (specs : specs_t) v v' q q' sc :
  as_num v = Some q -> as_num v' = Some q' -> q <= q' ->
  calculate_gpu_scores name (<["vram_gb" := v]> specs) = Some sc ->
  exists sc',
    calculate_gpu_scores name (<["vram_gb" := v']> specs) = Some sc'
    /\ ai_score sc <= ai_score sc'
    /\ benchmark_score sc = benchmark_score sc'
    /\ gaming_score sc = gaming_score sc'
    /\ productivity_score sc = productivity_score sc'.
Proof.
  intros Hv Hv' Hle. unfold calculate_gpu_scores, get_num, is_gddr6x, get_is_str.
  rewrite !lookup_insert_eq, !lookup_insert_ne by discriminate.
  rewrite Hv, Hv'. simpl. intros [= <-]. eexists. split; [reflexivity|]. simpl.
  pose proof (vram_bonus_mono _ _ Hle) as Hb.
  split; [|auto].
  destruct (match specs !! "memory_type" with
            | Some (VStr s') => String.eqb s' "GDDR6X" | _ => false end);
    apply py_min_mono_l; lra.
Qed.

Lemma gpu_scores_grow_with_vram_witness :
  exists sc sc',
    calculate_gpu_scores "RTX 3060" (<["vram_gb" := VInt 8]> ∅) = Some sc
    /\ calculate_gpu_scores "RTX 3060" (<["vram_gb" := VInt 12]> ∅) = Some sc'
    /\ ai_score sc <= ai_score sc'.
Proof.
  destruct (calculate_gpu_scores "RTX 3060" (<["vram_gb" := VInt 8]> ∅))
    as [sc|] eqn:E; [|vm_compute in E; discriminate].
  assert (Hle : 8 <= 12) by (vm_compute; discriminate).
  destruct (gpu_scores_grow_with_vram "RTX 3060" ∅ (VInt 8) (VInt 12) 8 12 sc
              eq_refl eq_refl Hle E) as (sc' & E' & Hai & _).
  exists sc, sc'. auto.
Defined.

(** X4: on a CPU, more cores never lower a score: of two bags that
    differ in cores only, the one with more cores gets productivity and
    AI scores at least as high, and the same two other scores. *)
Theorem cpu_scores_grow_with_cores name (specs : specs_t) v v' c c' sc :
  as_num v = Some c -> as_num v' = Some c' -> c <= c' ->
  calculate_cpu_scores name (<["cores" := v]> specs) = Some sc ->
  exists sc',
    calculate_cpu_scores name (<["cores" := v']> specs) = Some sc'
    /\ productivity_score sc <= productivity_score sc'
    /\ ai_score sc <= ai_score sc'
    /\ benchmark_score sc = benchmark_score sc'
    /\ gaming_score sc = gaming_score sc'.
Proof.
  intros Hv Hv' Hle. unfold calculate_cpu_scores, get_num.
  rewrite !lookup_insert_eq, !lookup_insert_ne by discriminate.
  rewrite Hv, Hv'. simpl.
  destruct (match specs !! "base_clock_ghz" with
            | Some v0 => as_num v0 | None => Some 0 end) as [clock|];
    [|discriminate].
  simpl. intros [= <-]. eexists. split; [reflexivity|]. simpl.
  destruct (Qltb 0 c) eqn:Ec; [apply Qltb_lt in Ec | apply Qltb_ge in Ec];
    (destruct (Qltb 0 c') eqn:Ec';
     [apply Qltb_lt in Ec' | apply Qltb_ge in Ec']);
    (split; [|split; [|auto]]); split_min_all; lra.
Qed.

Lemma cpu_scores_grow_with_cores_witness :
  exists sc sc',
    calculate_cpu_scores "Ryzen 5 5600X" (<["cores" := VInt 6]> ∅) = Some sc
    /\ calculate_cpu_scores "Ryzen 5 5600X" (<["cores" := VInt 8]> ∅) = Some sc'
    /\ productivity_score sc <= productivity_score sc'.
Proof.
  destruct (calculate_cpu_scores "Ryzen 5 5600X" (<["cores" := VInt 6]> ∅))
    as [sc|] eqn:E; [|vm_compute in E; discriminate].
  assert (Hle : 6 <= 8) by (vm_compute; discriminate).
  destruct (cpu_scores_grow_with_cores "Ryzen 5 5600X" ∅ (VInt 6) (VInt 8) 6 8 sc
              eq_refl eq_refl Hle E) as (sc' & E' & Hp & _).
  exists sc, sc'. auto.
Defined.

(** Every gaming entry of the CPU table, and the default, is at most 100. *)
Definition gaming_le_100b (t : tier) : bool := Qle_bool (t_gaming t) 100.

Lemma cpu_tier_gaming_le_100 n :
  t_gaming (lookup_tier CPU_SCORES (Tier 50 50 50 45) n) <= 100.
Proof.
  apply Qle_bool_iff.
  change (gaming_le_100b (lookup_tier CPU_SCORES (Tier 50 50 50 45) n) = true).
  unfold lookup_tier.
  destruct (List.find _ CPU_SCORES) as [row|] eqn:E; [|reflexivity].
  apply List.find_some in E. destruct E as [Hin _].
  assert (H : forallb (fun row => gaming_le_100b (snd row)) CPU_SCORES = true)
    by reflexivity.
  rewrite forallb_forall in H. exact (H row Hin).
Qed.

(** X5: on a CPU, a listed base clock changes the gaming score only: a
    clock of 0 or less leaves it as it is, a positive clock of at most
    3 GHz never raises it above that of the same CPU with no clock listed,
    and a clock of 3 GHz or more never lowers it; the three other scores
    do not move. *)
Theorem cpu_clock_moves_the_gaming_score_only name (specs : specs_t) v clock sc0 :
  specs !! "base_clock_ghz" = None ->
  as_num v = Some clock ->
  calculate_cpu_scores name specs = Some sc0 ->
  exists sc,
    calculate_cpu_scores name (<["base_clock_ghz" := v]> specs) = Some sc
    /\ (clock <= 0 -> gaming_score sc = gaming_score sc0)
    /\ (0 < clock -> clock <= 3 -> gaming_score sc <= gaming_score sc0)
    /\ (3 <= clock -> gaming_score sc0 <= gaming_score sc)
    /\ benchmark_score sc = benchmark_score sc0
    /\ productivity_score sc = productivity_score sc0
    /\ ai_score sc = ai_score sc0.
Proof.
  intros Hnone Hv. unfold calculate_cpu_scores, get_num.
  rewrite !lookup_insert_eq, !lookup_insert_ne by discriminate.
  rewrite Hnone, Hv.
  destruct (match specs !! "cores" with
            | Some v0 => as_num v0 | None => Some 0 end) as [cores|];
    [|discriminate].
  simpl. intros [= <-]. eexists. split; [reflexivity|]. simpl.
  pose proof (cpu_tier_gaming_le_100 (PyStr.lower name)) as Hg.
  destruct (Qltb 0 clock) eqn:Epos.
  - apply Qltb_lt in Epos.
    split; [intros Hc; lra|].
    split; [|split; [|auto]]; intros; split_min_all; lra.
  - apply Qltb_ge in Epos.
    split; [reflexivity|].
    split; [intros Hc; lra|]. split; [intros _; lra|auto].
Qed.

Lemma cpu_clock_moves_the_gaming_score_only_witness :
  exists sc0 sc,
    calculate_cpu_scores "Intel Core i5-12400" ∅ = Some sc0
    /\ calculate_cpu_scores "Intel Core i5-12400"
         (<["base_clock_ghz" := VFloat (25 # 10)]> ∅) = Some sc
    /\ gaming_score sc <= gaming_score sc0.
Proof.
  destruct (calculate_cpu_scores "Intel Core i5-12400" ∅)
    as [sc0|] eqn:E; [|vm_compute in E; discriminate].
  destruct (cpu_clock_moves_the_gaming_score_only "Intel Core i5-12400" ∅
              (VFloat (25 # 10)) (25 # 10) sc0 (lookup_empty _) eq_refl E)
    as (sc & E' & _ & Hle & _).
  exists sc0, sc. split; [reflexivity|]. split; [exact E'|].
  apply Hle; [reflexivity|vm_compute; discriminate].
Defined.

End ScoreMonotone.

(** ** What the extractors store *)

(** A lookup in a bag that was just extended. *)
Lemma lookup_set_opt_inv (k key : string) (o : option value) (specs : specs_t) v :
  SpecExtractor.set_opt k o specs !! key = Some v ->
  (key = k /\ o = Some v) \/ specs !! key = Some v.
Proof.
  unfold SpecExtractor.set_opt. destruct o as [x|]; [|auto].
  intros H. apply lookup_insert_Some in H as [[-> ->]|[_ H]]; auto.
Qed.

(** Take a lookup of an unknown key apart, one [set_opt] at a time. *)
Ltac bag_cases H :=
  repeat (apply lookup_set_opt_inv in H as [[-> H]|H]);
  try (rewrite lookup_empty in H; discriminate).

Section ExtractedValues.
Import Re SpecExtractor.
Local Open Scope Q_scope.

(** Every character a pattern without groups can consume is in [P]. *)
Fixpoint chars_in (P : ascii -> bool) (r : re) : Prop :=
  match r with
  | Cls p | Star p | Plus p => forall c, p c = true -> P c = true
  | Lit l => all_in P l = true
  | Seq a b | Alt a b => chars_in P a /\ chars_in P b
  | Opt a => chars_in P a
  | Grp _ => False
  end.

(** Every group of the pattern can only consume characters of [P]. *)
Fixpoint groups_in (P : ascii -> bool) (r : re) : Prop :=
  match r with
  | Grp a => chars_in P a
  | Seq a b | Alt a b => groups_in P a /\ groups_in P b
  | Opt a => groups_in P a
  | Cls _ | Lit _ | Star _ | Plus _ => True
  end.

(** The capture, when there is one, is made of characters of [P]. *)
Definition capture_in (P : ascii -> bool) (cap : option string) : Prop :=
  forall g, cap = Some g -> all_in P g = true.

Lemma all_in_app P (a b : string) :
  all_in P (a ++ b) = all_in P a && all_in P b.
Proof.
  induction a as [|c a IH]; simpl; [reflexivity|].
  rewrite IH. apply andb_assoc.
Qed.

Lemma all_in_impl (p P : ascii -> bool) (s : string) :
  (forall c, p c = true -> P c = true) -> all_in p s = true -> all_in P s = true.
Proof.
  intros Hp. induction s as [|c s IH]; simpl; [reflexivity|].
  intros H. apply andb_true_iff in H as [Hc Hs].
  rewrite (Hp c Hc), (IH Hs). reflexivity.
Qed.

Lemma lit_inv (l s s' : string) : lit false l s = Some s' -> s = l ++ s'.
Proof.
  revert s. induction l as [|a l IH]; simpl; intros s H.
  - injection H as ->. reflexivity.
  - destruct s as [|c s]; [discriminate|].
    destruct (Ascii.eqb a c) eqn:E; [|discriminate].
    apply Ascii.eqb_eq in E. subst c. rewrite (IH _ H). reflexivity.
Qed.

Lemma app_cons_str (x : ascii) (a b : string) :
  String x a ++ b = String x (a ++ b).
Proof. reflexivity. Qed.

Lemma app_assoc_str (a b c : string) : (a ++ b) ++ c = a ++ (b ++ c).
Proof.
  induction a as [|x a IH]; [reflexivity|].
  rewrite !app_cons_str, IH. reflexivity.
Qed.

(** A pattern without groups consumes a prefix made of characters of
    [P] and leaves the capture alone. *)
Lemma m_consumes {R : Type} (P : ascii -> bool) (r : re) :
  chars_in P r ->
  forall (s : string) (cap : option string)
         (k : string -> option string -> option R) (x : R),
    m false r s cap k = Some x ->
    exists pre rest,
      s = pre ++ rest /\ all_in P pre = true /\ k rest cap = Some x.
Proof.
  induction r as [p|l|a IHa b IHb|a IHa b IHb|p|p|a IHa|a IHa];
    simpl; intros Hc s cap k x H.
  - destruct s as [|c s]; [discriminate|].
    destruct (p c) eqn:E; [|discriminate].
    exists (String c ""), s. simpl. rewrite (Hc c E). auto.
  - destruct (lit false l s) as [s'|] eqn:E; [|discriminate].
    apply lit_inv in E. exists l, s'. auto.
  - destruct Hc as [Ha Hb].
    apply (IHa Ha) in H as (pre1 & rest1 & -> & Hp1 & H).
    apply (IHb Hb) in H as (pre2 & rest & -> & Hp2 & H).
    exists (pre1 ++ pre2), rest. rewrite app_assoc_str, all_in_app, Hp1, Hp2. auto.
  - destruct Hc as [Ha Hb].
    destruct (m false a s cap k) as [y|] eqn:E.
    + injection H as ->. exact (IHa Ha _ _ _ _ E).
    + exact (IHb Hb _ _ _ _ H).
  - apply star_inv in H as (pre & rest & -> & Hp & H).
    exists pre, rest. split; [reflexivity|]. split; [|exact H].
    exact (all_in_impl _ _ _ Hc Hp).
  - destruct s as [|c s]; [discriminate|].
    destruct (p c) eqn:E; [|discriminate].
    apply star_inv in H as (pre & rest & -> & Hp & H).
    exists (String c pre), rest. simpl. rewrite (Hc c E).
    rewrite (all_in_impl _ _ _ Hc Hp). auto.
  - destruct (m false a s cap k) as [y|] eqn:E.
    + injection H as ->. exact (IHa Hc _ _ _ _ E).
    + exists "", s. auto.
  - contradiction.
Qed.

(** Matching keeps the capture inside [P]. *)
Lemma m_captures {R : Type} (P : ascii -> bool) (r : re) :
  groups_in P r ->
  forall (s : string) (cap : option string)
         (k : string -> option string -> option R) (x : R),
    capture_in P cap ->
    m false r s cap k = Some x ->
    exists s' cap', capture_in P cap' /\ k s' cap' = Some x.
Proof.
  induction r as [p|l|a IHa b IHb|a IHa b IHb|p|p|a IHa|a IHa];
    simpl; intros Hg s cap k x Hcap H.
  - destruct s as [|c s]; [discriminate|].
    destruct (p c); [eauto|discriminate].
  - destruct (lit false l s); [eauto|discriminate].
  - destruct Hg as [Ha Hb].
    apply (IHa Ha _ _ _ _ Hcap) in H as (s1 & cap1 & Hcap1 & H).
    exact (IHb Hb _ _ _ _ Hcap1 H).
  - destruct Hg as [Ha Hb].
    destruct (m false a s cap k) as [y|] eqn:E.
    + injection H as ->. exact (IHa Ha _ _ _ _ Hcap E).
    + exact (IHb Hb _ _ _ _ Hcap H).
  - apply star_inv in H as (_ & rest & _ & _ & H). eauto.
  - destruct s as [|c s]; [discriminate|].
    destruct (p c); [|discriminate].
    apply star_inv in H as (_ & rest & _ & _ & H). eauto.
  - destruct (m false a s cap k) as [y|] eqn:E.
    + injection H as ->. exact (IHa Hg _ _ _ _ Hcap E).
    + eauto.
  - apply (m_consumes P a Hg) in H as (pre & rest & -> & Hp & H).
    exists rest, (Some (PyStr.take (String.length (pre ++ rest) - String.length rest)
                                   (pre ++ rest))).
    split; [|exact H].
    intros g [= <-].
    replace (String.length (pre ++ rest) - String.length rest)%nat
      with (String.length pre) by (rewrite length_app; lia).
    rewrite take_app_length. exact Hp.
Qed.

Lemma search_captures (P : ascii -> bool) (r : re) (s : string) x :
  groups_in P r -> search false r s = Some x -> capture_in P x.
Proof.
  intros Hg. induction s as [|c s IH]; intros H.
  - rewrite search_nil in H.
    apply (m_captures P r Hg) in H as (s' & cap' & Hcap & [= <-]);
      [exact Hcap | intros g; discriminate].
  - rewrite search_cons in H.
    destruct (m false r (String c s) None _) as [cap|] eqn:E.
    + injection H as <-.
      apply (m_captures P r Hg) in E as (s' & cap' & Hcap & [= <-]);
        [exact Hcap | intros g; discriminate].
    + exact (IH H).
Qed.

Lemma search1_captures (P : ascii -> bool) (r : re) (s g : string) :
  groups_in P r -> search1 false r s = Some g -> all_in P g = true.
Proof.
  intros Hg. unfold search1.
  destruct (search false r s) as [[g'|]|] eqn:E; try discriminate.
  intros [= <-]. exact (search_captures P r s _ Hg E g' eq_refl).
Qed.

(** The class of a decimal numeral. *)
Definition digit_or_dot (c : ascii) : bool :=
  PyStr.isdigit c || Ascii.eqb c "."%char.

Lemma float_of_decimal_aux_nonneg (s : string) :
  all_in digit_or_dot s = true ->
  forall ip fp scale seen,
    (0 <= ip)%Z -> (0 <= fp)%Z ->
    0 <= float_of_decimal_aux ip fp scale seen s.
Proof.
  induction s as [|c s IH]; simpl; intros Hs ip fp scale seen Hip Hfp.
  - unfold Qle, Qplus, inject_Z. simpl. nia.
  - apply andb_true_iff in Hs as [Hc Hs].
    destruct (Ascii.eqb c "."%char) eqn:Edot; [apply (IH Hs); assumption|].
    unfold digit_or_dot in Hc. rewrite Edot, orb_false_r in Hc.
    unfold PyStr.isdigit in Hc. apply andb_true_iff in Hc as [Hlo _].
    apply N.leb_le in Hlo.
    destruct seen; apply (IH Hs); lia.
Qed.

Lemma float_of_decimal_nonneg (g : string) :
  all_in digit_or_dot g = true -> 0 <= float_of_decimal g.
Proof.
  intros H. unfold float_of_decimal.
  apply float_of_decimal_aux_nonneg; [exact H | lia | lia].
Qed.

Lemma int_of_digits_nonneg (g : string) :
  all_in PyStr.isdigit g = true -> (0 <= PyStr.int_of_digits g)%Z.
Proof.
  intros H. apply int_of_digits_aux_nonneg; [exact H | lia].
Qed.

(** A value that is not a negative number. *)
Definition not_negative (v : value) : Prop :=
  match v with
  | VInt z => (0 <= z)%Z
  | VFloat q => 0 <= q
  | VStr _ | VList _ => True
  end.

Lemma probe_int_not_negative r text v :
  groups_in PyStr.isdigit r -> probe_int r text = Some v -> not_negative v.
Proof.
  intros Hg. unfold probe_int.
  destruct (search1 false r text) as [g|] eqn:E; [|discriminate].
  simpl. intros [= <-]. simpl.
  apply int_of_digits_nonneg. exact (search1_captures _ _ _ _ Hg E).
Qed.

Lemma first_probe_not_negative ps text v :
  Forall (groups_in PyStr.isdigit) ps ->
  first_probe ps text = Some v -> not_negative v.
Proof.
  induction 1 as [|p ps Hp Hps IH]; simpl; [discriminate|].
  destruct (probe_int p text) as [w|] eqn:E; [|exact IH].
  intros [= <-]. exact (probe_int_not_negative _ _ _ Hp E).
Qed.

(** The groups of the numeric probes hold digits only. *)
Ltac digit_groups :=
  unfold re_watts, re_mhz, re_ddr_speed, num_then, digit;
  simpl; repeat split; auto.

(** Resolve the tests that decide which string an extractor stores. *)
Ltac string_entry H :=
  repeat match type of H with
    | context [first_key ?t ?x] => destruct (first_key t x)
    | context [gpu_memory_type ?x] => destruct (gpu_memory_type x)
    | context [ddr_type ?x] => destruct (ddr_type x)
    | context [if ?b then _ else _] => destruct b
    end;
  simpl in H; try discriminate;
  try (injection H as <-).

Lemma cpu_bag_not_negative n d key v :
  extract_cpu_specs n d !! key = Some v -> not_negative v.
Proof.
  unfold extract_cpu_specs. intros H. bag_cases H.
  - apply probe_int_not_negative in H; [exact H | digit_groups].
  - destruct (search1 false _ _) as [g|] eqn:E; [|discriminate].
    simpl in H. injection H as <-. simpl.
    apply float_of_decimal_nonneg.
    apply (search1_captures digit_or_dot _ _ _) in E; [exact E|].
    cbn [groups_in chars_in]. repeat split; intros c Hc; try exact I.
    + unfold digit_or_dot. unfold digit in Hc. rewrite Hc. reflexivity.
    + apply Ascii.eqb_eq in Hc. subst c. reflexivity.
    + unfold digit_or_dot. unfold digit in Hc. rewrite Hc. reflexivity.
  - apply probe_int_not_negative in H; [exact H | digit_groups].
  - apply probe_int_not_negative in H; [exact H | digit_groups].
  - string_entry H. exact I.
Qed.

Lemma gpu_bag_not_negative n d key v :
  extract_gpu_specs n d !! key = Some v -> not_negative v.
Proof.
  unfold extract_gpu_specs. intros H. bag_cases H.
  - apply probe_int_not_negative in H; [exact H | digit_groups].
  - string_entry H. exact I.
  - apply (first_probe_not_negative _ _ _) in H; [exact H|].
    unfold vram_patterns. repeat constructor; digit_groups.
Qed.

Lemma motherboard_bag_not_negative n d key v :
  extract_motherboard_specs n d !! key = Some v -> not_negative v.
Proof.
  unfold extract_motherboard_specs. intros H. bag_cases H;
    try (string_entry H; exact I).
  apply probe_int_not_negative in H; [exact H | digit_groups].
Qed.

Lemma ram_bag_not_negative n d key v :
  extract_ram_specs n d !! key = Some v -> not_negative v.
Proof.
  unfold extract_ram_specs. intros H.
  destruct (probe_int re_mhz _) as [w|] eqn:E.
  - apply lookup_insert_Some in H as [[_ <-]|[_ H]].
    + apply probe_int_not_negative in E; [exact E | digit_groups].
    + bag_cases H.
      * string_entry H. exact I.
      * apply probe_int_not_negative in H; [exact H | digit_groups].
  - bag_cases H.
    + apply probe_int_not_negative in H; [exact H | digit_groups].
    + string_entry H. exact I.
    + apply probe_int_not_negative in H; [exact H | digit_groups].
Qed.

Lemma storage_bag_not_negative n d key v :
  extract_storage_specs n d !! key = Some v -> not_negative v.
Proof.
  unfold extract_storage_specs. intros H. bag_cases H;
    try (string_entry H; exact I).
  destruct (search1 false _ _) as [g|] eqn:E; [|discriminate].
  simpl in H. injection H as <-. simpl.
  apply (search1_captures PyStr.isdigit _ _ _) in E; [|digit_groups].
  apply int_of_digits_nonneg in E.
  destruct (PyStr.contains "tb" _); lia.
Qed.

Lemma psu_bag_not_negative n d key v :
  extract_psu_specs n d !! key = Some v -> not_negative v.
Proof.
  unfold extract_psu_specs. intros H. bag_cases H.
  - string_entry H; exact I.
  - apply probe_int_not_negative in H; [exact H | digit_groups].
Qed.

Lemma case_bag_not_negative n d key v :
  extract_case_specs n d !! key = Some v -> not_negative v.
Proof.
  unfold extract_case_specs. intros H.
  destruct (_ ++ _)%list; [rewrite lookup_empty in H; discriminate|].
  apply lookup_insert_Some in H as [[_ <-]|[_ H]]; [exact I|].
  rewrite lookup_empty in H. discriminate.
Qed.

(** X6: no extractor ever stores a negative number: whatever the
    category, the title and the description, every integer and every
    decimal of the extracted attribute map is at least 0. *)
Theorem extracted_numbers_are_not_negative ct n d key v :
  extract_specs ct n d !! key = Some v -> not_negative v.
Proof.
  unfold extract_specs.
  destruct (String.eqb (PyStr.lower ct) "cpu"); [apply cpu_bag_not_negative|].
  destruct (String.eqb (PyStr.lower ct) "gpu"); [apply gpu_bag_not_negative|].
  destruct (String.eqb (PyStr.lower ct) "motherboard");
    [apply motherboard_bag_not_negative|].
  destruct (String.eqb (PyStr.lower ct) "ram"); [apply ram_bag_not_negative|].
  destruct (String.eqb (PyStr.lower ct) "storage");
    [apply storage_bag_not_negative|].
  destruct (String.eqb (PyStr.lower ct) "psu"); [apply psu_bag_not_negative|].
  destruct (String.eqb (PyStr.lower ct) "case"); [apply case_bag_not_negative|].
  rewrite lookup_empty. discriminate.
Qed.

Lemma extracted_numbers_are_not_negative_witness :
  extract_specs "psu" "Corsair RM750 750W 80+ Gold" "" !! "wattage"
  = Some (VInt 750)
  /\ not_negative (VInt 750).
Proof.
  assert (H : extract_specs "psu" "Corsair RM750 750W 80+ Gold" "" !! "wattage"
              = Some (VInt 750)) by (vm_compute; reflexivity).
  split; [exact H|].
  exact (extracted_numbers_are_not_negative _ _ _ _ _ H).
Defined.

End ExtractedValues.

(** ** The shape of an extracted map *)

Section BagSchema.
Import Re SpecExtractor.

(** The four kinds of value of a bag. *)
Inductive kind : Type := KInt | KFloat | KStr | KList.

Definition kind_of (v : value) : kind :=
  match v with
  | VInt _ => KInt
  | VFloat _ => KFloat
  | VStr _ => KStr
  | VList _ => KList
  end.

(** The keys each extractor can write, with the kind of what it writes. *)
Definition bag_schema (component_type : string) : list (string * kind) :=
  let ct := PyStr.lower component_type in
  if String.eqb ct "cpu" then
    [("socket_type", KStr); ("cores", KInt); ("threads", KInt);
     ("base_clock_ghz", KFloat); ("tdp_watts", KInt)]
  else if String.eqb ct "gpu" then
    [("vram_gb", KInt); ("memory_type", KStr); ("tdp_watts", KInt)]
  else if String.eqb ct "motherboard" then
    [("socket_type", KStr); ("chipset", KStr); ("ram_type", KStr);
     ("ram_speed", KInt); ("form_factor", KStr)]
  else if String.eqb ct "ram" then
    [("capacity_gb", KInt); ("ram_type", KStr); ("ram_speed", KInt)]
  else if String.eqb ct "storage" then
    [("capacity_gb", KInt); ("type", KStr); ("interface", KStr)]
  else if String.eqb ct "psu" then
    [("wattage", KInt); ("efficiency", KStr)]
  else if String.eqb ct "case" then
    [("form_factor", KList)]
  else [].

(** Close a goal [In (key, kind) schema] for a concrete key and kind. *)
Ltac in_schema := simpl; repeat (first [left; reflexivity | right]).

(** Find the kind of the value an entry holds. *)
Ltac entry_kind H :=
  first
    [ apply probe_int_is_int in H as (? & ->)
    | apply first_probe_is_int in H as (? & ->)
    | repeat match type of H with
        | context [search1 ?ic ?r ?t] => destruct (search1 ic r t)
        | context [first_key ?t ?x] => destruct (first_key t x)
        | context [gpu_memory_type ?x] => destruct (gpu_memory_type x)
        | context [ddr_type ?x] => destruct (ddr_type x)
        | context [if ?b then _ else _] => destruct b
        end;
      simpl in H; try discriminate;
      try (injection H as <-) ].

(** X7: the attribute map of a listing only holds the keys of its
    category, each with a value of the kind that key always has (for a
    CPU: socket_type a string, cores, threads and tdp_watts integers,
    base_clock_ghz a decimal; and so on); for a category without an
    extractor the map is empty. *)
Theorem extracted_map_follows_schema ct n d key v :
  extract_specs ct n d !! key = Some v ->
  In (key, kind_of v) (bag_schema ct).
Proof.
  unfold extract_specs, bag_schema.
  destruct (String.eqb (PyStr.lower ct) "cpu").
  { unfold extract_cpu_specs. intros H. bag_cases H; entry_kind H; in_schema. }
  destruct (String.eqb (PyStr.lower ct) "gpu").
  { unfold extract_gpu_specs. intros H. bag_cases H; entry_kind H; in_schema. }
  destruct (String.eqb (PyStr.lower ct) "motherboard").
  { unfold extract_motherboard_specs. intros H.
    bag_cases H; entry_kind H; in_schema. }
  destruct (String.eqb (PyStr.lower ct) "ram").
  { unfold extract_ram_specs. intros H.
    destruct (probe_int re_mhz _) as [w|] eqn:E.
    - apply probe_int_is_int in E as (z & ->).
      apply lookup_insert_Some in H as [[<- <-]|[_ H]]; [in_schema|].
      bag_cases H; entry_kind H; in_schema.
    - bag_cases H; entry_kind H; in_schema. }
  destruct (String.eqb (PyStr.lower ct) "storage").
  { unfold extract_storage_specs. intros H.
    bag_cases H; entry_kind H; in_schema. }
  destruct (String.eqb (PyStr.lower ct) "psu").
  { unfold extract_psu_specs. intros H. bag_cases H; entry_kind H; in_schema. }
  destruct (String.eqb (PyStr.lower ct) "case").
  { unfold extract_case_specs. intros H.
    destruct (_ ++ _)%list; [rewrite lookup_empty in H; discriminate|].
    apply lookup_insert_Some in H as [[<- <-]|[_ H]]; [in_schema|].
    rewrite lookup_empty in H. discriminate. }
  rewrite lookup_empty. discriminate.
Qed.

Lemma extracted_map_follows_schema_witness :
  extract_specs "RAM" "Corsair Vengeance 16GB DDR4-3200" "" !! "capacity_gb"
  = Some (VInt 16)
  /\ In ("capacity_gb", KInt) (bag_schema "RAM").
Proof.
  assert (H : extract_specs "RAM" "Corsair Vengeance 16GB DDR4-3200" ""
              !! "capacity_gb" = Some (VInt 16)) by (vm_compute; reflexivity).
  split; [exact H|].
  exact (extracted_map_follows_schema _ _ _ _ _ H).
Defined.

(** ** Form factors that are never recorded *)

(** The first entry of a table whose key occurs in the text. *)
Lemma first_key_cons k v rest text :
  first_key ((k, v) :: rest) text
  = if PyStr.contains k text then Some v else first_key rest text.
Proof.
  unfold first_key. simpl. destruct (PyStr.contains k text); reflexivity.
Qed.

Lemma prefix_contains (w t : string) :
  String.prefix w t = true -> PyStr.contains w t = true.
Proof.
  intros H. destruct t; [rewrite contains_nil | rewrite contains_cons];
    rewrite H; reflexivity.
Qed.

(** A text that contains a word contains the word without its first
    letter. *)
Lemma contains_tail (a : ascii) (w t : string) :
  PyStr.contains (String a w) t = true -> PyStr.contains w t = true.
Proof.
  induction t as [|c t IH]; intros H.
  - rewrite contains_nil in H. simpl in H. discriminate.
  - rewrite contains_cons in H. apply orb_true_iff in H as [H|H].
    + simpl in H. destruct (ascii_dec a c); [|discriminate].
      rewrite contains_cons, (prefix_contains _ _ H). apply orb_true_r.
    + rewrite contains_cons, (IH H). apply orb_true_r.
Qed.

(** X8: the motherboard extractor never records the form factor "mATX":
    the keys "matx" and "micro atx" both contain "atx", which is tested
    first, so such a board is recorded as "ATX"; the form factor, when
    there is one, is "ATX" or "ITX". In the same way a case whose text
    names micro-ATX is always recorded as taking ATX boards too. *)
Theorem matx_is_recorded_as_atx n d :
  extract_motherboard_specs n d !! "form_factor" <> Some (VStr "mATX")
  /\ (forall v, extract_motherboard_specs n d !! "form_factor" = Some v ->
                v = VStr "ATX" \/ v = VStr "ITX")
  /\ (PyStr.contains "matx" (text_of n d) = true
      \/ PyStr.contains "micro atx" (text_of n d) = true ->
      extract_motherboard_specs n d !! "form_factor" = Some (VStr "ATX"))
  /\ (forall l, extract_case_specs n d !! "form_factor" = Some (VList l) ->
                In "mATX" l -> In "ATX" l).
Proof.
  assert (Hff : extract_motherboard_specs n d !! "form_factor"
                = VStr <$> first_key mobo_form_factors (text_of n d)).
  { unfold extract_motherboard_specs. lookup_bag.
    destruct (first_key mobo_form_factors _); [reflexivity|].
    split_probes;
      repeat match goal with
             | |- context [first_key ?t ?x] => destruct (first_key t x)
             end; reflexivity. }
  assert (Hm : PyStr.contains "matx" (text_of n d) = true ->
               PyStr.contains "atx" (text_of n d) = true)
    by apply contains_tail.
  assert (Hmicro : PyStr.contains "micro atx" (text_of n d) = true ->
                   PyStr.contains "atx" (text_of n d) = true).
  { intros H. do 6 apply contains_tail in H. exact H. }
  assert (Hatx : PyStr.contains "matx" (text_of n d) = true
                 \/ PyStr.contains "micro atx" (text_of n d) = true ->
                 PyStr.contains "atx" (text_of n d) = true)
    by (intros [H|H]; auto).
  assert (Hkey : forall s, first_key mobo_form_factors (text_of n d) = Some s ->
                           s = "ATX" \/ s = "ITX").
  { intros s. unfold mobo_form_factors. rewrite !first_key_cons.
    destruct (PyStr.contains "atx" _) eqn:Ea; [intros [= <-]; auto|].
    destruct (PyStr.contains "matx" _) eqn:Em; [discriminate (Hm eq_refl)|].
    destruct (PyStr.contains "micro atx" _) eqn:Emi;
      [discriminate (Hmicro eq_refl)|].
    destruct (PyStr.contains "itx" _); [intros [= <-]; auto|].
    destruct (PyStr.contains "mini itx" _); [intros [= <-]; auto|].
    discriminate. }
  split; [|split; [|split]].
  - rewrite Hff. destruct (first_key _ _) as [s|] eqn:E; simpl; [|discriminate].
    intros [= ->]. destruct (Hkey _ eq_refl); discriminate.
  - intros v. rewrite Hff.
    destruct (first_key _ _) as [s|] eqn:E; simpl; [|discriminate].
    intros [= <-]. destruct (Hkey _ eq_refl) as [-> | ->]; auto.
  - intros H. rewrite Hff. unfold mobo_form_factors. rewrite first_key_cons.
    rewrite (Hatx H). reflexivity.
  - intros l. unfold extract_case_specs.
    destruct (PyStr.contains "atx" (text_of n d)) eqn:Ea.
    + intros H _.
      match type of H with
      | match ?e with _ => _ end !! _ = _ => destruct e eqn:El
      end; [rewrite lookup_empty in H; discriminate|].
      rewrite lookup_insert_eq in H. injection H as <-.
      simpl in El. injection El as <- <-. left. reflexivity.
    + destruct (PyStr.contains "matx" _) eqn:Em; [discriminate (Hm eq_refl)|].
      destruct (PyStr.contains "micro atx" _) eqn:Emi;
        [discriminate (Hmicro eq_refl)|].
      simpl. destruct (PyStr.contains "itx" _ || PyStr.contains "mini itx" _);
        simpl; intros H.
      * rewrite lookup_insert_eq in H. injection H as <-.
        intros [Hin|[]]. discriminate.
      * rewrite lookup_empty in H. discriminate.
Qed.

Lemma matx_is_recorded_as_atx_witness :
  extract_motherboard_specs "MSI B550M PRO-VDH mATX" "" !! "form_factor"
  = Some (VStr "ATX").
Proof.
  apply (matx_is_recorded_as_atx "MSI B550M PRO-VDH mATX" "").
  left. vm_compute. reflexivity.
Defined.

End BagSchema.

(** ** The name normalizer on every title *)

Section NameParserProperties.
Import NameParser.

Lemma str_or_nonempty (x : option string) (t : string) :
  t <> "" -> exists m, str_or x (Some t) = Some m /\ m <> "".
Proof.
  intros Ht. unfold str_or. destruct x as [s|]; [|eauto].
  destruct (String.eqb s "") eqn:E; [eauto|].
  apply String.eqb_neq in E. eauto.
Qed.

Lemma lower_empty (s : string) : PyStr.lower s = "" <-> s = "".
Proof. destruct s; simpl; split; intros H; try reflexivity; discriminate. Qed.

(** X9: the Name Normalizer never fails and never returns an empty
    model: for an empty title both fields are absent, and for every other
    title and every category the model is present and is not the empty
    string (at worst the first 100 characters of the title). *)
Theorem model_is_never_empty name ct :
  (name = "" -> parse_component_name name ct = NameData None None)
  /\ (name <> "" ->
      exists m, model (parse_component_name name ct) = Some m /\ m <> "").
Proof.
  unfold parse_component_name. split.
  - intros ->. reflexivity.
  - intros Hne. destruct (String.eqb name "") eqn:E.
    + apply String.eqb_eq in E. contradiction.
    + simpl. apply str_or_nonempty.
      destruct name as [|c name]; [contradiction|]. discriminate.
Qed.

Lemma model_is_never_empty_witness :
  exists m, model (parse_component_name "Boitier Gamer RGB" "case") = Some m
            /\ m <> "".
Proof.
  apply (model_is_never_empty "Boitier Gamer RGB" "case"). discriminate.
Defined.

(** X10: the manufacturer depends on the lower-case form of the title
    only, not on the category and not on letter case; when present it is
    the value of a lexicon key that occurs in the lower-cased title, and
    it is absent exactly when no lexicon key occurs there. *)
Theorem manufacturer_comes_from_the_lexicon name ct :
  (forall name' ct',
      PyStr.lower name = PyStr.lower name' ->
      manufacturer (parse_component_name name ct)
      = manufacturer (parse_component_name name' ct'))
  /\ (forall mf,
        manufacturer (parse_component_name name ct) = Some mf ->
        exists key, In (key, mf) MANUFACTURERS
                    /\ PyStr.contains key (PyStr.lower name) = true)
  /\ (name <> "" ->
      (manufacturer (parse_component_name name ct) = None <->
       forall key mf, In (key, mf) MANUFACTURERS ->
                      PyStr.contains key (PyStr.lower name) = false)).
Proof.
  unfold parse_component_name. split; [|split].
  - intros name' ct' Hl.
    destruct (String.eqb name "") eqn:E; destruct (String.eqb name' "") eqn:E'.
    + reflexivity.
    + apply String.eqb_eq in E. subst name. symmetry in Hl.
      apply (proj1 (lower_empty _)) in Hl. subst name'. discriminate.
    + apply String.eqb_eq in E'. subst name'.
      apply (proj1 (lower_empty _)) in Hl. subst name. discriminate.
    + cbn [manufacturer]. rewrite Hl. reflexivity.
  - intros mf. destruct (String.eqb name ""); cbn [manufacturer];
      [discriminate|].
    destruct (List.find _ MANUFACTURERS) as [[key mf']|] eqn:E;
      cbn [fmap option_fmap option_map snd]; [|discriminate].
    intros [= <-]. apply List.find_some in E as [Hin Hc]. eauto.
  - intros Hne. destruct (String.eqb name "") eqn:E.
    { apply String.eqb_eq in E. contradiction. }
    cbn [manufacturer].
    destruct (List.find _ MANUFACTURERS) as [[key mf']|] eqn:Ef;
      cbn [fmap option_fmap option_map snd].
    + split; [discriminate|]. intros H.
      apply List.find_some in Ef as [Hin Hc]. cbn [fst] in Hc.
      rewrite (H _ _ Hin) in Hc. discriminate.
    + split; [|reflexivity]. intros _ key mf Hin.
      exact (List.find_none _ _ Ef _ Hin).
Qed.

Lemma manufacturer_comes_from_the_lexicon_witness :
  manufacturer (parse_component_name "KINGSTON FURY 16GB" "ram")
  = manufacturer (parse_component_name "Kingston Fury 16gb" "storage").
Proof.
  apply (manufacturer_comes_from_the_lexicon "KINGSTON FURY 16GB" "ram").
  reflexivity.
Defined.

End NameParserProperties.

(** ** The compatibility checker on every selection *)

Section CompatibilityMore.
Import Models Tools.
Local Open Scope Q_scope.

Lemma type_value_inj (a b : ComponentType) :
  type_value a = type_value b -> a = b.
Proof. destruct a, b; simpl; intros H; try reflexivity; discriminate. Qed.

(** What the dictionary comprehension holds under a key: a selected
    component of that type, or what was there before. *)
Lemma fold_comp_map_lookup (cs : list Component) (m : gmap string Component)
      (k : string) (c : Component) :
  fold_left (fun m c => <[type_value (component_type c) := c]> m) cs m !! k
  = Some c ->
  m !! k = Some c \/ (In c cs /\ type_value (component_type c) = k).
Proof.
  revert m. induction cs as [|x cs IH]; simpl; intros m H; [auto|].
  apply IH in H as [H|[Hin Hk]].
  - apply lookup_insert_Some in H as [[Hk <-]|[_ H]]; auto.
  - auto.
Qed.

Lemma build_comp_map_Some cs k c :
  build_comp_map cs !! k = Some c ->
  In c cs /\ type_value (component_type c) = k.
Proof.
  intros H. apply fold_comp_map_lookup in H as [H|H]; [|exact H].
  rewrite lookup_empty in H. discriminate.
Qed.

Lemma fold_comp_map_other (cs : list Component) (m : gmap string Component)
      (k : string) :
  (forall c, In c cs -> type_value (component_type c) <> k) ->
  fold_left (fun m c => <[type_value (component_type c) := c]> m) cs m !! k
  = m !! k.
Proof.
  revert m. induction cs as [|x cs IH]; simpl; intros m H; [reflexivity|].
  rewrite IH by (intros c Hc; apply H; auto).
  apply lookup_insert_ne. apply H. auto.
Qed.

Lemma build_comp_map_None cs ty :
  (forall c, In c cs -> component_type c <> ty) ->
  build_comp_map cs !! type_value ty = None.
Proof.
  intros H. unfold build_comp_map. rewrite fold_comp_map_other.
  - apply lookup_empty.
  - intros c Hc Heq. apply (H c Hc). exact (type_value_inj _ _ Heq).
Qed.

(** The score field of a result. *)
Lemma check_compatibility_score db ids r :
  check_compatibility db ids = Ok r ->
  compatibility_score r
  = (if compatible r then 100
     else match issues r with [] => 100 | _ => 50 end)%Z.
Proof.
  unfold check_compatibility. intros H.
  destruct (negb _); [discriminate|].
  destruct (psu_rule _ _ _) as [v|]; [|discriminate].
  destruct (form_factor_rule _ v) as [issues compatible].
  injection H as <-. reflexivity.
Qed.

(** X11: the compatibility score is a two-valued signal: 100 exactly
    when the set is compatible and 50 otherwise; the third outcome the
    code spells out (incompatible with an empty issue list, scored 100)
    never happens, because an incompatible result always lists a
    critical issue. *)
Theorem compatibility_score_is_100_or_50 db ids r :
  check_compatibility db ids = Ok r ->
  compatibility_score r = (if compatible r then 100 else 50)%Z
  /\ (compatible r = false -> issues r <> []).
Proof.
  intros H. pose proof (check_compatibility_score _ _ _ H) as Hs.
  assert (Hne : compatible r = false -> issues r <> []).
  { intros Hc Hnil.
    apply check_compatibility_ok in H as (v & Hpsu & Hi & Hcm & _).
    assert (Hcons : consistent
                      (form_factor_rule (build_comp_map (query_by_ids db ids)) v)).
    { apply form_factor_rule_consistent.
      apply (psu_rule_consistent _ _ _ _ Hpsu).
      apply ram_rule_consistent, socket_rule_consistent. reflexivity. }
    unfold consistent in Hcons. rewrite <- Hi, <- Hcm, Hnil, Hc in Hcons.
    discriminate. }
  split; [|exact Hne].
  rewrite Hs. destruct (compatible r); [reflexivity|].
  destruct (issues r); [exfalso; apply Hne; reflexivity | reflexivity].
Qed.

Lemma compatibility_score_is_100_or_50_witness :
  exists r,
    check_compatibility small_boards [1; 3]%Z = Ok r
    /\ compatibility_score r = 50%Z.
Proof.
  destruct (check_compatibility small_boards [1; 3]%Z) as [r|e] eqn:E;
    [|vm_compute in E; discriminate].
  exists r. split; [reflexivity|].
  destruct (compatibility_score_is_100_or_50 _ _ _ E) as [Hs _].
  rewrite Hs. vm_compute in E. injection E as <-. reflexivity.
Defined.

(** X12: every critical rule involves the motherboard, so a selection
    without a motherboard is never reported incompatible: it is
    compatible, scored 100, and the only issue it can carry is the PSU
    warning. *)
Theorem no_motherboard_no_incompatibility db ids r :
  check_compatibility db ids = Ok r ->
  (forall c, In c (query_by_ids db ids) -> component_type c <> MOTHERBOARD) ->
  compatible r = true
  /\ compatibility_score r = 100%Z
  /\ (forall i, In i (issues r) ->
                severity i = warning /\ issue_type i = insufficient_psu).
Proof.
  intros H Hno. pose proof (check_compatibility_score _ _ _ H) as Hs.
  apply check_compatibility_ok in H as (v & Hpsu & Hi & Hc & _).
  pose proof (build_comp_map_None _ MOTHERBOARD Hno) as Hm.
  change (type_value MOTHERBOARD) with "motherboard" in Hm.
  set (m := build_comp_map (query_by_ids db ids)) in *.
  assert (Hsock : socket_rule m ([], true) = ([], true)).
  { unfold socket_rule. rewrite Hm. destruct (m !! "cpu"); reflexivity. }
  assert (Hram : ram_rule m ([], true) = ([], true)).
  { unfold ram_rule. rewrite Hm. destruct (m !! "ram"); reflexivity. }
  assert (Hff : form_factor_rule m v = v).
  { unfold form_factor_rule. rewrite Hm. destruct v. reflexivity. }
  rewrite Hsock, Hram in Hpsu. rewrite Hff in Hi, Hc.
  unfold psu_rule in Hpsu.
  assert (Hv : snd v = true
               /\ forall i, In i (fst v) ->
                            severity i = warning /\ issue_type i = insufficient_psu).
  { destruct (m !! "psu") as [psu|].
    - destruct (psu_wattage_of psu) as [w|]; [|discriminate]. simpl in Hpsu.
      destruct (Qltb w _); injection Hpsu as <-; simpl.
      + split; [reflexivity|]. intros i [<-|[]]. auto.
      + split; [reflexivity|]. intros i [].
    - injection Hpsu as <-. simpl. split; [reflexivity|]. intros i []. }
  destruct Hv as [Hv1 Hv2]. rewrite <- Hc in Hv1. rewrite <- Hi in Hv2.
  split; [exact Hv1|]. split; [|exact Hv2].
  rewrite Hs, Hv1. reflexivity.
Qed.

Lemma no_motherboard_no_incompatibility_witness :
  exists r,
    check_compatibility underpowered_build [1; 2; 3]%Z = Ok r
    /\ compatible r = true.
Proof.
  destruct (check_compatibility underpowered_build [1; 2; 3]%Z) as [r|e] eqn:E;
    [|vm_compute in E; discriminate].
  exists r. split; [reflexivity|].
  apply (no_motherboard_no_incompatibility _ _ _ E).
  intros c Hc. vm_compute in Hc.
  destruct Hc as [<-|[<-|[<-|[]]]]; discriminate.
Defined.

End CompatibilityMore.

(** ** Which selections the tools accept *)

Section Selections.
Import Models Tools.
Local Open Scope Q_scope.

(** The check goes past its first test exactly when as many rows were
    found as keys were asked for. *)
Lemma check_compatibility_found db ids :
  check_compatibility db ids <> Error IdsNotFound <->
  List.length (query_by_ids db ids) = List.length ids.
Proof.
  unfold check_compatibility.
  destruct (Nat.eqb _ _) eqn:E; simpl.
  - apply Nat.eqb_eq in E. split; [intros _; exact E|]. intros _.
    destruct (psu_rule _ _ _) as [v|]; [|discriminate].
    destruct (form_factor_rule _ v). discriminate.
  - apply Nat.eqb_neq in E. split; [intros H; contradiction|].
    intros H. contradiction.
Qed.

(** X13: over a catalog with distinct keys, the compatibility check
    answers "Some component IDs not found" exactly when the list of keys
    names a key that is not in the catalog or names some key twice; a
    list that repeats a key is refused even when every key exists. *)
Theorem not_found_iff_missing_or_repeated db ids :
  primary_key db ->
  (check_compatibility db ids <> Error IdsNotFound <->
   List.NoDup ids /\ (forall x, In x ids -> In x (List.map id db))).
Proof.
  intros Hpk. rewrite check_compatibility_found.
  pose proof (query_by_ids_NoDup db ids Hpk) as Hnd.
  assert (Hincl : incl (List.map id (query_by_ids db ids)) ids).
  { intros y Hy. apply in_map_iff in Hy as (c & <- & Hc).
    apply query_by_ids_In in Hc as [_ Hc]. exact Hc. }
  rewrite <- (List.length_map id (query_by_ids db ids)).
  split.
  - intros Hlen.
    assert (Hle : (List.length ids <= List.length (List.map id (query_by_ids db ids)))%nat)
      by lia.
    split.
    + exact (NoDup_incl_NoDup Hnd Hle Hincl).
    + intros x Hx.
      pose proof (NoDup_length_incl Hnd Hle Hincl x Hx) as Hin.
      apply in_map_iff in Hin as (c & <- & Hc).
      apply query_by_ids_In in Hc as [Hc _].
      apply in_map_iff. eauto.
  - intros [Hids Hall].
    assert (Hincl' : incl ids (List.map id (query_by_ids db ids))).
    { intros x Hx. destruct (proj1 (in_map_iff _ _ _) (Hall x Hx)) as (c & <- & Hc).
      apply in_map_iff. exists c. split; [reflexivity|].
      apply query_by_ids_In. auto. }
    pose proof (NoDup_incl_length Hnd Hincl).
    pose proof (NoDup_incl_length Hids Hincl'). lia.
Qed.

Lemma not_found_iff_missing_or_repeated_witness :
  check_compatibility one_gpu [1; 1]%Z = Error IdsNotFound.
Proof.
  assert (Hpk : primary_key one_gpu).
  { unfold primary_key. simpl. constructor; [intros []|constructor]. }
  destruct (check_compatibility one_gpu [1; 1]%Z) as [r|[|]] eqn:E;
    [exfalso|reflexivity|exfalso].
  - assert (Hne : check_compatibility one_gpu [1; 1]%Z <> Error IdsNotFound)
      by (rewrite E; discriminate).
    apply (not_found_iff_missing_or_repeated _ _ Hpk) in Hne as [Hnd _].
    inversion Hnd as [|? ? Hnin _]. apply Hnin. left. reflexivity.
  - vm_compute in E. discriminate.
Defined.

Lemma query_by_ids_nil db : query_by_ids db [] = [].
Proof.
  unfold query_by_ids. induction db as [|c db IH]; simpl; [reflexivity|exact IH].
Qed.

(** X14: neither tool refuses an empty list of keys: over every catalog
    the compatibility check of no component is compatible, scored 100,
    with no issue and a total of 0 watts, and the rating of no component
    is "fair" with every score at 0. *)
Theorem empty_selection_is_accepted db :
  check_compatibility db [] = Ok (CompatResult true 100 [] 0)
  /\ forall uc,
      exists p,
        rate_performance db [] uc = Ok p
        /\ use_case_score p == 0
        /\ s_gaming (all_scores p) == 0
        /\ s_productivity (all_scores p) == 0
        /\ s_ai_ml (all_scores p) == 0
        /\ s_overall (all_scores p) == 0
        /\ rating p = fair.
Proof.
  split.
  - unfold check_compatibility. rewrite query_by_ids_nil. reflexivity.
  - intros uc. unfold rate_performance. rewrite query_by_ids_nil.
    change (build_comp_map []) with (∅ : gmap string Component).
    rewrite !lookup_empty. eexists. split; [reflexivity|].
    cbn [use_case_score all_scores s_gaming s_productivity s_ai_ml s_overall rating].
    assert (Hov : 0 * (33 # 100) + 0 * (33 # 100) + 0 * (34 # 100) == 0)
      by reflexivity.
    assert (Hsc : scores_get
                    (UseCaseScores 0 0 0
                       (0 * (33 # 100) + 0 * (33 # 100) + 0 * (34 # 100))) uc == 0).
    { unfold scores_get.
      destruct (String.eqb uc "gaming"); [reflexivity|].
      destruct (String.eqb uc "productivity"); [reflexivity|].
      destruct (String.eqb uc "ai_ml"); [reflexivity|]. exact Hov. }
    repeat split; try reflexivity; try exact Hsc.
    assert (Hlt80 : Qgeb (scores_get
                    (UseCaseScores 0 0 0
                       (0 * (33 # 100) + 0 * (33 # 100) + 0 * (34 # 100))) uc) 80
                    = false).
    { apply Qgeb_lt. rewrite Hsc. reflexivity. }
    assert (Hlt60 : Qgeb (scores_get
                    (UseCaseScores 0 0 0
                       (0 * (33 # 100) + 0 * (33 # 100) + 0 * (34 # 100))) uc) 60
                    = false).
    { apply Qgeb_lt. rewrite Hsc. reflexivity. }
    rewrite Hlt80, Hlt60. reflexivity.
Qed.

(** ** The PSU warning *)

Lemma socket_rule_adds m v i :
  In i (fst (socket_rule m v)) -> In i (fst v) \/ issue_type i = socket_mismatch.
Proof.
  destruct v as [issues compatible]. unfold socket_rule.
  destruct (m !! "cpu"); [|auto]. destruct (m !! "motherboard"); [|auto].
  destruct (truthy_str _); [|auto]. destruct (truthy_str _); [|auto].
  destruct (negb _); [|auto]. simpl. intros H.
  apply in_app_or in H as [H|[<-|[]]]; auto.
Qed.

Lemma ram_rule_adds m v i :
  In i (fst (ram_rule m v)) -> In i (fst v) \/ issue_type i = ram_type_mismatch.
Proof.
  destruct v as [issues compatible]. unfold ram_rule.
  destruct (m !! "ram"); [|auto]. destruct (m !! "motherboard"); [|auto].
  destruct (truthy_str _); [|auto]. destruct (truthy_str _); [|auto].
  destruct (negb _); [|auto]. simpl. intros H.
  apply in_app_or in H as [H|[<-|[]]]; auto.
Qed.

Lemma form_factor_rule_adds m v i :
  In i (fst (form_factor_rule m v)) ->
  In i (fst v) \/ issue_type i = form_factor_mismatch.
Proof.
  destruct v as [issues compatible]. unfold form_factor_rule.
  destruct (m !! "motherboard"); [|auto]. destruct (m !! "case"); [|auto].
  destruct (truthy_str _); [|auto]. destruct (truthy_str _); [|auto].
  destruct (negb _); [|auto]. simpl. intros H.
  apply in_app_or in H as [H|[<-|[]]]; auto.
Qed.

(** X15: the PSU warning is reported exactly when a PSU is selected and
    its wattage is below 1.3 times the summed TDP of the other selected
    components, where the wattage is read as 0 when the PSU has no
    attribute map or its map has no wattage. So a PSU at or above the
    threshold is never flagged, and a PSU without a recorded wattage is
    flagged as soon as the other components draw any power. *)
Theorem psu_warning_iff_underpowered db ids r :
  check_compatibility db ids = Ok r ->
  ((exists i, In i (issues r) /\ issue_type i = insufficient_psu) <->
   (exists psu w,
       build_comp_map (query_by_ids db ids) !! "psu" = Some psu
       /\ psu_wattage_of psu = Some w
       /\ w < inject_Z (non_psu_tdp (query_by_ids db ids)) * (13 # 10)))
  /\ (forall psu,
        build_comp_map (query_by_ids db ids) !! "psu" = Some psu ->
        (forall sp, specs psu = Some sp -> sp !! "wattage" = None) ->
        (0 < non_psu_tdp (query_by_ids db ids))%Z ->
        exists i, In i (issues r) /\ issue_type i = insufficient_psu).
Proof.
  intros H.
  assert (Hrev : forall psu w,
             build_comp_map (query_by_ids db ids) !! "psu" = Some psu ->
             psu_wattage_of psu = Some w ->
             w < inject_Z (non_psu_tdp (query_by_ids db ids)) * (13 # 10) ->
             exists i, In i (issues r) /\ issue_type i = insufficient_psu).
  { intros psu w Hm Hw Hlt.
    apply check_compatibility_ok in H as (v & Hpsu & Hiss & _).
    exists (Issue warning insufficient_psu
              (PsuDescription w
                 (inject_Z (non_psu_tdp (query_by_ids db ids)) * (13 # 10)))).
    split; [|reflexivity].
    rewrite Hiss. apply form_factor_rule_keeps.
    exact (psu_rule_warns _ _ _ _ _ _ Hpsu Hm Hw Hlt). }
  split; [split|].
  - intros (i & Hi & Hty).
    apply check_compatibility_ok in H as (v & Hpsu & Hiss & _).
    rewrite Hiss in Hi.
    apply form_factor_rule_adds in Hi as [Hi|Hi]; [|congruence].
    unfold psu_rule in Hpsu.
    destruct (ram_rule _ (socket_rule _ _)) as [iss0 c0] eqn:E0.
    assert (Hold : forall j, In j iss0 -> issue_type j <> insufficient_psu).
    { intros j Hj.
      change iss0 with (fst (iss0, c0)) in Hj. rewrite <- E0 in Hj.
      apply ram_rule_adds in Hj as [Hj|Hj]; [|congruence].
      apply socket_rule_adds in Hj as [[]|Hj]. congruence. }
    destruct (build_comp_map _ !! "psu") as [psu|];
      [|injection Hpsu as <-; exfalso; exact (Hold _ Hi Hty)].
    destruct (psu_wattage_of psu) as [w|] eqn:Ew; [|discriminate].
    simpl in Hpsu.
    destruct (Qltb w _) eqn:Elt; injection Hpsu as <-;
      [|exfalso; exact (Hold _ Hi Hty)].
    exists psu, w. split; [reflexivity|]. split; [exact Ew|].
    apply Qltb_lt. exact Elt.
  - intros (psu & w & Hm & Hw & Hlt). exact (Hrev psu w Hm Hw Hlt).
  - intros psu Hm Hsp Htdp. apply (Hrev psu 0 Hm).
    + unfold psu_wattage_of. destruct (specs psu) as [sp|]; [|reflexivity].
      unfold get_num. rewrite (Hsp sp eq_refl). reflexivity.
    + unfold Qlt. simpl. lia.
Qed.

Lemma psu_warning_iff_underpowered_witness :
  exists r,
    check_compatibility underpowered_build [1; 2; 3]%Z = Ok r
    /\ exists i, In i (issues r) /\ issue_type i = insufficient_psu.
Proof.
  destruct (check_compatibility underpowered_build [1; 2; 3]%Z) as [r|e] eqn:E;
    [|vm_compute in E; discriminate].
  exists r. split; [reflexivity|].
  apply (proj1 (psu_warning_iff_underpowered _ _ _ E)).
  exists (part 3 PSU "Corsair CV 300W" (Some {[ "wattage" := VInt 300 ]})
            None None None None None (Some 10%Z) None), 300.
  split; [vm_compute; reflexivity|]. split; [reflexivity|].
  vm_compute. reflexivity.
Defined.

(** ** The range of the build scores *)

(** The stored scores of a row are in [0,100] and the capacity in its
    bag, when it is a number, is not negative. *)
Definition row_in_range (c : Component) : Prop :=
  (forall q, gaming_score c = Some q -> 0 <= q /\ q <= 100)
  /\ (forall q, productivity_score c = Some q -> 0 <= q /\ q <= 100)
  /\ (forall q, ai_score c = Some q -> 0 <= q /\ q <= 100)
  /\ (forall q, ram_capacity_of c = Some q -> 0 <= q).

Lemma Q_or_0_range (o : option Q) :
  (forall q, o = Some q -> 0 <= q /\ q <= 100) ->
  0 <= Q_or_0 o /\ Q_or_0 o <= 100.
Proof.
  intros H. destruct o as [q|]; simpl; [apply H; reflexivity|lra].
Qed.

Lemma comp_map_row_in_range db ids k c :
  (forall c, In c db -> row_in_range c) ->
  build_comp_map (query_by_ids db ids) !! k = Some c -> row_in_range c.
Proof.
  intros Hdb H. apply build_comp_map_Some in H as [Hin _].
  apply query_by_ids_In in Hin as [Hin _]. exact (Hdb c Hin).
Qed.

(** X16: when the stored scores of the catalog are in [0,100] and no RAM
    capacity is negative, every aggregate of the Build Scorer is in
    range: gaming between 0 and 90 (its weights sum to 0.9),
    productivity and ai between 0 and 100, overall between 0 and 96.7,
    and so the score for the use case is between 0 and 100. *)
Theorem build_scores_are_bounded db ids uc p :
  rate_performance db ids uc = Ok p ->
  (forall c, In c db -> row_in_range c) ->
  (0 <= s_gaming (all_scores p) /\ s_gaming (all_scores p) <= 90)
  /\ (0 <= s_productivity (all_scores p) /\ s_productivity (all_scores p) <= 100)
  /\ (0 <= s_ai_ml (all_scores p) /\ s_ai_ml (all_scores p) <= 100)
  /\ (0 <= s_overall (all_scores p) /\ s_overall (all_scores p) <= 967 # 10)
  /\ (0 <= use_case_score p /\ use_case_score p <= 100).
Proof.
  intros H Hdb. unfold rate_performance in H.
  assert (Hrow : forall k c,
             build_comp_map (query_by_ids db ids) !! k = Some c -> row_in_range c)
    by (intros k c; apply comp_map_row_in_range, Hdb).
  pose proof (Hrow "gpu") as Hg. pose proof (Hrow "cpu") as Hc.
  pose proof (Hrow "ram") as Hr. clear Hrow.
  destruct (build_comp_map _ !! "gpu") as [gpu|];
    [destruct (Hg gpu eq_refl) as (Hg1 & Hg2 & Hg3 & _);
     apply Q_or_0_range in Hg1, Hg2, Hg3|];
    clear Hg;
    (destruct (build_comp_map _ !! "cpu") as [cpu|];
     [destruct (Hc cpu eq_refl) as (Hc1 & Hc2 & Hc3 & _);
      apply Q_or_0_range in Hc1, Hc2, Hc3|]);
    clear Hc;
    (destruct (build_comp_map _ !! "ram") as [ram|];
     [destruct (Hr ram eq_refl) as (_ & _ & _ & Hcap);
      destruct (ram_capacity_of ram) as [cap|]; [|discriminate];
      specialize (Hcap cap eq_refl);
      assert (Hdiv : cap / 32 * 100 == cap * (100 # 32)) by field|]);
    clear Hr;
    simpl in H; injection H as <-; unfold scores_get; simpl;
    repeat match goal with
           | |- context [String.eqb uc ?s] => destruct (String.eqb uc s)
           end;
    repeat split; split_min; lra.
Qed.

Lemma build_scores_are_bounded_witness :
  exists p,
    rate_performance one_gpu [1%Z] "gaming" = Ok p
    /\ use_case_score p <= 100.
Proof.
  destruct (rate_performance one_gpu [1%Z] "gaming") as [p|e] eqn:E;
    [|vm_compute in E; discriminate].
  exists p. split; [reflexivity|].
  apply (build_scores_are_bounded _ _ _ _ E).
  intros c [<-|[]]. unfold row_in_range. simpl.
  split; [|split; [|split]]; intros q Hq; injection Hq as <-;
    try split; vm_compute; discriminate.
Defined.

End Selections.

(** ** Reading a price *)

Section Prices.
Import Re.
Local Open Scope Q_scope.

(** Whatever a match returns, its continuation returned it. *)
Lemma m_result {R : Type} (ic : bool) (r : re) :
  forall (s : string) (cap : option string)
         (k : string -> option string -> option R) (x : R),
    m ic r s cap k = Some x -> exists s' cap', k s' cap' = Some x.
Proof.
  induction r as [p|l|a IHa b IHb|a IHa b IHb|p|p|a IHa|a IHa];
    simpl; intros s cap k x H.
  - destruct s as [|c s]; [discriminate|].
    destruct (test ic p c); [eauto|discriminate].
  - destruct (lit ic l s); [eauto|discriminate].
  - apply IHa in H as (s1 & cap1 & H). exact (IHb _ _ _ _ H).
  - destruct (m ic a s cap k) as [y|] eqn:E.
    + injection H as ->. exact (IHa _ _ _ _ E).
    + exact (IHb _ _ _ _ H).
  - apply star_inv in H as (_ & rest & _ & _ & H). eauto.
  - destruct s as [|c s]; [discriminate|].
    destruct (test ic p c); [|discriminate].
    apply star_inv in H as (_ & rest & _ & _ & H). eauto.
  - destruct (m ic a s cap k) as [y|] eqn:E.
    + injection H as ->. exact (IHa _ _ _ _ E).
    + eauto.
  - apply IHa in H as (s1 & _ & H). eauto.
Qed.

(** A pattern that can match the empty string. *)
Fixpoint nullable (r : re) : bool :=
  match r with
  | Cls _ | Plus _ => false
  | Lit l => match l with EmptyString => true | _ => false end
  | Seq a b => nullable a && nullable b
  | Alt a b => nullable a || nullable b
  | Star _ | Opt _ => true
  | Grp a => nullable a
  end.

Lemma star_succeeds {R : Type} (p : ascii -> bool) (s : string)
      (k : string -> option R) :
  (forall s', k s' <> None) -> star p s k <> None.
Proof.
  intros Hk. induction s as [|c s IH]; simpl; [apply Hk|].
  destruct (p c); [|apply Hk].
  destruct (star p s k); [discriminate|contradiction].
Qed.

(** A nullable pattern in front of a continuation that always succeeds
    always succeeds. *)
Lemma m_nullable {R : Type} (ic : bool) (r : re) :
  nullable r = true ->
  forall (s : string) (cap : option string)
         (k : string -> option string -> option R),
    (forall s' cap', k s' cap' <> None) -> m ic r s cap k <> None.
Proof.
  induction r as [p|l|a IHa b IHb|a IHa b IHb|p|p|a IHa|a IHa];
    simpl; intros Hn s cap k Hk; try discriminate.
  - destruct l; [apply Hk|discriminate].
  - apply andb_true_iff in Hn as [Ha Hb].
    apply (IHa Ha). intros s' cap'. apply (IHb Hb). exact Hk.
  - destruct (m ic a s cap k) eqn:E; [discriminate|].
    apply orb_true_iff in Hn as [Ha|Hb].
    + exfalso. exact (IHa Ha _ _ _ Hk E).
    + apply (IHb Hb). exact Hk.
  - apply star_succeeds. intros s'. apply Hk.
  - destruct (m ic a s cap k); [discriminate|apply Hk].
  - apply (IHa Hn). intros s' cap'. apply Hk.
Qed.

(** The shape shared by the price patterns: a group that starts with
    digits and goes on with something nullable. *)
Definition number_shape (tail : re) : re := Grp (Seq (Plus digit) tail).

Lemma number_shape_at_digit tail c s :
  nullable tail = true -> PyStr.isdigit c = true ->
  exists g,
    m false (number_shape tail) (String c s) None (fun _ cap => Some cap)
    = Some (Some g).
Proof.
  intros Hn Hc.
  destruct (m false (number_shape tail) (String c s) None (fun _ cap => Some cap))
    as [x|] eqn:E.
  - unfold number_shape in E.
    change (m false (Seq (Plus digit) tail) (String c s) None
              (fun s' _ =>
                 Some (Some (PyStr.take
                               (String.length (String c s) - String.length s')
                               (String c s)))) = Some x) in E.
    apply m_result in E as (s1 & cap1 & E). injection E as <-. eauto.
  - exfalso. revert E. unfold number_shape. cbn [m].
    change (test false digit c) with (PyStr.isdigit c). rewrite Hc.
    apply star_succeeds. intros s'. apply (m_nullable false tail Hn).
    intros s2 cap2. discriminate.
Qed.

Lemma number_shape_at_other tail s :
  match s with
  | EmptyString => True
  | String c _ => PyStr.isdigit c = false
  end ->
  m false (number_shape tail) s None (fun _ cap => Some cap) = None.
Proof.
  unfold number_shape. cbn [m]. destruct s as [|c s]; [reflexivity|].
  change (test false digit c) with (PyStr.isdigit c). intros ->. reflexivity.
Qed.

(** A pattern of that shape is found exactly in the texts with a digit. *)
Lemma search1_number_shape tail s :
  nullable tail = true ->
  (PyText.has_digit s = true -> exists g, search1 false (number_shape tail) s = Some g)
  /\ (PyText.has_digit s = false -> search1 false (number_shape tail) s = None).
Proof.
  intros Hn. unfold search1. induction s as [|c s IH].
  - split; [discriminate|]. intros _. rewrite search_nil.
    rewrite number_shape_at_other; [reflexivity|exact I].
  - rewrite search_cons. simpl PyText.has_digit.
    destruct (PyStr.isdigit c) eqn:Ec.
    + split; [|discriminate]. intros _.
      destruct (number_shape_at_digit tail c s Hn Ec) as (g & ->). eauto.
    + rewrite number_shape_at_other by exact Ec. exact IH.
Qed.

Lemma has_digit_remove_char a s :
  PyStr.isdigit a = false ->
  PyText.has_digit (PyText.remove_char a s) = PyText.has_digit s.
Proof.
  intros Ha. induction s as [|c s IH]; simpl; [reflexivity|].
  destruct (Ascii.eqb c a) eqn:E.
  - apply Ascii.eqb_eq in E. subst c. rewrite Ha. exact IH.
  - simpl. rewrite IH. reflexivity.
Qed.

Lemma price_pattern_is_number_shape :
  ToolsQueries.price_pattern = number_shape (Opt (Seq (Lit ".") (Plus digit))).
Proof. reflexivity. Qed.

Lemma price_capture_is_decimal s g :
  search1 false ToolsQueries.price_pattern s = Some g ->
  all_in digit_or_dot g = true.
Proof.
  apply search1_captures. cbn [groups_in chars_in ToolsQueries.price_pattern].
  repeat split.
  - intros c Hc. unfold digit_or_dot. unfold digit in Hc. rewrite Hc. reflexivity.
  - intros c Hc. unfold digit_or_dot. unfold digit in Hc. rewrite Hc. reflexivity.
Qed.

(** X17: [normalize_price] fails with "Could not extract price" exactly
    when the price string has no digit. Otherwise it returns a price that
    is not negative in DZD, that price times the USD rate for "USD" and
    times the EUR rate for "EUR", and for every other currency code
    (including "usd" in lower case) the DZD price unconverted. *)
Theorem normalize_price_cases (settings : Config.Settings) price_str :
  (PyText.has_digit price_str = false ->
   forall currency,
     ToolsQueries.normalize_price settings price_str currency
     = ToolsQueries.CouldNotExtractPrice)
  /\ (PyText.has_digit price_str = true ->
      exists p,
        0 <= p
        /\ ToolsQueries.normalize_price settings price_str "USD"
           = ToolsQueries.Price (p * Config.USD_TO_DZD_RATE settings)
        /\ ToolsQueries.normalize_price settings price_str "EUR"
           = ToolsQueries.Price (p * Config.EUR_TO_DZD_RATE settings)
        /\ forall currency,
            currency <> "USD" -> currency <> "EUR" ->
            ToolsQueries.normalize_price settings price_str currency
            = ToolsQueries.Price p).
Proof.
  unfold ToolsQueries.normalize_price.
  set (cleaned := PyText.remove_char " "%char
                    (PyText.remove_char ","%char price_str)).
  assert (Hd : PyText.has_digit cleaned = PyText.has_digit price_str).
  { unfold cleaned. rewrite !has_digit_remove_char by reflexivity. reflexivity. }
  destruct (search1_number_shape (Opt (Seq (Lit ".") (Plus digit))) cleaned eq_refl)
    as [Hsome Hnone].
  rewrite <- price_pattern_is_number_shape in Hsome, Hnone.
  rewrite Hd in Hsome, Hnone. split.
  - intros H currency. rewrite (Hnone H). reflexivity.
  - intros H. destruct (Hsome H) as (g & Hg). rewrite Hg.
    exists (SpecExtractor.float_of_decimal g).
    split; [apply float_of_decimal_nonneg; exact (price_capture_is_decimal _ _ Hg)|].
    split; [reflexivity|]. split; [reflexivity|].
    intros currency Husd Heur.
    apply String.eqb_neq in Husd, Heur. rewrite Husd, Heur. reflexivity.
Qed.

Lemma normalize_price_cases_witness :
  ToolsQueries.normalize_price Config.default_settings "prix sur demande" "USD"
  = ToolsQueries.CouldNotExtractPrice
  /\ exists p,
       0 <= p
       /\ ToolsQueries.normalize_price Config.default_settings "1,500.50 $" "USD"
          = ToolsQueries.Price (p * 135)
       /\ ToolsQueries.normalize_price Config.default_settings "1,500.50 $" "usd"
          = ToolsQueries.Price p.
Proof.
  split.
  - apply (normalize_price_cases Config.default_settings "prix sur demande").
    reflexivity.
  - destruct (proj2 (normalize_price_cases Config.default_settings "1,500.50 $")
                eq_refl) as (p & Hp & Husd & _ & Hother).
    exists p. split; [exact Hp|]. split; [exact Husd|].
    apply Hother; discriminate.
Defined.

Lemma remove_char_all_in (P P' : ascii -> bool) (a : ascii) (s : string) :
  (forall c, P' c = true -> Ascii.eqb c a = false -> P c = true) ->
  all_in P' s = true -> all_in P (PyText.remove_char a s) = true.
Proof.
  intros HP. induction s as [|c s IH]; simpl; [reflexivity|].
  intros H. apply andb_true_iff in H as [Hc Hs].
  destruct (Ascii.eqb c a) eqn:E; [exact (IH Hs)|].
  simpl. rewrite (HP c Hc E), (IH Hs). reflexivity.
Qed.

(** X18: the price normalizer of the engine returns nothing exactly when
    the string has no digit, and what it returns is never negative. *)
Theorem engine_normalize_price_cases price_str :
  (Engine.normalize_price price_str = None <->
   PyText.has_digit price_str = false)
  /\ (forall p, Engine.normalize_price price_str = Some p -> 0 <= p).
Proof.
  unfold Engine.normalize_price.
  set (tail := Seq (Opt (Cls (fun c => is_char "."%char c || is_char ","%char c)))
                   (Star digit)).
  change Engine.number_pattern with (number_shape tail).
  destruct (search1_number_shape tail price_str eq_refl) as [Hsome Hnone].
  split.
  - destruct (PyText.has_digit price_str).
    + destruct (Hsome eq_refl) as (g & ->). split; discriminate.
    + rewrite (Hnone eq_refl). split; reflexivity.
  - intros p. destruct (search1 false (number_shape tail) price_str) as [g|] eqn:E;
      [|discriminate].
    simpl. intros [= <-]. apply float_of_decimal_nonneg.
    apply (remove_char_all_in digit_or_dot
             (fun c => PyStr.isdigit c || Ascii.eqb c "."%char || Ascii.eqb c ","%char)).
    + intros c Hc Hne. unfold digit_or_dot. rewrite Hne, orb_false_r in Hc.
      exact Hc.
    + apply (search1_captures
               (fun c => PyStr.isdigit c || Ascii.eqb c "."%char
                         || Ascii.eqb c ","%char)) in E; [exact E|].
      unfold number_shape, tail. cbn [groups_in chars_in]. repeat split.
      * intros c Hc. unfold digit in Hc. rewrite Hc. reflexivity.
      * intros c Hc. unfold is_char in Hc.
        apply orb_true_iff in Hc as [Hc|Hc]; apply Ascii.eqb_eq in Hc; subst c;
          reflexivity.
      * intros c Hc. unfold digit in Hc. rewrite Hc. reflexivity.
Qed.

Lemma engine_normalize_price_cases_witness :
  Engine.normalize_price "1,500 DA" = Some 1500 /\ 0 <= 1500.
Proof.
  assert (E : Engine.normalize_price "1,500 DA" = Some 1500)
    by (vm_compute; reflexivity).
  split; [exact E|].
  exact (proj2 (engine_normalize_price_cases "1,500 DA") 1500 E).
Defined.

(** Removing the occurrences of a word without digits removes no digit:
    [skip] characters of an occurrence, themselves without a digit, are
    still to be dropped. *)
Lemma has_digit_remove_sub_aux old :
  old <> EmptyString -> PyText.has_digit old = false ->
  forall s skip t,
    String.prefix t s = true -> PyText.has_digit t = false ->
    String.length t = skip ->
    PyText.has_digit (PyText.remove_sub_aux old skip s) = PyText.has_digit s.
Proof.
  intros Hne Hold. induction s as [|c s IH]; intros skip t Hp Ht Hl;
    [reflexivity|].
  destruct skip as [|n].
  - cbn [PyText.remove_sub_aux].
    destruct (String.prefix old (String c s)) eqn:Ep.
    + destruct old as [|a old']; [contradiction|].
      simpl in Ep. destruct (ascii_dec a c) as [->|]; [|discriminate].
      simpl in Hold. apply orb_false_iff in Hold as [Hc Hold'].
      cbn [String.length]. rewrite Nat.sub_succ, Nat.sub_0_r.
      rewrite (IH _ old' Ep Hold' eq_refl). simpl. rewrite Hc. reflexivity.
    + simpl. rewrite (IH 0%nat EmptyString); [reflexivity| |reflexivity|reflexivity].
      destruct s; reflexivity.
  - destruct t as [|a t']; [discriminate|].
    simpl in Hp. destruct (ascii_dec a c) as [->|]; [|discriminate].
    simpl in Ht. apply orb_false_iff in Ht as [Hc Ht'].
    simpl in Hl. apply Nat.succ_inj in Hl. cbn [PyText.remove_sub_aux].
    rewrite (IH n t' Hp Ht' Hl). simpl. rewrite Hc. reflexivity.
Qed.

Lemma has_digit_remove_sub old s :
  old <> EmptyString -> PyText.has_digit old = false ->
  PyText.has_digit (PyText.remove_sub old s) = PyText.has_digit s.
Proof.
  intros Hne Hold. unfold PyText.remove_sub.
  apply (has_digit_remove_sub_aux old Hne Hold s 0%nat EmptyString);
    try reflexivity.
  destruct s; reflexivity.
Qed.

(** X19: the scraper reads no price from a text without a digit and
    some price from every text with one; the price is never negative, and
    a listing is only kept with a price above zero. *)
Theorem scraped_price_cases price_text :
  (OuedknissScraper._extract_price_dzd price_text = None <->
   PyText.has_digit price_text = false)
  /\ (forall p, OuedknissScraper._extract_price_dzd price_text = Some p -> 0 <= p)
  /\ (forall p, OuedknissScraper.accepted_price price_text = Some p -> 0 < p).
Proof.
  unfold OuedknissScraper.accepted_price, OuedknissScraper._extract_price_dzd.
  set (cleaned :=
         PyText.remove_char " "%char
           (PyText.remove_char ","%char
              (PyText.remove_sub "DZD" (PyText.remove_sub "DA" price_text)))).
  assert (Hd : PyText.has_digit cleaned = PyText.has_digit price_text).
  { unfold cleaned. rewrite !has_digit_remove_char by reflexivity.
    rewrite !has_digit_remove_sub by (reflexivity || discriminate).
    reflexivity. }
  destruct (search1_number_shape (Opt (Seq (Lit ".") (Plus digit))) cleaned eq_refl)
    as [Hsome Hnone].
  rewrite <- price_pattern_is_number_shape in Hsome, Hnone.
  rewrite Hd in Hsome, Hnone.
  assert (Hpos : forall p,
             SpecExtractor.float_of_decimal
               <$> search1 false ToolsQueries.price_pattern cleaned = Some p ->
             0 <= p).
  { intros p. destruct (search1 false ToolsQueries.price_pattern cleaned)
      as [g|] eqn:E; [|discriminate].
    simpl. intros [= <-]. apply float_of_decimal_nonneg.
    exact (price_capture_is_decimal _ _ E). }
  split; [|split].
  - destruct (PyText.has_digit price_text).
    + destruct (Hsome eq_refl) as (g & ->). split; discriminate.
    + rewrite (Hnone eq_refl). split; reflexivity.
  - exact Hpos.
  - intros p.
    destruct (SpecExtractor.float_of_decimal
                <$> search1 false ToolsQueries.price_pattern cleaned)
      as [q|] eqn:E; [|discriminate].
    specialize (Hpos q eq_refl).
    destruct (Qeq_bool q 0) eqn:E0; [discriminate|].
    destruct (Qle_bool q 0) eqn:E1; [discriminate|].
    simpl. intros [= <-].
    apply Qeq_bool_neq in E0.
    apply Qle_lteq in Hpos as [Hlt|Heq]; [exact Hlt|].
    exfalso. apply E0. symmetry. exact Heq.
Qed.

Lemma scraped_price_cases_witness :
  OuedknissScraper.accepted_price "85 000 DA" = Some 85000 /\ 0 < 85000.
Proof.
  assert (E : OuedknissScraper.accepted_price "85 000 DA" = Some 85000)
    by (vm_compute; reflexivity).
  split; [exact E|].
  exact (proj2 (proj2 (scraped_price_cases "85 000 DA")) 85000 E).
Defined.

End Prices.

(** ** The GPU scorer of the engine *)

Section GpuScorer.
Local Open Scope Z_scope.

(** X20: for a usage other than "ai" the score of a GPU lies between 0
    and 13; the usage "ai" adds exactly 2 to it for a name that mentions
    "rtx" in any letter case, and nothing for any other name. *)
Theorem score_gpu_range_and_ai_bonus (gpu : Engine.gpu_t) (usage : string) :
  usage <> "ai"%string ->
  0 <= Engine.score_gpu gpu usage <= 13
  /\ Engine.score_gpu gpu "ai" =
     Engine.score_gpu gpu usage
     + (if PyStr.contains "rtx" (PyStr.lower (Engine.g_name gpu)) then 2 else 0).
Proof.
  intros Hu. apply String.eqb_neq in Hu.
  unfold Engine.score_gpu. cbv zeta. rewrite Hu.
  change (String.eqb "ai" "ai") with true. cbn [andb].
  destruct (PyStr.contains "rtx" (PyStr.lower (Engine.g_name gpu)));
    destruct (PyStr.contains "rx" (PyStr.lower (Engine.g_name gpu)));
    destruct (PyStr.contains "12gb" (PyStr.lower (Engine.g_name gpu))
              || PyStr.contains "16gb" (PyStr.lower (Engine.g_name gpu)));
    destruct (PyStr.contains "used" (PyStr.lower (Engine.g_condition gpu)));
    lia.
Qed.

Lemma score_gpu_range_and_ai_bonus_witness :
  Engine.score_gpu (Engine.Gpu "MSI RTX 3060 12GB" "Used") "ai" = 11.
Proof.
  destruct (score_gpu_range_and_ai_bonus
              (Engine.Gpu "MSI RTX 3060 12GB" "Used") "gaming")
    as [_ ->]; [discriminate|].
  vm_compute. reflexivity.
Defined.

End GpuScorer.

(** ** Querying the catalog *)

Section CatalogQuery.
Import Models ToolsQueries.
Local Open Scope Q_scope.

Lemma insert_desc_perm (c : Component) (l : list Component) :
  Permutation (insert_desc c l) (c :: l).
Proof.
  induction l as [|x l IH]; simpl; [reflexivity|].
  destruct (Qle_bool (value_for_money x) (value_for_money c)); [reflexivity|].
  rewrite IH. apply perm_swap.
Qed.

Lemma order_by_value_desc_perm (l : list Component) :
  Permutation (order_by_value_desc l) l.
Proof.
  induction l as [|c l IH]; simpl; [reflexivity|].
  rewrite insert_desc_perm, IH. reflexivity.
Qed.

(** Every element is worth at least as much as the ones after it. *)
Fixpoint desc {A : Type} (v : A -> Q) (l : list A) : Prop :=
  match l with
  | [] => True
  | x :: l' => (forall y, In y l' -> v y <= v x) /\ desc v l'
  end.

Lemma insert_desc_sorted (c : Component) (l : list Component) :
  desc value_for_money l -> desc value_for_money (insert_desc c l).
Proof.
  induction l as [|x l IH]; simpl.
  - intros _. split; [intros y []|exact I].
  - intros [Hx Hl].
    destruct (Qle_bool (value_for_money x) (value_for_money c)) eqn:E.
    + apply Qle_bool_iff in E. split; [|split; assumption].
      intros y [<-|Hy]; [exact E|].
      apply Qle_trans with (value_for_money x); [apply Hx; exact Hy|exact E].
    + split; [|apply IH; exact Hl].
      intros y Hy.
      apply (Permutation_in _ (insert_desc_perm c l)) in Hy as [<-|Hy];
        [|apply Hx; exact Hy].
      apply Qlt_le_weak. apply Qnot_le_lt. intros H.
      apply Qle_bool_iff in H. congruence.
Qed.

Lemma order_by_value_desc_sorted (l : list Component) :
  desc value_for_money (order_by_value_desc l).
Proof.
  induction l as [|c l IH]; simpl; [exact I|].
  apply insert_desc_sorted. exact IH.
Qed.

Lemma desc_app_l {A : Type} (v : A -> Q) (a b : list A) :
  desc v (a ++ b) -> desc v a.
Proof.
  induction a as [|x a IH]; simpl; [intros _; exact I|].
  intros [Hx Ha]. split; [|exact (IH Ha)].
  intros y Hy. apply Hx. apply in_or_app. left. exact Hy.
Qed.

Lemma desc_app_r {A : Type} (v : A -> Q) (a b : list A) :
  desc v (a ++ b) -> desc v b.
Proof.
  induction a as [|x a IH]; simpl; [tauto|]. intros [_ Ha]. exact (IH Ha).
Qed.

Lemma desc_firstn {A : Type} (v : A -> Q) (n : nat) (l : list A) :
  desc v l -> desc v (firstn n l).
Proof.
  intros H. rewrite <- (firstn_skipn n l) in H. exact (desc_app_l _ _ _ H).
Qed.

Lemma Forall2_In_r {A B : Type} (R : A -> B -> Prop) l k y :
  Forall2 R l k -> In y k -> exists x, In x l /\ R x y.
Proof.
  intros H. induction H as [|a b l k Hab _ IH]; [intros []|].
  intros [<-|Hy].
  - exists a. split; [left; reflexivity|exact Hab].
  - destruct (IH Hy) as (x & Hx & Hxy). exists x. split; [right|]; assumption.
Qed.

Lemma desc_map {A B : Type} (v : A -> Q) (w : B -> Q)
      (R : A -> B -> Prop) (l : list A) (k : list B) :
  (forall a b, R a b -> w b = v a) -> Forall2 R l k -> desc v l -> desc w k.
Proof.
  intros HR H. induction H as [|a b l k Hab Hlk IH]; simpl; [tauto|].
  intros [Ha Hl]. split; [|exact (IH Hl)].
  intros y Hy. destruct (Forall2_In_r _ _ _ _ Hlk Hy) as (x & Hx & Hxy).
  rewrite (HR _ _ Hab), (HR _ _ Hxy). apply Ha. exact Hx.
Qed.

Lemma in_firstn {A : Type} (n : nat) (l : list A) (x : A) :
  In x (firstn n l) -> In x l.
Proof.
  intros H. rewrite <- (firstn_skipn n l). apply in_or_app. left. exact H.
Qed.

(** The value for money of a listed row. *)
Definition row_value (r : part_row) : Q :=
  Q_or_0 (r_benchmark_score r) / r_price_dzd r.

Lemma row_of_value c r : row_of c = Some r -> row_value r = value_for_money c.
Proof.
  unfold row_of. destruct (condition c); [|discriminate].
  simpl. intros [= <-]. reflexivity.
Qed.

(** The condition filter of a call: the member named by a non-empty
    string, when there is one. *)
Definition condition_filter (condition : option string) : option Condition :=
  match truthy_str condition with
  | Some s => condition_of_value (PyStr.lower s)
  | None => None
  end.

(** What a successful call computed. *)
Lemma get_parts_Parts db ty mx mn cond limit rs :
  get_parts db ty mx mn cond limit = Parts rs ->
  exists t,
    type_of_value (PyStr.lower ty) = Some t
    /\ (0 <= limit)%Z
    /\ Forall2 (fun c r => row_of c = Some r)
         (firstn (Z.to_nat limit)
            (order_by_value_desc
               (List.filter (parts_filter t mx mn (condition_filter cond)) db)))
         rs.
Proof.
  unfold get_parts. fold (condition_filter cond).
  destruct (type_of_value (PyStr.lower ty)) as [t|]; [|discriminate].
  destruct (limit <? 0)%Z eqn:El; [discriminate|].
  destruct (mapM row_of _) as [rs'|] eqn:E; [|discriminate].
  intros [= <-]. exists t. split; [reflexivity|]. split; [lia|].
  apply mapM_Some_1. exact E.
Qed.

Lemma type_of_value_Some s t : type_of_value s = Some t -> type_value t = s.
Proof.
  unfold type_of_value. intros H. apply find_some in H as [_ H].
  apply String.eqb_eq. exact H.
Qed.

Lemma truthy_num_Some x m :
  x = Some m -> ~ m == 0 -> truthy_num x = Some m.
Proof.
  intros -> Hm. simpl. destruct (Qeq_bool m 0) eqn:E; [|reflexivity].
  apply Qeq_bool_iff in E. contradiction.
Qed.

(** X21: every row that [get_parts] lists is a stored row of the
    requested type that is in stock, has a benchmark score and a price
    above zero, respects the price ceiling and the score floor that were
    given and are not zero, and has the requested condition when the
    condition names one; and no more than [limit] rows are listed. *)
Theorem get_parts_rows_match_the_query db ty mx mn cond limit rs :
  get_parts db ty mx mn cond limit = Parts rs ->
  (Z.of_nat (length rs) <= limit)%Z
  /\ forall r, In r rs ->
       exists c,
         In c db /\ row_of c = Some r
         /\ type_value (component_type c) = PyStr.lower ty
         /\ in_stock c = Some true
         /\ 0 < r_price_dzd r
         /\ (exists s, r_benchmark_score r = Some s
               /\ forall m, mn = Some m -> ~ m == 0 -> m <= s)
         /\ (forall m, mx = Some m -> ~ m == 0 -> r_price_dzd r <= m)
         /\ (forall s k, cond = Some s ->
               condition_of_value (PyStr.lower s) = Some k -> r_condition r = k).
Proof.
  intros H. apply get_parts_Parts in H as (t & Ht & Hl & H). split.
  - apply Forall2_length in H. rewrite <- H. rewrite length_firstn. lia.
  - intros r Hr. destruct (Forall2_In_r _ _ _ _ H Hr) as (c & Hc & Hrow).
    exists c.
    apply in_firstn in Hc.
    apply (Permutation_in _ (order_by_value_desc_perm _)) in Hc.
    apply filter_In in Hc as [Hdb Hf].
    unfold parts_filter in Hf.
    repeat (apply andb_true_iff in Hf as [Hf ?]).
    split; [exact Hdb|]. split; [exact Hrow|].
    assert (Er := Hrow). unfold row_of in Er.
    destruct (condition c) as [k'|] eqn:Ek; [|discriminate].
    simpl in Er. injection Er as <-. cbn [r_price_dzd r_benchmark_score r_condition].
    split.
    { apply type_of_value_Some in Ht. rewrite <- Ht.
      apply String.eqb_eq. exact Hf. }
    split.
    { destruct (in_stock c) as [[|]|]; try discriminate. reflexivity. }
    split.
    { apply Qltb_lt. assumption. }
    destruct (benchmark_score c) as [s|] eqn:Es; [|discriminate].
    split.
    { exists s. split; [reflexivity|]. intros m Em Hm.
      rewrite (truthy_num_Some _ _ Em Hm) in *. apply Qle_bool_iff. assumption. }
    split.
    { intros m Em Hm.
      rewrite (truthy_num_Some _ _ Em Hm) in *. apply Qle_bool_iff. assumption. }
    intros s' k Ec Ek'. unfold condition_filter in *. subst cond.
    assert (Hs : truthy_str (Some s') = Some s').
    { simpl. destruct (String.eqb s' "") eqn:E0; [|reflexivity].
      apply String.eqb_eq in E0. subst s'. discriminate. }
    rewrite Hs, Ek' in *.
    destruct k', k; try discriminate; reflexivity.
Qed.

(** A stored offer: key, type, name, price, condition, benchmark score
    and stock flag; every other nullable column is NULL. *)
Definition offer (i : Z) (ty : ComponentType) (n : string) (price : Q)
           (k : option Condition) (score : option Q) (stock : bool) : Component :=
  {|
    id := i; component_type := ty; name := n;
    manufacturer := None; model := None; price_dzd := price;
    original_price := None; condition := k; in_stock := Some stock;
    source_url := None; source_platform := None; seller_location := None;
    specs := None;
    benchmark_score := score; gaming_score := None;
    productivity_score := None; ai_score := None;
    socket_type := None; chipset := None; ram_type := None;
    ram_speed := None; tdp_watts := None; form_factor := None;
    last_scraped_at := None
  |}.

(** Three GPUs on offer, one sold out, one without a score, and a CPU. *)
Definition shelf : table :=
  [ offer 1 GPU "RTX 4090" 400000 (Some NEW) (Some 100) true;
    offer 2 GPU "RX 6600" 60000 (Some USED) (Some 60) true;
    offer 3 GPU "RTX 3060" 80000 (Some NEW) (Some 60) true;
    offer 4 GPU "GTX 1650" 30000 (Some USED) (Some 40) false;
    offer 5 GPU "GT 710" 9000 (Some USED) None true;
    offer 6 CPU "Ryzen 5 5600X" 35000 (Some NEW) (Some 80) true ].

Lemma get_parts_rows_match_the_query_witness :
  exists rs,
    get_parts shelf "GPU" (Some 100000) None (Some "Used") 20 = Parts rs
    /\ (Z.of_nat (length rs) <= 20)%Z.
Proof.
  destruct (get_parts shelf "GPU" (Some 100000) None (Some "Used") 20)
    as [rs| |] eqn:E; try (vm_compute in E; discriminate).
  exists rs. split; [reflexivity|].
  exact (proj1 (get_parts_rows_match_the_query _ _ _ _ _ _ _ E)).
Defined.

(** X22: the rows that [get_parts] lists are in order of value for
    money, benchmark score per dinar, best first. *)
Theorem get_parts_lists_best_value_first db ty mx mn cond limit rs :
  get_parts db ty mx mn cond limit = Parts rs ->
  forall l1 r1 l2 r2 l3,
    rs = (l1 ++ r1 :: l2 ++ r2 :: l3)%list ->
    row_value r2 <= row_value r1.
Proof.
  intros H l1 r1 l2 r2 l3 Hrs.
  apply get_parts_Parts in H as (t & _ & _ & H).
  assert (Hd : desc row_value rs).
  { apply (desc_map value_for_money row_value _ _ _ row_of_value H).
    apply desc_firstn. apply order_by_value_desc_sorted. }
  rewrite Hrs in Hd. apply desc_app_r in Hd. destruct Hd as [Hd _].
  apply Hd. apply in_or_app. right. left. reflexivity.
Qed.

Lemma get_parts_lists_best_value_first_witness :
  exists r1 r2,
    get_parts shelf "gpu" None None None 2 = Parts [r1; r2]
    /\ row_value r2 <= row_value r1.
Proof.
  destruct (get_parts shelf "gpu" None None None 2) as [[|r1 [|r2 [|r3 rs]]]| |]
    eqn:E; try (vm_compute in E; discriminate).
  exists r1, r2. split; [reflexivity|].
  exact (get_parts_lists_best_value_first _ _ _ _ _ _ _ E [] r1 [] r2 [] eq_refl).
Defined.

Lemma mapM_row_of_total (cs : list Component) :
  (forall c, In c cs -> condition c <> None) ->
  exists rs, mapM row_of cs = Some rs.
Proof.
  intros H.
  assert (Hs : is_Some (mapM row_of cs)).
  { apply mapM_is_Some. apply Forall_forall. intros c Hc.
    apply list_elem_of_In in Hc. specialize (H c Hc).
    change (is_Some (row_of c)). unfold row_of.
    destruct (condition c); [|contradiction]. simpl. eexists. reflexivity. }
  destruct Hs as [rs Hrs]. eauto.
Qed.

(** X23: with a known type, a limit that is not negative and rows that
    all have a condition, or a condition filter that names a condition,
    [get_parts] answers with a list: the only failure left is a listed row
    whose condition is NULL. *)
Theorem get_parts_answers_with_a_list db ty t mx mn cond limit :
  type_of_value (PyStr.lower ty) = Some t ->
  (0 <= limit)%Z ->
  (forall c, In c db -> condition c <> None)
  \/ (exists k, condition_filter cond = Some k) ->
  exists rs, get_parts db ty mx mn cond limit = Parts rs.
Proof.
  intros Ht Hl Hc. unfold get_parts. fold (condition_filter cond).
  rewrite Ht. destruct (limit <? 0)%Z eqn:El; [lia|].
  destruct (mapM_row_of_total
              (firstn (Z.to_nat limit)
                 (order_by_value_desc
                    (List.filter (parts_filter t mx mn (condition_filter cond)) db))))
    as [rs Hrs].
  - intros c Hin. apply in_firstn in Hin.
    apply (Permutation_in _ (order_by_value_desc_perm _)) in Hin.
    apply filter_In in Hin as [Hdb Hf]. destruct Hc as [Hc|[k Hk]].
    + exact (Hc c Hdb).
    + unfold parts_filter in Hf. rewrite Hk in Hf.
      repeat (apply andb_true_iff in Hf as [Hf ?]).
      destruct (condition c); [discriminate|discriminate].
  - rewrite Hrs. eauto.
Qed.

Lemma get_parts_answers_with_a_list_witness :
  exists rs, get_parts shelf "GPU" None (Some 50) (Some "new") 20 = Parts rs.
Proof.
  apply (get_parts_answers_with_a_list shelf "GPU" GPU);
    [reflexivity|lia|right; exists NEW; reflexivity].
Defined.

(** X24: when the limit is at least the size of the table and every
    row has a condition, [get_parts] lists exactly the rows that pass its
    filters, each of them once. *)
Theorem get_parts_lists_every_match db ty t mx mn cond limit :
  type_of_value (PyStr.lower ty) = Some t ->
  (forall c, In c db -> condition c <> None) ->
  (Z.of_nat (length db) <= limit)%Z ->
  exists cs rs,
    get_parts db ty mx mn cond limit = Parts rs
    /\ Permutation cs
         (List.filter (parts_filter t mx mn (condition_filter cond)) db)
    /\ Forall2 (fun c r => row_of c = Some r) cs rs.
Proof.
  intros Ht Hc Hl. unfold get_parts. fold (condition_filter cond).
  rewrite Ht. destruct (limit <? 0)%Z eqn:El; [lia|].
  set (matches := List.filter (parts_filter t mx mn (condition_filter cond)) db).
  assert (Hall : firstn (Z.to_nat limit) (order_by_value_desc matches)
                 = order_by_value_desc matches).
  { apply firstn_all2.
    rewrite (Permutation_length (order_by_value_desc_perm matches)).
    assert (Hf := filter_length_le
                    (parts_filter t mx mn (condition_filter cond)) db).
    fold matches in Hf. lia. }
  rewrite Hall.
  destruct (mapM_row_of_total (order_by_value_desc matches)) as [rs Hrs].
  - intros c Hin.
    apply (Permutation_in _ (order_by_value_desc_perm _)) in Hin.
    apply filter_In in Hin as [Hdb _]. exact (Hc c Hdb).
  - exists (order_by_value_desc matches), rs. rewrite Hrs.
    split; [reflexivity|]. split; [apply order_by_value_desc_perm|].
    apply mapM_Some_1. exact Hrs.
Qed.

Lemma get_parts_lists_every_match_witness :
  exists cs rs,
    get_parts shelf "gpu" None None None 20 = Parts rs
    /\ Permutation cs
         (List.filter (parts_filter GPU None None (condition_filter None)) shelf)
    /\ Forall2 (fun c r => row_of c = Some r) cs rs.
Proof.
  apply (get_parts_lists_every_match shelf "gpu" GPU);
    [reflexivity| |vm_compute; discriminate].
  intros c Hc. simpl in Hc.
  repeat (destruct Hc as [<-|Hc]; [discriminate|]). destruct Hc.
Defined.

(** X25: a filter that cannot be used is dropped without an error: a
    condition that names no member of [Condition], a price ceiling of
    zero and a score floor of zero each give the answer of the call
    without that filter. *)
Theorem get_parts_drops_unusable_filters db ty mx mn cond limit s z :
  condition_of_value (PyStr.lower s) = None ->
  z == 0 ->
  get_parts db ty mx mn (Some s) limit = get_parts db ty mx mn None limit
  /\ get_parts db ty (Some z) mn cond limit = get_parts db ty None mn cond limit
  /\ get_parts db ty mx (Some z) cond limit = get_parts db ty mx None cond limit.
Proof.
  intros Hs Hz.
  assert (Hn : truthy_num (Some z) = None).
  { simpl. destruct (Qeq_bool z 0) eqn:E; [reflexivity|].
    apply Qeq_bool_neq in E. contradiction. }
  assert (Hk : condition_filter (Some s) = condition_filter None).
  { unfold condition_filter. simpl.
    destruct (String.eqb s ""); [reflexivity|exact Hs]. }
  unfold get_parts.
  fold (condition_filter (Some s)) (condition_filter None) (condition_filter cond).
  rewrite Hk.
  destruct (type_of_value (PyStr.lower ty)) as [t|]; [|repeat split].
  split; [reflexivity|].
  split.
  - rewrite (filter_ext (parts_filter t (Some z) mn (condition_filter cond))
                        (parts_filter t None mn (condition_filter cond)));
      [reflexivity|].
    intros c. unfold parts_filter. rewrite Hn. reflexivity.
  - rewrite (filter_ext (parts_filter t mx (Some z) (condition_filter cond))
                        (parts_filter t mx None (condition_filter cond)));
      [reflexivity|].
    intros c. unfold parts_filter. rewrite Hn. reflexivity.
Qed.

Lemma get_parts_drops_unusable_filters_witness :
  get_parts shelf "gpu" None None (Some "like new") 20
  = get_parts shelf "gpu" None None None 20.
Proof.
  apply (get_parts_drops_unusable_filters shelf "gpu" None None None 20
           "like new" 0); reflexivity.
Defined.

End CatalogQuery.

(** ** Saving listings *)

Section Ingestion.
Import Models ScraperTasks ScraperRun.
Local Open Scope Z_scope.

Lemma update_existing_fields now e price nd sp sc e' :
  update_existing now e price nd sp sc = Some e' ->
  id e' = id e /\ name e' = name e /\ price_dzd e' = price
  /\ in_stock e' = Some true /\ last_scraped_at e' = Some now.
Proof.
  unfold update_existing.
  destruct (promote bind_str (sp !! "socket_type") _); [|discriminate].
  destruct (promote bind_str (sp !! "ram_type") _); [|discriminate].
  destruct (promote bind_int (sp !! "ram_speed") _); [|discriminate].
  destruct (promote bind_int (sp !! "tdp_watts") _); [|discriminate].
  destruct (promote bind_str (sp !! "form_factor") _); [|discriminate].
  cbn [mbind option_bind]. intros [= <-]. repeat split.
Qed.

Lemma new_component_fields now i d nd sp sc c :
  new_component now i d nd sp sc = Some c ->
  id c = i /\ name c = l_name d /\ price_dzd c = l_price_dzd d
  /\ in_stock c = Some true /\ last_scraped_at c = Some now.
Proof.
  unfold new_component.
  destruct (type_of_value _); [|discriminate].
  destruct (condition_of_value _); [|discriminate].
  destruct (store bind_str (sp !! "socket_type")); [|discriminate].
  destruct (store bind_str (sp !! "ram_type")); [|discriminate].
  destruct (store bind_int (sp !! "ram_speed")); [|discriminate].
  destruct (store bind_int (sp !! "tdp_watts")); [|discriminate].
  destruct (store bind_str (sp !! "form_factor")); [|discriminate].
  cbn [mbind option_bind]. intros [= <-]. repeat split.
Qed.

(** Whether a new row can be built depends neither on the clock nor on
    the key. *)
Lemma new_component_None now i now' i' d nd sp sc :
  new_component now i d nd sp sc = None ->
  new_component now' i' d nd sp sc = None.
Proof.
  unfold new_component.
  destruct (type_of_value _); [|reflexivity].
  destruct (condition_of_value _); [|reflexivity].
  destruct (store bind_str (sp !! "socket_type")); [|reflexivity].
  destruct (store bind_str (sp !! "ram_type")); [|reflexivity].
  destruct (store bind_int (sp !! "ram_speed")); [|reflexivity].
  destruct (store bind_int (sp !! "tdp_watts")); [|reflexivity].
  destruct (store bind_str (sp !! "form_factor")); [|reflexivity].
  cbn [mbind option_bind]. discriminate.
Qed.

Lemma same_listing_by_fields d c :
  name c = l_name d -> price_dzd c = l_price_dzd d -> same_listing d c = true.
Proof.
  intros Hn Hp. unfold same_listing. rewrite Hn, Hp, String.eqb_refl.
  apply Qeq_bool_iff. reflexivity.
Qed.

Lemma find_replace_first (p : Component -> bool) c' db e :
  List.find p db = Some e -> p c' = true ->
  List.find p (replace_first p c' db) = Some c'.
Proof.
  intros H Hc. induction db as [|c db IH]; [discriminate|]. simpl in *.
  destruct (p c) eqn:E.
  - simpl. rewrite Hc. reflexivity.
  - simpl. rewrite E. exact (IH H).
Qed.

Lemma find_app_new (p : Component -> bool) c db :
  List.find p db = None -> p c = true -> List.find p (db ++ [c])%list = Some c.
Proof.
  intros H Hc. induction db as [|x db IH]; simpl in *.
  - rewrite Hc. reflexivity.
  - destruct (p x); [discriminate|]. exact (IH H).
Qed.

Lemma replace_first_ids (p : Component -> bool) c' db e :
  List.find p db = Some e -> id c' = id e ->
  List.map id (replace_first p c' db) = List.map id db.
Proof.
  intros H Hc. induction db as [|c db IH]; [discriminate|]. simpl in *.
  destruct (p c).
  - injection H as ->. simpl. rewrite Hc. reflexivity.
  - simpl. rewrite (IH H). reflexivity.
Qed.

Lemma fold_max_ge (l : list Z) (a : Z) :
  a <= fold_left Z.max l a /\ forall x, In x l -> x <= fold_left Z.max l a.
Proof.
  revert a. induction l as [|y l IH]; intros a; simpl.
  - split; [lia|intros x []].
  - destruct (IH (Z.max a y)) as [Ha Hl]. split; [lia|].
    intros x [<-|Hx]; [lia|exact (Hl x Hx)].
Qed.

Lemma fresh_id_is_fresh (db : table) : ~ In (fresh_id db) (List.map id db).
Proof.
  intros H. apply (proj2 (fold_max_ge (List.map id db) 0)) in H.
  unfold fresh_id in H. lia.
Qed.

(** The three outcomes of saving one listing: nothing is written; the
    first stored row with the listing's name and price is rewritten in
    place; or a row with a fresh key is added at the end. Only an
    attempted insert is counted, also when nothing was written. *)
Lemma save_listing_cases now db d db' n :
  save_listing now db d = (db', n) ->
  (db' = db /\ (n <= 1)%nat
   /\ (List.find (same_listing d) db <> None -> n = 0%nat))
  \/ (exists e e',
        List.find (same_listing d) db = Some e
        /\ db' = replace_first (same_listing d) e' db /\ n = 0%nat
        /\ id e' = id e /\ name e' = name e /\ price_dzd e' = l_price_dzd d
        /\ in_stock e' = Some true /\ last_scraped_at e' = Some now)
  \/ (exists c,
        List.find (same_listing d) db = None
        /\ db' = (db ++ [c])%list /\ n = 1%nat
        /\ id c = fresh_id db /\ name c = l_name d
        /\ price_dzd c = l_price_dzd d
        /\ in_stock c = Some true /\ last_scraped_at c = Some now).
Proof.
  unfold save_listing.
  destruct (BenchmarkCalculator.calculate_benchmark_scores _ _ _) as [sc|];
    [|intros [= <- <-]; left; split; [reflexivity|split; [lia|intros _; reflexivity]]].
  destruct (List.find (same_listing d) db) as [e|] eqn:Ef.
  - destruct (update_existing _ _ _ _ _ _) as [e'|] eqn:Eu;
      intros [= <- <-]; [|left; split; [reflexivity|split; [lia|intros _; reflexivity]]].
    right. left. exists e, e'.
    apply update_existing_fields in Eu as (? & ? & ? & ? & ?).
    repeat split; assumption.
  - destruct (type_of_value _) as [ty|];
      [|intros [= <- <-]; left; split; [reflexivity|split; [lia|intros H; contradiction]]].
    destruct (condition_of_value _) as [k|];
      [|intros [= <- <-]; left; split; [reflexivity|split; [lia|intros H; contradiction]]].
    destruct (new_component _ _ _ _ _ _) as [c|] eqn:En;
      intros [= <- <-]; [|left; split; [reflexivity|split; [lia|intros H; contradiction]]].
    right. right. exists c.
    apply new_component_fields in En as (? & ? & ? & ? & ?).
    repeat split; assumption.
Qed.

Lemma save_listing_keys now db d db' n :
  save_listing now db d = (db', n) ->
  primary_key db ->
  primary_key db'
  /\ (length db <= length db' <= length db + n)%nat
  /\ (n <= 1)%nat
  /\ exists added, List.map id db' = (List.map id db ++ added)%list.
Proof.
  intros H Hk. apply save_listing_cases in H
    as [(-> & Hn & _)|[(e & e' & Hf & -> & -> & Hid & _)|(c & Hf & -> & -> & Hid & _)]].
  - split; [exact Hk|]. split; [lia|]. split; [exact Hn|].
    exists []. rewrite app_nil_r. reflexivity.
  - assert (Hids := replace_first_ids _ e' db e Hf Hid).
    assert (Hlen := f_equal (@length Z) Hids).
    rewrite !List.length_map in Hlen.
    unfold primary_key. rewrite Hids. split; [exact Hk|].
    split; [lia|]. split; [lia|].
    exists []. rewrite app_nil_r. reflexivity.
  - unfold primary_key. rewrite map_app. simpl. split.
    + apply List.NoDup_app; [exact Hk| |].
      * constructor; [intros []|constructor].
      * intros x Hx [<-|[]]. rewrite Hid in Hx.
        exact (fresh_id_is_fresh db Hx).
    + rewrite List.length_app. simpl. split; [lia|]. split; [lia|]. eauto.
Qed.

(** X26: a run of [scrape_component_type] keeps the primary keys
    pairwise distinct and keeps every stored key in its place; it removes
    no row, it adds at most as many rows as the count it returns, and that
    count is at most the number of listings. The count can be larger than
    the number of rows added, because an insert is counted before its
    commit. *)
Theorem scrape_counts_every_row_it_adds db components_data db' saved_count :
  scrape_component_type db components_data = (db', saved_count) ->
  primary_key db ->
  primary_key db'
  /\ (length db <= length db' <= length db + saved_count)%nat
  /\ (saved_count <= length components_data)%nat
  /\ exists added, List.map id db' = (List.map id db ++ added)%list.
Proof.
  revert db db' saved_count.
  induction components_data as [|[now d] rest IH]; intros db db' k H Hk.
  - simpl in H. injection H as <- <-.
    split; [exact Hk|]. split; [lia|]. split; [simpl; lia|].
    exists []. rewrite app_nil_r. reflexivity.
  - cbn [scrape_component_type] in H.
    destruct (save_listing now db d) as [db1 n] eqn:E1.
    destruct (scrape_component_type db1 rest) as [db2 m] eqn:E2.
    injection H as <- <-.
    destruct (save_listing_keys _ _ _ _ _ E1 Hk) as (Hk1 & Hl1 & Hn & a1 & Ha1).
    destruct (IH _ _ _ E2 Hk1) as (Hk2 & Hl2 & Hm & a2 & Ha2).
    split; [exact Hk2|]. split; [lia|]. split; [simpl; lia|].
    exists (a1 ++ a2)%list. rewrite Ha2, Ha1, app_assoc. reflexivity.
Qed.

(** A GPU listing as the scraper returns it. *)
Definition rtx_listing : listing :=
  {|
    l_name := "MSI RTX 3060 12GB GDDR6";
    l_price_dzd := 85000%Q;
    l_original_price := Some "85 000 DA";
    l_condition := Some "used";
    l_seller_location := Some "Oran";
    l_source_url := None;
    l_source_platform := None;
    l_component_type := "gpu";
    l_description := None
  |}.

(** A case listing: its extracted form factor is a list, which the
    [form_factor] column does not take, so the commit of its insert
    fails. *)
Definition nzxt_listing : listing :=
  {|
    l_name := "NZXT H510 ATX";
    l_price_dzd := 12000%Q;
    l_original_price := Some "12 000 DA";
    l_condition := None;
    l_seller_location := None;
    l_source_url := None;
    l_source_platform := None;
    l_component_type := "case";
    l_description := None
  |}.

(** The case is counted and not stored, the GPU is counted and stored. *)
Lemma scrape_counts_every_row_it_adds_witness :
  exists db' saved_count,
    scrape_component_type [] [(0, nzxt_listing); (hours 1, rtx_listing)]
    = (db', saved_count)
    /\ (length db' <= saved_count)%nat
    /\ length db' = 1%nat /\ saved_count = 2%nat.
Proof.
  pose (r := scrape_component_type [] [(0, nzxt_listing); (hours 1, rtx_listing)]).
  assert (Hr : (length (fst r), snd r) = (1%nat, 2%nat))
    by (vm_compute; reflexivity).
  assert (E : scrape_component_type [] [(0, nzxt_listing); (hours 1, rtx_listing)]
              = (fst r, snd r)) by (unfold r; destruct (scrape_component_type _ _); reflexivity).
  exists (fst r), (snd r). split; [exact E|].
  destruct (scrape_counts_every_row_it_adds _ _ _ _ E (List.NoDup_nil Z))
    as (_ & Hl & _).
  assert (H1 : length (fst r) = 1%nat) by exact (f_equal fst Hr).
  assert (H2 : snd r = 2%nat) by exact (f_equal snd Hr).
  split; [simpl in Hl; lia|]. split; assumption.
Defined.

Lemma save_listing_when_found now db d e :
  List.find (same_listing d) db = Some e ->
  List.map id (fst (save_listing now db d)) = List.map id db
  /\ snd (save_listing now db d) = 0%nat.
Proof.
  intros Hf. destruct (save_listing now db d) as [db' n] eqn:E. cbn [fst snd].
  apply save_listing_cases in E
    as [(-> & _ & Hn)|[(e0 & e' & Hf' & -> & -> & Hid & _)|(c & Hf' & _)]].
  - split; [reflexivity|]. apply Hn. congruence.
  - split; [|reflexivity]. exact (replace_first_ids _ e' db e0 Hf' Hid).
  - congruence.
Qed.

(** An insert that wrote nothing writes nothing at another instant
    either. *)
Lemma save_listing_fails_again now now' db d :
  List.find (same_listing d) db = None ->
  fst (save_listing now db d) = db ->
  fst (save_listing now' db d) = db.
Proof.
  unfold save_listing. intros Hf. rewrite Hf.
  destruct (BenchmarkCalculator.calculate_benchmark_scores _ _ _) as [sc|];
    [|reflexivity].
  destruct (type_of_value _) as [ty|]; [|reflexivity].
  destruct (condition_of_value _) as [k|]; [|reflexivity].
  destruct (new_component now _ _ _ _ _) as [c|] eqn:En; cbn [fst].
  - intros H. apply (f_equal (@length _)) in H.
    rewrite List.length_app in H. simpl in H. lia.
  - intros _. rewrite (new_component_None _ _ now' (fresh_id db) _ _ _ _ En).
    reflexivity.
Qed.

(** X27: a listing saved twice in a row is never stored twice: the
    second save leaves the keys of the table as the first save left them,
    whatever the two instants and whatever the outcome of the first save;
    and when the first save left a row with the listing's name and price,
    the second save counts nothing. *)
Theorem listing_seen_twice_is_stored_once now1 now2 db d :
  List.map id (fst (save_listing now2 (fst (save_listing now1 db d)) d))
  = List.map id (fst (save_listing now1 db d))
  /\ (List.find (same_listing d) (fst (save_listing now1 db d)) <> None ->
      snd (save_listing now2 (fst (save_listing now1 db d)) d) = 0%nat).
Proof.
  destruct (List.find (same_listing d) (fst (save_listing now1 db d)))
    as [e|] eqn:Ef.
  - destruct (save_listing_when_found now2 _ d e Ef) as [Hids Hn].
    split; [exact Hids|]. intros _. exact Hn.
  - split; [|intros H; contradiction].
    destruct (save_listing now1 db d) as [db1 n] eqn:E1. cbn [fst] in *.
    assert (E := E1). apply save_listing_cases in E
      as [(-> & _)|[(e0 & e' & Hf & -> & _ & _ & Hn & Hp & _)
                   |(c & Hf & -> & _ & _ & Hn & Hp & _)]].
    + rewrite (save_listing_fails_again now1 now2 db d Ef); [reflexivity|].
      rewrite E1. reflexivity.
    + exfalso.
      assert (He : same_listing d e0 = true) by (apply find_some in Hf; tauto).
      assert (He' : same_listing d e' = true).
      { unfold same_listing in *. rewrite Hn, Hp.
        apply andb_true_iff in He as [-> _]. apply Qeq_bool_iff. reflexivity. }
      rewrite (find_replace_first _ _ _ _ Hf He') in Ef. discriminate.
    + exfalso.
      rewrite (find_app_new _ _ _ Hf (same_listing_by_fields _ _ Hn Hp)) in Ef.
      discriminate.
Qed.

Lemma listing_seen_twice_is_stored_once_witness :
  snd (save_listing (hours 1) (fst (save_listing 0 [] rtx_listing)) rtx_listing)
  = 0%nat.
Proof.
  apply (proj2 (listing_seen_twice_is_stored_once 0 (hours 1) [] rtx_listing)).
  vm_compute. discriminate.
Defined.

(** X28: when saving a listing changes the table, the row found under
    the listing's name and price afterwards is in stock and stamped with
    the instant of the save, so no sweep run up to 48 hours later takes it
    out of stock. *)
Theorem saved_listing_is_fresh now db d db' n :
  save_listing now db d = (db', n) ->
  db' <> db ->
  exists c,
    List.find (same_listing d) db' = Some c
    /\ in_stock c = Some true
    /\ last_scraped_at c = Some now
    /\ forall later, later <= now + hours 48 ->
         stale (later - hours 48) c = false.
Proof.
  intros H Hne.
  assert (Hfresh : forall c, in_stock c = Some true ->
            last_scraped_at c = Some now ->
            forall later, later <= now + hours 48 ->
              stale (later - hours 48) c = false).
  { intros c Hs Ht later Hl. unfold stale. rewrite Ht, Hs.
    apply Z.ltb_ge. lia. }
  apply save_listing_cases in H
    as [(-> & _)|[(e & e' & Hf & -> & _ & _ & Hn & Hp & Hs & Ht)
                 |(c & Hf & -> & _ & _ & Hn & Hp & Hs & Ht)]];
    [contradiction| |].
  - exists e'. split; [|split; [exact Hs|split; [exact Ht|exact (Hfresh e' Hs Ht)]]].
    apply (find_replace_first _ _ _ _ Hf).
    assert (He : same_listing d e = true) by (apply find_some in Hf; tauto).
    unfold same_listing in *. rewrite Hn, Hp.
    apply andb_true_iff in He as [-> _]. apply Qeq_bool_iff. reflexivity.
  - exists c. split; [|split; [exact Hs|split; [exact Ht|exact (Hfresh c Hs Ht)]]].
    exact (find_app_new _ _ _ Hf (same_listing_by_fields _ _ Hn Hp)).
Qed.

Lemma saved_listing_is_fresh_witness :
  exists c,
    List.find (same_listing rtx_listing) (fst (save_listing 0 [] rtx_listing))
    = Some c
    /\ in_stock c = Some true.
Proof.
  pose (r := save_listing 0 [] rtx_listing).
  assert (Hlen : length (fst r) = 1%nat) by (vm_compute; reflexivity).
  assert (E : save_listing 0 [] rtx_listing = (fst r, snd r))
    by (unfold r; destruct (save_listing 0 [] rtx_listing); reflexivity).
  destruct (saved_listing_is_fresh 0 [] rtx_listing (fst r) (snd r) E)
    as (c & Hc & Hs & _).
  - intros H. rewrite H in Hlen. discriminate.
  - exists c. split; [exact Hc|exact Hs].
Defined.

(** The rows in stock. *)
Definition in_stock_rows (db : table) : nat :=
  length (List.filter
            (fun c => match in_stock c with Some true => true | _ => false end)
            db).

Lemma stale_set_out_of_stock cutoff c : stale cutoff (set_out_of_stock c) = false.
Proof. unfold stale. simpl. destruct (last_scraped_at c); reflexivity. Qed.

(** X29: the count the sweep reports is the number of rows that left
    stock, and a second sweep at the same instant changes nothing and
    reports zero. *)
Theorem sweep_counts_and_settles now db :
  in_stock_rows db
  = (in_stock_rows (fst (mark_out_of_stock now db))
     + snd (mark_out_of_stock now db))%nat
  /\ mark_out_of_stock now (fst (mark_out_of_stock now db))
     = (fst (mark_out_of_stock now db), 0%nat).
Proof.
  unfold mark_out_of_stock, in_stock_rows. cbn [fst snd]. split.
  - induction db as [|c db IH]; [reflexivity|].
    cbn [List.map List.filter].
    destruct (stale (now - hours 48) c) eqn:E.
    + assert (Hs : in_stock c = Some true).
      { unfold stale in E. destruct (last_scraped_at c); [|discriminate].
        destruct (in_stock c) as [[|]|]; try discriminate. reflexivity. }
      rewrite Hs. cbn [set_out_of_stock in_stock length]. lia.
    + destruct (in_stock c) as [[|]|]; cbn [length]; lia.
  - f_equal.
    + rewrite List.map_map. apply List.map_ext. intros c.
      destruct (stale (now - hours 48) c) eqn:E.
      * rewrite stale_set_out_of_stock. reflexivity.
      * rewrite E. reflexivity.
    + induction db as [|c db IH]; [reflexivity|].
      cbn [List.map List.filter].
      destruct (stale (now - hours 48) c) eqn:E.
      * rewrite stale_set_out_of_stock. exact IH.
      * rewrite E. exact IH.
Qed.

(** Two rows that the lookup of [scrape_component_type] cannot tell
    apart: same name, same price. *)
Definition same_key (a b : Component) : Prop :=
  name a = name b /\ (price_dzd a == price_dzd b)%Q.

(** No two rows of the table have the same name and price. *)
Fixpoint distinct_listings (db : table) : Prop :=
  match db with
  | [] => True
  | c :: db' => (forall c', In c' db' -> ~ same_key c c') /\ distinct_listings db'
  end.

Lemma same_key_sym a b : same_key a b -> same_key b a.
Proof. intros [Hn Hp]. split; [congruence|symmetry; exact Hp]. Qed.

Lemma same_key_trans a b c : same_key a b -> same_key b c -> same_key a c.
Proof.
  intros [Hn Hp] [Hn' Hp']. split; [congruence|].
  exact (Qeq_trans _ _ _ Hp Hp').
Qed.

Lemma same_listing_key d a :
  same_listing d a = true <->
  name a = l_name d /\ (price_dzd a == l_price_dzd d)%Q.
Proof.
  unfold same_listing. rewrite andb_true_iff, String.eqb_eq, Qeq_bool_iff.
  reflexivity.
Qed.

Lemma In_replace_first (p : Component -> bool) c' db x :
  In x (replace_first p c' db) -> x = c' \/ In x db.
Proof.
  induction db as [|c db IH]; simpl; [tauto|].
  destruct (p c); simpl.
  - intros [<-|H]; auto.
  - intros [<-|H]; [auto|]. destruct (IH H); auto.
Qed.

Lemma distinct_replace_first (p : Component -> bool) e e' db :
  distinct_listings db -> List.find p db = Some e -> same_key e' e ->
  distinct_listings (replace_first p e' db).
Proof.
  intros Hd Hf Hk. induction db as [|c db IH]; [exact I|].
  simpl in Hf |- *. destruct Hd as [Hc Hd]. destruct (p c).
  - injection Hf as ->. split; [|exact Hd].
    intros c' Hin H. apply (Hc c' Hin).
    exact (same_key_trans _ _ _ (same_key_sym _ _ Hk) H).
  - split; [|exact (IH Hd Hf)].
    intros c' Hin H. apply In_replace_first in Hin as [->|Hin].
    + apply find_some in Hf as [He _]. apply (Hc e He).
      exact (same_key_trans _ _ _ H Hk).
    + exact (Hc c' Hin H).
Qed.

Lemma distinct_app_new c db :
  distinct_listings db -> (forall x, In x db -> ~ same_key x c) ->
  distinct_listings (db ++ [c])%list.
Proof.
  intros Hd Hc. induction db as [|x db IH]; simpl.
  - split; [intros c' []|exact I].
  - destruct Hd as [Hx Hd]. split.
    + intros c' Hin. apply in_app_or in Hin as [Hin|[<-|[]]].
      * exact (Hx c' Hin).
      * apply Hc. left. reflexivity.
    + apply (IH Hd). intros y Hy. apply Hc. right. exact Hy.
Qed.

Lemma save_listing_distinct now db d db' n :
  save_listing now db d = (db', n) ->
  distinct_listings db -> distinct_listings db'.
Proof.
  intros H Hd. apply save_listing_cases in H
    as [(-> & _)|[(e & e' & Hf & -> & _ & _ & Hn & Hp & _)
                 |(c & Hf & -> & _ & _ & Hn & Hp & _)]].
  - exact Hd.
  - apply (distinct_replace_first _ e _ _ Hd Hf).
    assert (He : same_listing d e = true) by (apply find_some in Hf; tauto).
    apply same_listing_key in He as [Hne Hpe].
    split; [congruence|]. rewrite Hp. symmetry. exact Hpe.
  - apply (distinct_app_new _ _ Hd). intros x Hx [Hxn Hxp].
    assert (Hx' := find_none _ _ Hf x Hx).
    assert (same_listing d x = true); [|congruence].
    apply same_listing_key. split; [congruence|]. rewrite <- Hp. exact Hxp.
Qed.

(** X30: a run of [scrape_component_type] on a table in which no two
    rows have the same name and price leaves such a table: the lookup by
    name and price never has two rows to choose from. *)
Theorem scrape_keeps_listings_distinct db components_data db' saved_count :
  scrape_component_type db components_data = (db', saved_count) ->
  distinct_listings db -> distinct_listings db'.
Proof.
  revert db db' saved_count.
  induction components_data as [|[now d] rest IH]; intros db db' k H Hd.
  - simpl in H. injection H as <- <-. exact Hd.
  - cbn [scrape_component_type] in H.
    destruct (save_listing now db d) as [db1 n] eqn:E1.
    destruct (scrape_component_type db1 rest) as [db2 m] eqn:E2.
    injection H as <- <-.
    exact (IH _ _ _ E2 (save_listing_distinct _ _ _ _ _ E1 Hd)).
Qed.

Lemma scrape_keeps_listings_distinct_witness :
  distinct_listings
    (fst (scrape_component_type [] [(0, rtx_listing); (hours 1, rtx_listing)])).
Proof.
  destruct (scrape_component_type [] [(0, rtx_listing); (hours 1, rtx_listing)])
    as [db' k] eqn:E.
  exact (scrape_keeps_listings_distinct _ _ _ _ E I).
Defined.

End Ingestion.
